(** * WeaviateDocumentStore: a shallow embedding of
      [haystack/document_stores/weaviate.py]

    The development follows the Python module top to bottom.

    - [Py]: the fragment of Python's data model the module computes with:
      strings, JSON-like values, insertion-ordered dictionaries, exceptions.
    - [Sha256], [Uuid]: [hashlib.sha256] and [uuid.UUID], as far as
      [_sanitize_id] uses them.
    - [Backend]: the Weaviate service behind [self.weaviate_client], as an
      explicit state with a log of the calls it received.
    - [Store]: the methods of [WeaviateDocumentStore].

    Strings are Rocq strings: one character per element, code points below
    256; text with a character beyond that is outside the model.  On this
    range the classes [\d] and [[a-f]] of the regular expression are the
    ASCII ones, also under [re.IGNORECASE], the case mappings are those of
    Latin-1 (see [Py.upper_char] for the two characters whose upper case
    leaves the range), and UTF-8 encoding is exact. *)

From Stdlib Require Import ZArith List String Ascii Bool Lia.
From Stdlib Require Import Floats.SpecFloat.
Import ListNotations.

Set Implicit Arguments.
Set Warnings "-register-all".
Local Open Scope string_scope.

(* ===================================================================== *)
(** ** Python values, dictionaries, exceptions *)
(* ===================================================================== *)

Module Py.

(** The values that travel between the store and the backend: [None], [bool],
    [int], [float], [str], [list] and [dict] with string keys.  A dictionary
    is its list of items in insertion order; Python keeps the keys distinct. *)
Inductive value : Type :=
| VNone
| VBool (b : bool)
| VInt (n : Z)
| VFloat (f : spec_float)
| VStr (s : string)
| VList (l : list value)
| VDict (d : list (string * value)).

Definition dict : Type := list (string * value).

(** The exceptions the module raises or lets through. *)
Inductive exn : Type :=
| NotImplementedError
| KeyError (k : string)
| IndexError
| TypeError
| AttributeError
| ValueError
| JSONDecodeError
| FilterError
| AssertionError
| DuplicateDocumentError
| BackendError.

Inductive result (A : Type) : Type :=
| Ok (a : A)
| Raise (e : exn).

Arguments Ok {A} a.
Arguments Raise {A} e.

Definition is_ok {A} (r : result A) : bool :=
  match r with Ok _ => true | Raise _ => false end.

(** The operation is supported: it does not end in [NotImplementedError] *)
Definition supported {A} (r : result A) : Prop := r <> Raise NotImplementedError.

(** *** Dictionaries *)

Section Dict.
Variable V : Type.

(** [d.get(k)] *)
Fixpoint dict_get (k : string) (d : list (string * V)) : option V :=
  match d with
  | [] => None
  | (k', v) :: d' => if String.eqb k k' then Some v else dict_get k d'
  end.

(** [k in d] *)
Definition dict_mem (k : string) (d : list (string * V)) : bool :=
  match dict_get k d with Some _ => true | None => false end.

(** [d.pop(k, None)], the dictionary that is left *)
Fixpoint dict_remove (k : string) (d : list (string * V)) : list (string * V) :=
  match d with
  | [] => []
  | (k', v) :: d' =>
      if String.eqb k k' then dict_remove k d' else (k', v) :: dict_remove k d'
  end.

(** [d[k] = v]: an existing key keeps its position, a new one goes last *)
Fixpoint dict_set (k : string) (v : V) (d : list (string * V)) : list (string * V) :=
  match d with
  | [] => [(k, v)]
  | (k', v') :: d' =>
      if String.eqb k k' then (k, v) :: d' else (k', v') :: dict_set k v d'
  end.

(** [d.keys()] *)
Definition dict_keys (d : list (string * V)) : list string := map fst d.

(** [for k, v in items: d[k] = v] *)
Definition dict_update (items : list (string * V)) (d : list (string * V))
  : list (string * V) :=
  fold_left (fun acc kv => dict_set (fst kv) (snd kv) acc) items d.
End Dict.

(** [d.get(k)], with [None] for a key that is not there *)
Definition value_at (k : string) (d : dict) : value :=
  match dict_get k d with Some x => x | None => VNone end.

(** [x in l] for a string [x] and a list of strings *)
Definition str_in (x : string) (l : list string) : bool :=
  existsb (String.eqb x) l.

(** *** Truth value of an object, as tested by [if v:] *)
Definition float_nonzero (f : spec_float) : bool :=
  match f with S754_zero _ => false | _ => true end.

Definition truthy (v : value) : bool :=
  match v with
  | VNone => false
  | VBool b => b
  | VInt n => negb (Z.eqb n 0)
  | VFloat f => float_nonzero f
  | VStr s => negb (String.eqb s "")
  | VList l => match l with [] => false | _ => true end
  | VDict d => match d with [] => false | _ => true end
  end.

(** [v is not None] *)
Definition is_not_none (v : value) : bool :=
  match v with VNone => false | _ => true end.

(** *** Strings *)

Definition in_range (lo hi : N) (c : ascii) : bool :=
  (N.leb lo (N_of_ascii c) && N.leb (N_of_ascii c) hi)%bool.

Definition is_digit (c : ascii) : bool := in_range 48 57 c.

(** A character of ASCII *)
Definition is_ascii (c : ascii) : bool := N.ltb (N_of_ascii c) 128.

(** The case mappings are Unicode's, as [str.upper], [str.lower] and
    [str.capitalize] apply them.  On this range the cased letters are those of
    ASCII and of Latin-1, [U+00C0] to [U+00DE] and [U+00E0] to [U+00FE]
    without the signs [U+00D7] and [U+00F7], upper and lower case 32 apart;
    the sharp s, [U+00DF], has the upper case ["SS"] and the title case
    ["Ss"] and is its own lower case. *)
Definition is_lower (c : ascii) : bool :=
  (in_range 97 122 c || in_range 224 246 c || in_range 248 254 c)%bool.
Definition is_upper (c : ascii) : bool :=
  (in_range 65 90 c || in_range 192 214 c || in_range 216 222 c)%bool.
Definition is_sharp_s (c : ascii) : bool := N.eqb (N_of_ascii c) 223.

(** [c.upper()] for a one-character string.  The micro sign, [U+00B5], and
    the y with diaeresis, [U+00FF], have their upper case beyond code point
    255, where these strings do not reach: they are left as they are, and
    a text with one of them is outside the model where its case matters. *)
Definition upper_char (c : ascii) : string :=
  if is_sharp_s c then "SS"
  else String (if is_lower c then ascii_of_N (N_of_ascii c - 32) else c) EmptyString.

(** The title case of a character, which [capitalize] gives the first one
    (from Python 3.8 on; before, it was the upper case) *)
Definition title_char (c : ascii) : string :=
  if is_sharp_s c then "Ss" else upper_char c.

Definition lower_char (c : ascii) : ascii :=
  if is_upper c then ascii_of_N (N_of_ascii c + 32) else c.

Fixpoint str_map (f : ascii -> ascii) (s : string) : string :=
  match s with
  | EmptyString => EmptyString
  | String c s' => String (f c) (str_map f s')
  end.

(** [s.lower()] *)
Definition lower (s : string) : string := str_map lower_char s.

(** [s.capitalize()]: the first character in title case, the rest in lower
    case *)
Definition capitalize (s : string) : string :=
  match s with
  | EmptyString => EmptyString
  | String c s' => title_char c ++ lower s'
  end.

(** [c in s] for a one-character string [c] *)
Fixpoint contains_char (c : ascii) (s : string) : bool :=
  match s with
  | EmptyString => false
  | String c' s' => (Ascii.eqb c c' || contains_char c s')%bool
  end.

(** [s.split(c)] for a one-character separator: the current part is
    accumulated in reverse in [cur] *)
Fixpoint split_go (c : ascii) (s : string) (cur : string) : list string :=
  match s with
  | EmptyString => [cur]
  | String c' s' =>
      if Ascii.eqb c c' then cur :: split_go c s' EmptyString
      else split_go c s' (cur ++ String c' EmptyString)
  end.

Definition split (c : ascii) (s : string) : list string :=
  split_go c s EmptyString.

(** ["".join(parts)] *)
Definition join (parts : list string) : string :=
  fold_right String.append EmptyString parts.

(** [sub in s] for strings *)
Fixpoint is_substring (sub s : string) : bool :=
  (String.prefix sub s ||
   match s with
   | EmptyString => false
   | String _ s' => is_substring sub s'
   end)%bool.

(** [s[::2]] *)
Fixpoint every_second (s : string) : string :=
  match s with
  | EmptyString => EmptyString
  | String c EmptyString => String c EmptyString
  | String c (String _ s') => String c (every_second s')
  end.

(** [all(p(c) for c in s)] *)
Fixpoint all_chars (p : ascii -> bool) (s : string) : bool :=
  match s with
  | EmptyString => true
  | String c s' => (p c && all_chars p s')%bool
  end.

(** [s.encode("utf-8")], as a list of octets *)
Definition utf8_char (c : ascii) : list Z :=
  let n := Z.of_N (N_of_ascii c) in
  if (n <? 128)%Z then [n]
  else [Z.lor 192 (Z.shiftr n 6); Z.lor 128 (Z.land n 63)].

Fixpoint encode_utf8 (s : string) : list Z :=
  match s with
  | EmptyString => []
  | String c s' => (utf8_char c ++ encode_utf8 s')%list
  end.

End Py.

Import Py.

(* ===================================================================== *)
(** ** [hashlib.sha256]: SHA-256 of FIPS 180-4 over octets *)
(* ===================================================================== *)

Module Sha256.
Local Open Scope Z_scope.

Definition mask32 : Z := 0xffffffff.
Definition add32 (a b : Z) : Z := Z.land (a + b) mask32.
Definition rotr (n x : Z) : Z :=
  Z.lor (Z.shiftr x n) (Z.land (Z.shiftl x (32 - n)) mask32).
Definition not32 (x : Z) : Z := Z.lxor x mask32.

Definition Ch (x y z : Z) : Z := Z.lxor (Z.land x y) (Z.land (not32 x) z).
Definition Maj (x y z : Z) : Z :=
  Z.lxor (Z.lxor (Z.land x y) (Z.land x z)) (Z.land y z).
Definition bsig0 (x : Z) : Z := Z.lxor (Z.lxor (rotr 2 x) (rotr 13 x)) (rotr 22 x).
Definition bsig1 (x : Z) : Z := Z.lxor (Z.lxor (rotr 6 x) (rotr 11 x)) (rotr 25 x).
Definition ssig0 (x : Z) : Z := Z.lxor (Z.lxor (rotr 7 x) (rotr 18 x)) (Z.shiftr x 3).
Definition ssig1 (x : Z) : Z := Z.lxor (Z.lxor (rotr 17 x) (rotr 19 x)) (Z.shiftr x 10).

(** The constants of the standard are given by their construction: the
    first 32 bits of the fractional parts of the cube roots (for [K]) and of
    the square roots (for [H0]) of the first primes. *)
Definition is_prime (n : nat) : bool :=
  forallb (fun d => negb (Nat.eqb (Nat.modulo n d) 0)) (seq 2 (n - 2)).

Definition primes : list Z :=
  map Z.of_nat (filter is_prime (seq 2 310)).

(** The integer cube root of [n], one bit after the other from bit [b] *)
Fixpoint cube_root (b : nat) (n r : Z) : Z :=
  let try_bit r b := if (r + 2 ^ b) ^ 3 <=? n then r + 2 ^ b else r in
  match b with
  | O => try_bit r 0
  | S b' => cube_root b' n (try_bit r (Z.of_nat b))
  end.

Definition K : list Z :=
  Eval vm_compute in
    map (fun p => Z.land (cube_root 35 (p * 2 ^ 96) 0) mask32) primes.

Record state : Type :=
  mk_state { ha : Z; hb : Z; hc : Z; hd : Z; he : Z; hf : Z; hg : Z; hh : Z }.

Definition root_bits (i : nat) : Z :=
  Z.land (Z.sqrt (nth i primes 0 * 2 ^ 64)) mask32.

Definition H0 : state :=
  Eval vm_compute in
    mk_state (root_bits 0) (root_bits 1) (root_bits 2) (root_bits 3)
             (root_bits 4) (root_bits 5) (root_bits 6) (root_bits 7).

Definition round (k w : Z) (s : state) : state :=
  let t1 := add32 (add32 (add32 (hh s) (bsig1 (he s))) (add32 (Ch (he s) (hf s) (hg s)) k)) w in
  let t2 := add32 (bsig0 (ha s)) (Maj (ha s) (hb s) (hc s)) in
  mk_state (add32 t1 t2) (ha s) (hb s) (hc s) (add32 (hd s) t1) (he s) (hf s) (hg s).

(** The 64 rounds of one block.  [w] is the window of the sixteen most
    recent schedule words, oldest first. *)
Fixpoint rounds (ks : list Z) (w : list Z) (s : state) : state :=
  match ks with
  | [] => s
  | k :: ks' =>
      let wt := nth 0 w 0 in
      let next :=
        add32 (add32 (ssig1 (nth 14 w 0)) (nth 9 w 0)) (add32 (ssig0 (nth 1 w 0)) wt) in
      rounds ks' (tl w ++ [next])%list (round k wt s)
  end.

Definition add_state (s t : state) : state :=
  mk_state (add32 (ha s) (ha t)) (add32 (hb s) (hb t)) (add32 (hc s) (hc t))
           (add32 (hd s) (hd t)) (add32 (he s) (he t)) (add32 (hf s) (hf t))
           (add32 (hg s) (hg t)) (add32 (hh s) (hh t)).

(** Big-endian words of a block of octets *)
Fixpoint words_of (bytes : list Z) : list Z :=
  match bytes with
  | b0 :: b1 :: b2 :: b3 :: rest =>
      (Z.shiftl b0 24 + Z.shiftl b1 16 + Z.shiftl b2 8 + b3) :: words_of rest
  | _ => []
  end.

Definition compress (s : state) (block : list Z) : state :=
  add_state s (rounds K (words_of block) s).

Fixpoint blocks (n : nat) (bytes : list Z) (s : state) : state :=
  match n with
  | O => s
  | S n' => blocks n' (skipn 64 bytes) (compress s (firstn 64 bytes))
  end.

(** Big-endian octets of [x], [n] of them *)
Fixpoint be_bytes (n : nat) (x : Z) : list Z :=
  match n with
  | O => []
  | S n' => Z.land (Z.shiftr x (8 * Z.of_nat n')) 255 :: be_bytes n' x
  end.

Definition pad (msg : list Z) : list Z :=
  let l := Z.of_nat (List.length msg) in
  (msg ++ [0x80] ++ repeat 0 (Z.to_nat ((55 - l) mod 64)) ++ be_bytes 8 (8 * l))%list.

Definition digest (msg : list Z) : state :=
  let p := pad msg in
  blocks (Nat.div (List.length p) 64) p H0.

(** Lower-case hexadecimal digits *)
Definition hex_digit (n : Z) : ascii :=
  if n <? 10 then ascii_of_N (Z.to_N (48 + n)) else ascii_of_N (Z.to_N (87 + n)).

(** The [n] low hexadecimal digits of [x], most significant first *)
Fixpoint hex_of (n : nat) (x : Z) : string :=
  match n with
  | O => EmptyString
  | S n' => String (hex_digit (Z.land (Z.shiftr x (4 * Z.of_nat n')) 15)) (hex_of n' x)
  end.

(** [hashlib.sha256(msg).hexdigest()] *)
Definition hexdigest (msg : list Z) : string :=
  let s := digest msg in
  (hex_of 8 (ha s) ++ hex_of 8 (hb s) ++ hex_of 8 (hc s) ++ hex_of 8 (hd s) ++
   hex_of 8 (he s) ++ hex_of 8 (hf s) ++ hex_of 8 (hg s) ++ hex_of 8 (hh s))%string.

End Sha256.


(* ===================================================================== *)
(** ** [uuid.UUID] and the module constant [UUID_PATTERN] *)
(* ===================================================================== *)

Module Uuid.

(** [[\da-f]] under [re.IGNORECASE] *)
Definition is_hex (c : ascii) : bool :=
  (is_digit c || in_range 97 102 c || in_range 65 70 c)%bool.

Definition hex_value (c : ascii) : Z :=
  let n := Z.of_N (N_of_ascii c) in
  if is_digit c then (n - 48)%Z
  else if in_range 97 102 c then (n - 87)%Z
  else (n - 55)%Z.

(** [int(h, 16)] on a string of hexadecimal digits *)
Fixpoint int_of_hex (h : string) (acc : Z) : Z :=
  match h with
  | EmptyString => acc
  | String c h' => int_of_hex h' (16 * acc + hex_value c)%Z
  end.

(** [uuid.UUID(h)] for a string [h] of hexadecimal digits: the 128-bit
    integer of the UUID; [ValueError] unless there are 32 of them. *)
Definition of_hex (h : string) : result Z :=
  if (Nat.eqb (String.length h) 32 && all_chars is_hex h)%bool
  then Ok (int_of_hex h 0)
  else Raise ValueError.

(** [str(u)]: ['%032x' % u.int], cut into groups of 8, 4, 4, 4 and 12 *)
Definition to_str (n : Z) : string :=
  let h := Sha256.hex_of 32 n in
  substring 0 8 h ++ "-" ++ substring 8 4 h ++ "-" ++ substring 12 4 h ++ "-"
    ++ substring 16 4 h ++ "-" ++ substring 20 12 h.

(** *** Matching [^[\da-f]{8}-([\da-f]{4}-){3}[\da-f]{12}$]

    Each piece of the pattern consumes a prefix of the subject and hands
    the rest on; the pattern has no alternatives, so there is nothing to
    backtrack over. *)

(** [[...]{n}] *)
Fixpoint take_class (p : ascii -> bool) (n : nat) (s : string) : option string :=
  match n with
  | O => Some s
  | S n' =>
      match s with
      | String c s' => if p c then take_class p n' s' else None
      | EmptyString => None
      end
  end.

(** a literal character *)
Definition take_char (c : ascii) (s : string) : option string :=
  match s with
  | String c' s' => if Ascii.eqb c c' then Some s' else None
  | EmptyString => None
  end.

(** [(...){n}] *)
Fixpoint take_rep (n : nat) (f : string -> option string) (s : string) : option string :=
  match n with
  | O => Some s
  | S n' => match f s with Some s' => take_rep n' f s' | None => None end
  end.

Definition and_then (o : option string) (f : string -> option string) : option string :=
  match o with Some s => f s | None => None end.

(** [$] without [re.MULTILINE]: the end of the subject, or just before a
    newline that ends it *)
Definition at_end (s : string) : bool :=
  match s with
  | EmptyString => true
  | String c EmptyString => Ascii.eqb c "010"%char
  | _ => false
  end.

Definition group4 (s : string) : option string :=
  and_then (take_class is_hex 4 s) (take_char "-").

(** [UUID_PATTERN.match(s)], as a truth value *)
Definition UUID_PATTERN (s : string) : bool :=
  match
    and_then (and_then (and_then (take_class is_hex 8 s) (take_char "-"))
                       (take_rep 3 group4))
             (take_class is_hex 12)
  with
  | Some rest => at_end rest
  | None => false
  end.

(** The canonical UUID grammar in the words of the specification: groups
    of 8, 4, 4, 4 and 12 hexadecimal digits, in either case, joined by
    hyphens. *)
Definition hex_group (n : nat) (s : string) : Prop :=
  String.length s = n /\ all_chars is_hex s = true.

Inductive canonical : string -> Prop :=
| canonical_groups (a b c d e : string) :
    hex_group 8 a -> hex_group 4 b -> hex_group 4 c -> hex_group 4 d ->
    hex_group 12 e ->
    canonical (a ++ "-" ++ b ++ "-" ++ c ++ "-" ++ d ++ "-" ++ e).

End Uuid.

(* ===================================================================== *)
(** ** The Weaviate service behind [self.weaviate_client] *)
(* ===================================================================== *)

(** The client library and the server are not part of the module.  The
    store only sees them through the calls of [self.weaviate_client]; the
    model below is the state those calls read and change, together with the
    list of calls received, oldest first. *)

Module Backend.

(** One entry of a class's ["properties"]: ["name"] and ["dataType"] *)
Record property : Type :=
  mk_property { prop_name : string; prop_dataType : list string }.

(** One entry of the schema's ["classes"]: ["class"] and ["properties"] *)
Record class_item : Type :=
  mk_class { class_name : string; class_properties : list property }.

(** A stored object: its class, its property values and its vector *)
Record object : Type :=
  mk_object { obj_class : string; obj_properties : dict; obj_vector : value }.

Inductive call : Type :=
| SchemaGet
| SchemaContains
| SchemaCreate
| SchemaDeleteClass (index : string)
| PropertyCreate (index : string) (p : property)
| ObjectGetById (uuid : string)
| ObjectUpdate (cls : string) (uuid : string)
| ObjectDelete (uuid : string)
| BatchCreate (uuids : list string)
| QueryGet (cls : string) (where_ : option value) (limit : option Z)
| QueryRaw (q : string)
| QueryAggregate (cls : string) (where_ : option value).

Record t : Type :=
  mk_backend {
    schema : list class_item;
    objects : list (string * object);
    log : list call
  }.

Definition empty : t := mk_backend [] [] [].

Definition record (c : call) (b : t) : t :=
  mk_backend (schema b) (objects b) (log b ++ [c])%list.

Definition has_class (index : string) (b : t) : bool :=
  existsb (fun c => String.eqb (class_name c) index) (schema b).

(** [schema.get()["classes"]] *)
Definition schema_get (b : t) : list class_item * t :=
  (schema b, record SchemaGet b).

(** [schema.contains(s)]: every class of [s] is known by name *)
Definition schema_contains (s : list class_item) (b : t) : bool * t :=
  (forallb (fun c => has_class (class_name c) b) s, record SchemaContains b).

(** [schema.create(s)]: the classes of [s] are added one by one; a class
    that exists already is refused *)
Fixpoint add_classes (s : list class_item) (sch : list class_item)
  : result (list class_item) :=
  match s with
  | [] => Ok sch
  | c :: s' =>
      if existsb (fun c' => String.eqb (class_name c') (class_name c)) sch
      then Raise BackendError
      else add_classes s' (sch ++ [c])%list
  end.

Definition schema_create (s : list class_item) (b : t) : result unit * t :=
  let b := record SchemaCreate b in
  match add_classes s (schema b) with
  | Ok sch => (Ok tt, mk_backend sch (objects b) (log b))
  | Raise e => (Raise e, b)
  end.

(** [schema.delete_class(index)]: the class goes, and its objects with it *)
Definition schema_delete_class (index : string) (b : t) : unit * t :=
  let b := record (SchemaDeleteClass index) b in
  (tt, mk_backend
         (filter (fun c => negb (String.eqb (class_name c) index)) (schema b))
         (filter (fun o => negb (String.eqb (obj_class (snd o)) index)) (objects b))
         (log b)).

(** [schema.property.create(index, p)]: [p] is appended to the class;
    an unknown class is refused *)
Definition add_property (index : string) (p : property) (c : class_item) : class_item :=
  if String.eqb (class_name c) index
  then mk_class (class_name c) (class_properties c ++ [p])%list
  else c.

Definition property_create (index : string) (p : property) (b : t) : result unit * t :=
  let b := record (PropertyCreate index p) b in
  if has_class index b
  then (Ok tt, mk_backend (map (add_property index p) (schema b)) (objects b) (log b))
  else (Raise BackendError, b).

(** The answer of [data_object.get_by_id(uuid, with_vector=True)] for a
    stored object: the fields sit under ["properties"] *)
Definition get_shape (uuid : string) (o : object) : value :=
  VDict [("class", VStr (obj_class o)); ("id", VStr uuid);
         ("properties", VDict (obj_properties o)); ("vector", obj_vector o)].

(** [data_object.get_by_id(uuid, with_vector=True)]: [None] when there is
    no such object *)
Definition get_by_id (uuid : string) (b : t) : option value * t :=
  (option_map (get_shape uuid) (dict_get uuid (objects b)),
   record (ObjectGetById uuid) b).

(** [data_object.delete(uuid)] *)
Definition delete (uuid : string) (b : t) : unit * t :=
  let b := record (ObjectDelete uuid) b in
  (tt, mk_backend (schema b) (dict_remove uuid (objects b)) (log b)).

(** [data_object.update(fields, class_name, uuid, vector)]: the given
    fields replace the stored ones of the same name, and the vector is
    replaced when one is given; an unknown object is refused *)
Definition update (fields : dict) (cls uuid : string) (vector : option value) (b : t)
  : result unit * t :=
  let b := record (ObjectUpdate cls uuid) b in
  match dict_get uuid (objects b) with
  | Some o =>
      let o' := mk_object (obj_class o) (dict_update fields (obj_properties o))
                          (match vector with Some v => v | None => obj_vector o end) in
      (Ok tt, mk_backend (schema b) (dict_set uuid o' (objects b)) (log b))
  | None => (Raise BackendError, b)
  end.

(** [batch.create(docs_batch)]: every queued object is stored under its
    uuid, replacing an object that has it already *)
Definition batch_create (batch : list (string * object)) (b : t) : unit * t :=
  let b := record (BatchCreate (map fst batch)) b in
  (tt, mk_backend (schema b)
         (dict_update batch (objects b))
         (log b)).

(** The objects a [Get] or [Aggregate] on class [cls] ranges over.
    [matches] is the service's evaluation of a [where] filter on the
    properties of an object. *)
Definition select (matches : value -> dict -> bool) (cls : string)
    (where_ : option value) (b : t) : list (string * object) :=
  filter (fun uo =>
            (String.eqb (obj_class (snd uo)) cls &&
             match where_ with
             | Some f => matches f (obj_properties (snd uo))
             | None => true
             end)%bool)
         (objects b).

Definition first_n (limit : option Z) (l : list (string * object)) : list (string * object) :=
  match limit with
  | Some k => firstn (Z.to_nat k) l
  | None => l
  end.

(** The selector the store adds to the properties it asks for *)
Definition additional_selector : string := "_additional {id, certainty, vector}".

(** One hit of a [Get] query: the requested fields at the root (a field
    the object lacks is null), and under ["_additional"] the id, the
    certainty (null without a vector search) and the vector *)
Definition query_field (uuid : string) (o : object) (p : string) : string * value :=
  if String.eqb p additional_selector
  then ("_additional",
        VDict [("id", VStr uuid); ("certainty", VNone); ("vector", obj_vector o)])
  else (p, match dict_get p (obj_properties o) with Some v => v | None => VNone end).

Definition query_shape (properties : list string) (uo : string * object) : value :=
  VDict (map (query_field (fst uo) (snd uo)) properties).

(** [query.get(cls, properties).with_where(f).with_limit(k).do()]; an
    unknown class gives an answer without ["data"] *)
Definition query_get (matches : value -> dict -> bool) (cls : string)
    (properties : list string) (where_ : option value) (limit : option Z) (b : t)
  : value * t :=
  (if has_class cls b
   then VDict [("data", VDict [("Get",
          VDict [(cls, VList (map (query_shape properties)
                                  (first_n limit (select matches cls where_ b))))])])]
   else VDict [("errors", VList [VStr "no such class"])],
   record (QueryGet cls where_ limit) b).

(** [query.aggregate(cls).with_fields("meta { count }").with_where(f).do()] *)
Definition query_aggregate (matches : value -> dict -> bool) (cls : string)
    (where_ : option value) (b : t) : value * t :=
  (if has_class cls b
   then VDict [("data", VDict [("Aggregate",
          VDict [(cls, VList [VDict [("meta",
            VDict [("count",
                    VInt (Z.of_nat (List.length (select matches cls where_ b))))])]])])])]
   else VDict [("errors", VList [VStr "no such class"])],
   record (QueryAggregate cls where_) b).

(** [query.raw(q)]: the answer is whatever the service makes of [q] *)
Definition query_raw (raw : string -> t -> value) (q : string) (b : t) : value * t :=
  (raw q b, record (QueryRaw q) b).

(** The calls of the log that are queries *)
Definition is_query (c : call) : bool :=
  match c with
  | QueryGet _ _ _ | QueryRaw _ | QueryAggregate _ _ => true
  | _ => false
  end.

(** The names of the properties that the calls of a log have added to the
    schema, in the order of the calls *)
Definition migrated (l : list call) : list string :=
  flat_map (fun c => match c with PropertyCreate _ p => [prop_name p] | _ => [] end) l.

End Backend.

(* ===================================================================== *)
(** ** What the module imports from the rest of the library *)
(* ===================================================================== *)

(** Functions the module calls and does not define.  A failure they can
    signal is [None]. *)
Record collaborators : Type :=
  mk_collaborators {
    (** [haystack.document_stores.utils.convert_date_to_rfc3339];
        [None] is its [ValueError] *)
    convert_date_to_rfc3339 : string -> option string;
    (** [json.loads]; [None] is its [JSONDecodeError] *)
    json_loads : string -> option value;
    (** [json.dumps] *)
    json_dumps : value -> string;
    (** [str(v)] for a [v] that is not a string *)
    repr : value -> string;
    (** [np.asarray(v, dtype=np.float32)] *)
    np_asarray : value -> value;
    (** [BaseDocumentStore.normalize_embedding] *)
    normalize_embedding : value -> value;
    (** [np.random.rand(n).astype(np.float32)] *)
    random_embedding : nat -> value;
    (** [LogicalFilterClause.parse(filters).convert_to_weaviate()];
        [None] is a filter it rejects *)
    convert_to_weaviate : value -> option value;
    (** the service's evaluation of a [where] filter on an object *)
    where_matches : value -> dict -> bool;
    (** the service's answer to a raw GraphQL query *)
    raw_answer : string -> Backend.t -> value;
    (** the id that [Document] derives from the fields it is given when it
        is given no id *)
    generated_id : dict -> string
  }.

(** Modelled from the spec: the [Document] class of [haystack.schema],
    which is not part of these sources: the record of section 3, with the
    fields that [_convert_weaviate_result_to_document] hands to
    [Document.from_dict] and that [Document.to_dict] gives back. *)
Record Document : Type :=
  mk_document {
    doc_id : value;
    doc_content : value;
    doc_content_type : value;
    doc_meta : dict;
    doc_score : value;
    doc_embedding : value
  }.

(** The constructor arguments the methods read from [self] *)
Record config : Type :=
  mk_config {
    index : string;
    embedding_dim : nat;
    content_field : string;
    name_field : string;
    embedding_field : string;
    return_embedding : bool;
    custom_schema : option (list Backend.class_item);
    duplicate_documents : string
  }.

(** What a call can change: the service, and the flag
    [self.uuid_format_warning_raised] *)
Record world : Type :=
  mk_world { backend : Backend.t; uuid_format_warning_raised : bool }.

(** A method body: it runs in a world, returns or raises, and leaves a
    world behind; what was done before an exception stays done. *)
Definition M (A : Type) : Type := world -> result A * world.

Definition ret {A} (a : A) : M A := fun w => (Ok a, w).
Definition raise {A} (e : exn) : M A := fun w => (Raise e, w).
Definition lift {A} (r : result A) : M A := fun w => (r, w).

Definition bind {A B} (m : M A) (k : A -> M B) : M B :=
  fun w =>
    match m w with
    | (Ok a, w') => k a w'
    | (Raise e, w') => (Raise e, w')
    end.

Notation "'let*' x := m 'in' k" :=
  (bind m (fun x => k)) (at level 10, x name, k at level 200).

(** A call of the client that cannot fail in the model *)
Definition request {A} (f : Backend.t -> A * Backend.t) : M A :=
  fun w =>
    let (a, b) := f (backend w) in
    (Ok a, mk_world b (uuid_format_warning_raised w)).

(** A call of the client that the service may refuse *)
Definition request_r {A} (f : Backend.t -> result A * Backend.t) : M A :=
  fun w =>
    let (r, b) := f (backend w) in
    (r, mk_world b (uuid_format_warning_raised w)).

(** A method body that never ends in [NotImplementedError] *)
Definition always_supported {A} (m : M A) : Prop :=
  forall w, supported (fst (m w)).

(** [for x in l: body(x)] *)
Fixpoint for_each {A} (l : list A) (body : A -> M unit) : M unit :=
  match l with
  | [] => ret tt
  | x :: l' => let* _ := body x in for_each l' body
  end.

(** *** Generators

    Calling a generator function runs none of its body: it returns a
    generator, and the body runs when the generator is iterated.  A
    generator is modelled by its body, a method that yields its items as a
    list: the module iterates each generator it makes to the end and at one
    place ([list(g)], [for x in g]), and what the body does to the service
    it does before its first item. *)
Definition generator (A : Type) : Type := M (list A).

(** [list(g)], or a loop over [g] that runs to the end *)
Definition iterate {A} (g : generator A) : M (list A) := g.

(** *** Duck-typed access to values *)

(** [v.get(k)] *)
Definition py_get (k : string) (v : value) : result value :=
  match v with
  | VDict d => Ok (value_at k d)
  | _ => Raise AttributeError
  end.

(** [k in v] for a string [k] *)
Definition py_in (k : string) (v : value) : result bool :=
  match v with
  | VDict d => Ok (dict_mem k d)
  | VStr s => Ok (is_substring k s)
  | VList l =>
      Ok (existsb (fun x => match x with VStr s => String.eqb k s | _ => false end) l)
  | _ => Raise TypeError
  end.

(** [v[k]] for a string [k] *)
Definition py_getitem (k : string) (v : value) : result value :=
  match v with
  | VDict d => match dict_get k d with Some x => Ok x | None => Raise (KeyError k) end
  | _ => Raise TypeError
  end.

(** [v[0]] *)
Definition py_first (v : value) : result value :=
  match v with
  | VList (x :: _) => Ok x
  | VList [] => Raise IndexError
  | VStr (String c _) => Ok (VStr (String c EmptyString))
  | VStr EmptyString => Raise IndexError
  | VDict _ => Raise (KeyError "0")
  | _ => Raise TypeError
  end.

(** The elements [for x in v] goes through *)
Fixpoint chars (s : string) : list value :=
  match s with
  | EmptyString => []
  | String c s' => VStr (String c EmptyString) :: chars s'
  end.

Definition py_iter (v : value) : result (list value) :=
  match v with
  | VList l => Ok l
  | VDict d => Ok (map (fun kv => VStr (fst kv)) d)
  | VStr s => Ok (chars s)
  | _ => Raise TypeError
  end.

Definition rbind {A B} (r : result A) (k : A -> result B) : result B :=
  match r with Ok a => k a | Raise e => Raise e end.

Notation "'let+' x := r 'in' k" :=
  (rbind r (fun x => k)) (at level 10, x name, k at level 200).

Definition isinstance_str (v : value) : bool :=
  match v with VStr _ => true | _ => false end.
(** [bool] is a subclass of [int] *)
Definition isinstance_int (v : value) : bool :=
  match v with VInt _ | VBool _ => true | _ => false end.
Definition isinstance_float (v : value) : bool :=
  match v with VFloat _ => true | _ => false end.
Definition isinstance_bool (v : value) : bool :=
  match v with VBool _ => true | _ => false end.
Definition isinstance_list (v : value) : bool :=
  match v with VList _ => true | _ => false end.

(** [str(v)] *)
Definition py_str (ext : collaborators) (v : value) : string :=
  match v with VStr s => s | _ => repr ext v end.

(** [Document.from_dict(d)] for a dictionary with the keys ["id"],
    ["content"], ["content_type"], ["meta"], ["score"] and ["embedding"], as
    the decoder builds it.  [haystack.schema] is not part of these sources,
    and the spec has the record only; the constructor is taken with its two
    guards.  A content that is [None] is refused with [ValueError].  An id
    that is [None], or false in another way, is replaced by the id the class
    derives from the document, [generated_id]; an id that is given is kept,
    as a string.  The other entries become the fields as they are: an array
    is not told from the list of its numbers here. *)
Definition from_dict (ext : collaborators) (d : dict) : result Document :=
  let content := value_at "content" d in
  if is_not_none content then
    let id := value_at "id" d in
    Ok (mk_document
          (VStr (if truthy id then py_str ext id else generated_id ext d))
          content
          (value_at "content_type" d)
          (match value_at "meta" d with VDict meta => meta | _ => [] end)
          (value_at "score" d)
          (value_at "embedding" d))
  else Raise ValueError.

(** [o or d] for an optional string [o] *)
Definition or_default (o : option string) (d : string) : string :=
  match o with
  | Some s => if String.eqb s "" then d else s
  | None => d
  end.

(* ===================================================================== *)
(** ** [class WeaviateDocumentStore] *)
(* ===================================================================== *)

Section Store.

Variable ext : collaborators.
Variable self : config.

Definition _sanitize_index_name (index : option string) : result (option string) :=
  match index with
  | None => Ok None
  | Some i =>
      if contains_char "_" i
      then Ok (Some (join (map capitalize (split "_" i))))
      else
        match i with
        | String c rest => Ok (Some (upper_char c ++ rest))
        | EmptyString => Raise IndexError
        end
  end.

(** [self._sanitize_index_name(index) or self.index], the first statement
    of nearly every method *)
Definition index_or_default (i : option string) : result string :=
  let+ s := _sanitize_index_name i in
  Ok (or_default s (index self)).

Definition default_schema (index : string) : list Backend.class_item :=
  [Backend.mk_class index
     [Backend.mk_property (name_field self) ["string"];
      Backend.mk_property (content_field self) ["text"]]].

Definition _create_schema_and_index_if_not_exist (index : option string) : M unit :=
  let* index := lift (index_or_default index) in
  let schema :=
    match custom_schema self with
    | Some s => s
    | None => default_schema index
    end in
  let* known := request (Backend.schema_contains schema) in
  if negb known then request_r (Backend.schema_create schema) else ret tt.

(** The dictionary [res] (or its ["properties"]) is changed in place by the
    two [pop]s; no caller uses it again, so the change is local here. *)
Definition _convert_weaviate_result_to_document (res : value) (return_embedding : bool)
  : result Document :=
  let score := VNone in
  let content := VStr "" in
  let+ id := py_get "id" res in
  let+ embedding := py_get "vector" res in
  let+ props := py_get "properties" res in
  let props := if negb (truthy props) then res else props in
  match props with
  | VDict props =>
      let c := value_at (content_field self) props in
      let+ content :=
        if is_not_none c
        then match json_loads ext (py_str ext c) with
             | Some x => Ok x
             | None => Raise JSONDecodeError
             end
        else Ok content in
      let ct := value_at "content_type" props in
      let content_type := if is_not_none ct then VStr (py_str ext ct) else VNone in
      let props := if is_not_none ct then dict_remove "content_type" props else props in
      let+ found :=
        match dict_get "_additional" props with
        | Some additional =>
            let+ has_certainty := py_in "certainty" additional in
            let+ score := if has_certainty then py_getitem "certainty" additional else Ok score in
            let+ has_id := py_in "id" additional in
            let+ id := if has_id then py_getitem "id" additional else Ok id in
            let+ has_vector := py_in "vector" additional in
            let+ embedding := if has_vector then py_getitem "vector" additional else Ok embedding in
            Ok (score, id, embedding, dict_remove "_additional" props)
        | None => Ok (score, id, embedding, props)
        end in
      let '(score, id, embedding, props) := found in
      let meta_data :=
        filter (fun kv => negb (str_in (fst kv) [content_field self; embedding_field self]))
               props in
      let embedding :=
        if (return_embedding && truthy embedding)%bool
        then np_asarray ext embedding
        else embedding in
      from_dict ext
        [("id", id); ("content", content); ("content_type", content_type);
         ("meta", VDict meta_data); ("score", score); ("embedding", embedding)]
  | _ => Raise AttributeError
  end.

Definition _sanitize_id (id : string) (index : option string) : M string :=
  let* index := lift (index_or_default index) in
  if negb (Uuid.UUID_PATTERN id)
  then
    let hashed_id := Sha256.hexdigest (encode_utf8 (id ++ index)) in
    let* u := lift (Uuid.of_hex (every_second hashed_id)) in
    let generated_uuid := Uuid.to_str u in
    fun w => (Ok generated_uuid, mk_world (backend w) true)
  else ret id.

(** [if result:] on the answer of [get_by_id] *)
Definition found (r : option value) : option value :=
  match r with
  | Some v => if truthy v then Some v else None
  | None => None
  end.

Definition get_document_by_id (id : string) (index : option string) (headers : value)
  : M (option Document) :=
  if truthy headers then raise NotImplementedError
  else
    let* index := lift (index_or_default index) in
    let* id := _sanitize_id id (Some index) in
    let* r := request (Backend.get_by_id id) in
    match found r with
    | Some res =>
        let* document := lift (_convert_weaviate_result_to_document res true) in
        ret (Some document)
    | None => ret None
    end.

(** The loop of [get_documents_by_id], with the list [documents] built so far *)
Fixpoint get_documents_by_id_loop (ids : list string) (index : string)
    (documents : list Document) : M (list Document) :=
  match ids with
  | [] => ret documents
  | id :: ids' =>
      let* id := _sanitize_id id (Some index) in
      let* r := request (Backend.get_by_id id) in
      match found r with
      | Some res =>
          let* document := lift (_convert_weaviate_result_to_document res true) in
          get_documents_by_id_loop ids' index (documents ++ [document])%list
      | None => get_documents_by_id_loop ids' index documents
      end
  end.

Definition get_documents_by_id (ids : list string) (index : option string)
    (batch_size : Z) (headers : value) : M (list Document) :=
  if truthy headers then raise NotImplementedError
  else
    let* index := lift (index_or_default index) in
    get_documents_by_id_loop ids index [].

(** The last class named [index] decides *)
Definition _get_current_properties (index : option string) : M (list string) :=
  let* index := lift (index_or_default index) in
  let* classes := request Backend.schema_get in
  ret (fold_left
         (fun cur_properties class_item =>
            if String.eqb (Backend.class_name class_item) index
            then map Backend.prop_name (Backend.class_properties class_item)
            else cur_properties)
         classes []).

(** [[item["name"] for item in properties if item["dataType"][0] == "date"]] *)
Fixpoint date_names (properties : list Backend.property) : result (list string) :=
  match properties with
  | [] => Ok []
  | item :: rest =>
      match Backend.prop_dataType item with
      | [] => Raise IndexError
      | t :: _ =>
          let+ names := date_names rest in
          Ok (if String.eqb t "date" then Backend.prop_name item :: names else names)
      end
  end.

Fixpoint date_properties_of (classes : list Backend.class_item) (index : string)
    (cur_properties : list string) : result (list string) :=
  match classes with
  | [] => Ok cur_properties
  | class_item :: rest =>
      if String.eqb (Backend.class_name class_item) index
      then
        let+ names := date_names (Backend.class_properties class_item) in
        date_properties_of rest index names
      else date_properties_of rest index cur_properties
  end.

Definition _get_date_properties (index : option string) : M (list string) :=
  let* index := lift (index_or_default index) in
  let* classes := request Backend.schema_get in
  lift (date_properties_of classes index []).

Definition _get_weaviate_type_of_value (v : value) : result string :=
  let data_type := "" in
  let list_of_values := isinstance_list v in
  let+ v := if isinstance_list v then py_first v else Ok v in
  let data_type :=
    if isinstance_str v then
      match convert_date_to_rfc3339 ext (py_str ext v) with
      | Some _ => "date"
      | None => "string"
      end
    else if isinstance_int v then "int"
    else if isinstance_float v then "number"
    else if isinstance_bool v then "boolean"
    else data_type in
  Ok (if list_of_values then data_type ++ "[]" else data_type).

Definition _update_schema (new_prop : string) (property_value : value)
    (index : option string) : M unit :=
  let* index := lift (index_or_default index) in
  let* data_type := lift (_get_weaviate_type_of_value property_value) in
  request_r (Backend.property_create index (Backend.mk_property new_prop [data_type])).

Definition _check_document (cur_props : list string) (doc : dict) : list string :=
  filter (fun item => negb (str_in item cur_props)) (dict_keys doc).

(** Modelled from the spec: [Document.to_dict(field_map)] of
    [haystack.schema], which is not part of these sources: the fields of the
    record, content and embedding under the names the store was given. *)
Definition to_dict (doc : Document) : dict :=
  dict_update
    [(content_field self, doc_content doc); ("content_type", doc_content_type doc);
     ("score", doc_score doc); ("meta", VDict (doc_meta doc));
     (embedding_field self, doc_embedding doc); ("id", doc_id doc)]
    [].

(** [v in l] for a document id [v] *)
Definition id_in (v : value) (l : list value) : bool :=
  match v with
  | VStr s => existsb (fun x => match x with VStr s' => String.eqb s s' | _ => false end) l
  | _ => false
  end.

(** Modelled from the spec: [BaseDocumentStore._handle_duplicate_documents],
    which is not part of these sources.  Section 4.5: under [skip] a
    document is dropped if its id already exists in the store, under
    [overwrite] every document is kept, under [fail] the write is aborted
    with a duplication error if any id exists already. *)
Definition _handle_duplicate_documents (documents : list Document) (index : string)
    (duplicate_documents : string) : M (list Document) :=
  if String.eqb duplicate_documents "overwrite" then ret documents
  else
    let* documents_found :=
      get_documents_by_id (map (fun d => py_str ext (doc_id d)) documents)
                          (Some index) 10000%Z VNone in
    let ids_exist_in_db := map doc_id documents_found in
    match ids_exist_in_db with
    | _ :: _ =>
        if String.eqb duplicate_documents "fail" then raise DuplicateDocumentError
        else ret (filter (fun d => negb (id_in (doc_id d) ids_exist_in_db)) documents)
    | [] => ret documents
    end.

(** Modelled from the spec: [get_batches_from_generator] of
    [haystack.document_stores.base], which is not part of these sources:
    the documents in order, cut into batches of [n]. *)
Fixpoint batches_of {A} (fuel n : nat) (l : list A) : list (list A) :=
  match fuel with
  | O => []
  | S fuel' =>
      match firstn n l with
      | [] => []
      | x => x :: batches_of fuel' n (skipn n l)
      end
  end.

Definition get_batches_from_generator {A} (l : list A) (n : Z) : list (list A) :=
  batches_of (List.length l) (Z.to_nat n) l.

(** [do.id = self._sanitize_id(id=do.id, index=index)] for every document *)
Fixpoint sanitize_ids (document_objects : list Document) (index : string)
  : M (list Document) :=
  match document_objects with
  | [] => ret []
  | do :: rest =>
      match doc_id do with
      | VStr id =>
          let* id := _sanitize_id id (Some index) in
          let* rest := sanitize_ids rest index in
          ret (mk_document (VStr id) (doc_content do) (doc_content_type do)
                           (doc_meta do) (doc_score do) (doc_embedding do) :: rest)
      | _ => raise TypeError
      end
  end.

(** [if do.embedding is None: do.embedding = dummy_embedding] *)
Definition dummy_embed (do : Document) : Document :=
  if is_not_none (doc_embedding do) then do
  else mk_document (doc_id do) (doc_content do) (doc_content_type do) (doc_meta do)
                   (doc_score do) (random_embedding ext (embedding_dim self)).

(** [if "meta" in _doc.keys(): ...; _doc.pop("meta")] *)
Definition unnest_meta (_doc : dict) : result dict :=
  match dict_get "meta" _doc with
  | Some (VDict meta) => Ok (dict_remove "meta" (dict_update meta _doc))
  | Some _ => Raise AttributeError
  | None => Ok _doc
  end.

(** [d.pop(k)] *)
Definition pop (k : string) (d : dict) : result (value * dict) :=
  match dict_get k d with
  | Some v => Ok (v, dict_remove k d)
  | None => Raise (KeyError k)
  end.

(** [for property in missing_props: ...], with [current_properties] as it
    grows *)
Fixpoint update_missing (missing_props : list string) (_doc : dict) (index : string)
    (current_properties : list string) : M (list string) :=
  match missing_props with
  | [] => ret current_properties
  | property :: rest =>
      let* v := lift (py_getitem property (VDict _doc)) in
      let* _ := _update_schema property v (Some index) in
      update_missing rest _doc index (current_properties ++ [property])%list
  end.

(** [convert_date_to_rfc3339(v)] on a field value *)
Definition to_rfc3339 (v : value) : result string :=
  match v with
  | VStr s =>
      match convert_date_to_rfc3339 ext s with
      | Some r => Ok r
      | None => Raise ValueError
      end
  | _ => Raise TypeError
  end.

(** [for date_field in date_fields:
       _doc[date_field] = convert_date_to_rfc3339(_doc[date_field])] *)
Fixpoint coerce_dates (date_fields : list string) (_doc : dict) : result dict :=
  match date_fields with
  | [] => Ok _doc
  | date_field :: rest =>
      let+ v := py_getitem date_field (VDict _doc) in
      let+ s := to_rfc3339 v in
      coerce_dates rest (dict_set date_field (VStr s) _doc)
  end.

(** The fields of a document as the inner loop sees them when it compares
    them with the schema: [to_dict], without score, meta unnested, id and
    vector taken out, content serialised *)
Definition flatten (doc : Document) : result (string * value * dict) :=
  let _doc := to_dict doc in
  let _doc := dict_remove "score" _doc in
  let+ _doc := unnest_meta _doc in
  let+ p := pop "id" _doc in
  let doc_id := py_str ext (fst p) in
  let+ q := pop (embedding_field self) (snd p) in
  let vector := normalize_embedding ext (fst q) in
  let _doc := snd q in
  let+ content := py_getitem "content" (VDict _doc) in
  let _doc := dict_set "content" (VStr (json_dumps ext content)) _doc in
  Ok (doc_id, vector, _doc).

(** The body of [for idx, doc in enumerate(document_batch)] *)
Definition write_document (index : string) (doc : Document)
    (current_properties : list string) (docs_batch : list (string * Backend.object))
  : M (list string * list (string * Backend.object)) :=
  let* f := lift (flatten doc) in
  let '(doc_id, vector, _doc) := f in
  let missing_props := _check_document current_properties _doc in
  let* current_properties := update_missing missing_props _doc index current_properties in
  let* date_fields := _get_date_properties (Some index) in
  let* _doc := lift (coerce_dates date_fields _doc) in
  ret (current_properties,
       (docs_batch ++ [(doc_id, Backend.mk_object index _doc vector)])%list).

Fixpoint write_batch (index : string) (document_batch : list Document)
    (current_properties : list string) (docs_batch : list (string * Backend.object))
  : M (list string * list (string * Backend.object)) :=
  match document_batch with
  | [] => ret (current_properties, docs_batch)
  | doc :: rest =>
      let* st := write_document index doc current_properties docs_batch in
      write_batch index rest (fst st) (snd st)
  end.

(** [for document_batch in batched_documents]; returns [current_properties]
    as the loop leaves it *)
Fixpoint write_batches (index : string) (batched_documents : list (list Document))
    (current_properties : list string) : M (list string) :=
  match batched_documents with
  | [] => ret current_properties
  | document_batch :: rest =>
      let* st := write_batch index document_batch current_properties [] in
      let* _ := request (Backend.batch_create (snd st)) in
      write_batches index rest (fst st)
  end.

Definition duplicate_documents_options : list string := ["skip"; "overwrite"; "fail"].

(** The documents are given as [Document] objects.  The two warnings of
    the method are not modelled. *)
Definition write_documents (documents : list Document) (index : option string)
    (batch_size : Z) (duplicate_documents_ : option string) (headers : value) : M unit :=
  if truthy headers then raise NotImplementedError
  else
    let* index := lift (index_or_default index) in
    let* _ := _create_schema_and_index_if_not_exist (Some index) in
    let duplicate_documents_ := or_default duplicate_documents_ (duplicate_documents self) in
    if negb (str_in duplicate_documents_ duplicate_documents_options)
    then raise AssertionError
    else
      match documents with
      | [] => ret tt
      | _ =>
          let* current_properties := _get_current_properties (Some index) in
          let* document_objects := sanitize_ids documents index in
          let* document_objects :=
            _handle_duplicate_documents document_objects index duplicate_documents_ in
          let document_objects := map dummy_embed document_objects in
          let batched_documents := get_batches_from_generator document_objects batch_size in
          let* _ := write_batches index batched_documents current_properties in
          ret tt
      end.

(** The loop over [date_fields] in [update_document_meta]: only strings are
    converted *)
Fixpoint coerce_meta_dates (date_fields : list string) (meta : dict) : result dict :=
  match date_fields with
  | [] => Ok meta
  | date_field :: rest =>
      let+ v := py_getitem date_field (VDict meta) in
      if isinstance_str v then
        let+ s := to_rfc3339 v in
        coerce_meta_dates rest (dict_set date_field (VStr s) meta)
      else coerce_meta_dates rest meta
  end.

Definition update_document_meta (id : string) (meta : dict) (index_ : option string)
  : M unit :=
  let index := or_default index_ (index self) in
  let* current_properties := _get_current_properties (Some index) in
  let missing_props := _check_document current_properties meta in
  let* current_properties := update_missing missing_props meta index current_properties in
  let* date_fields := _get_date_properties (Some index) in
  let* meta := lift (coerce_meta_dates date_fields meta) in
  request_r (Backend.update meta index id None).

(** [LogicalFilterClause.parse(filters).convert_to_weaviate()] *)
Definition compile_filters (filters : value) : result value :=
  match convert_to_weaviate ext filters with
  | Some f => Ok f
  | None => Raise FilterError
  end.

(** The count in the answer of an [Aggregate] query, 0 when the answer has
    no ["data"] or no ["Aggregate"] *)
Definition aggregate_count (index : string) (res : value) : result value :=
  let doc_count := VInt 0 in
  let+ has_data := py_in "data" res in
  if has_data then
    let+ data := py_get "data" res in
    let+ has_aggregate := py_in "Aggregate" data in
    if has_aggregate then
      let+ aggregate := py_get "Aggregate" data in
      let+ hits := py_get index aggregate in
      let+ hit := py_first hits in
      let+ meta := py_getitem "meta" hit in
      py_getitem "count" meta
    else Ok doc_count
  else Ok doc_count.

Definition get_document_count (filters : value) (index : option string)
    (only_documents_without_embedding : bool) (headers : value) : M value :=
  if truthy headers then raise NotImplementedError
  else if only_documents_without_embedding then ret (VInt 0)
  else
    let* index := lift (index_or_default index) in
    let* res :=
      if truthy filters then
        let* filter_dict := lift (compile_filters filters) in
        request (Backend.query_aggregate (where_matches ext) index (Some filter_dict))
      else request (Backend.query_aggregate (where_matches ext) index None) in
    lift (aggregate_count index res).

Definition get_embedding_count (filters : value) (index : option string) : M value :=
  get_document_count filters index false VNone.

(** The hits in the answer of a [Get] query; [none] when there are none *)
Definition get_hits (index : string) (res : value) (none : value) : result value :=
  if truthy res then
    let+ has_data := py_in "data" res in
    if has_data then
      let+ data := py_get "data" res in
      let+ has_get := py_in "Get" data in
      if has_get then
        let+ get := py_get "Get" data in
        let+ hits := py_get index get in
        Ok (if truthy hits then hits else none)
      else Ok none
    else Ok none
  else Ok none.

(** A generator function: [yield from all_docs] ends the body *)
Definition _get_all_documents_in_index (index : option string) (filters : value)
    (batch_size : Z) : M (generator value) :=
  ret (let* index := lift (index_or_default index) in
       let* properties := _get_current_properties (Some index) in
       let properties := (properties ++ [Backend.additional_selector])%list in
       let* res :=
         if truthy filters then
           let* filter_dict := lift (compile_filters filters) in
           request (Backend.query_get (where_matches ext) index properties
                      (Some filter_dict) None)
         else request (Backend.query_get (where_matches ext) index properties None None) in
       let* all_docs := lift (get_hits index res (VDict [])) in
       lift (py_iter all_docs)).

(** [for result in results: yield self._convert...(result, return_embedding)] *)
Fixpoint convert_all (results : list value) (return_embedding_ : bool)
  : result (list Document) :=
  match results with
  | [] => Ok []
  | res :: rest =>
      let+ document := _convert_weaviate_result_to_document res return_embedding_ in
      let+ documents := convert_all rest return_embedding_ in
      Ok (document :: documents)
  end.

(** A generator function: the check of [headers] is part of the body, and
    so is run by the first iteration, not by the call *)
Definition get_all_documents_generator (index : option string) (filters : value)
    (return_embedding_ : option bool) (batch_size : Z) (headers : value)
  : M (generator Document) :=
  ret (if truthy headers then raise NotImplementedError
       else
         let* index := lift (index_or_default index) in
         let return_embedding_ :=
           match return_embedding_ with Some b => b | None => return_embedding self end in
         let* results := _get_all_documents_in_index (Some index) filters batch_size in
         let* results := iterate results in
         lift (convert_all results return_embedding_)).

Definition get_all_documents (index : option string) (filters : value)
    (return_embedding_ : option bool) (batch_size : Z) (headers : value)
  : M (list Document) :=
  if truthy headers then raise NotImplementedError
  else
    let* index := lift (index_or_default index) in
    let* result :=
      get_all_documents_generator (Some index) filters return_embedding_ batch_size VNone in
    let* documents := iterate result in
    ret documents.

Definition query (query_ : option string) (filters : value) (top_k : Z)
    (custom_query : option string) (index : option string) : M (list Document) :=
  let* index := lift (index_or_default index) in
  let* properties := _get_current_properties (Some index) in
  let properties := (properties ++ [Backend.additional_selector])%list in
  let* query_output :=
    if truthy (match custom_query with Some q => VStr q | None => VNone end) then
      request (Backend.query_raw (raw_answer ext)
                 (match custom_query with Some q => q | None => "" end))
    else if truthy filters then
      let* filter_dict := lift (compile_filters filters) in
      request (Backend.query_get (where_matches ext) index properties
                 (Some filter_dict) (Some top_k))
    else raise NotImplementedError in
  let* results := lift (get_hits index query_output (VList [])) in
  let* results := lift (py_iter results) in
  lift (convert_all results true).

(** [for doc in docs_to_delete: self.weaviate_client.data_object.delete(doc.id)] *)
Definition delete_document (doc : Document) : M unit :=
  match doc_id doc with
  | VStr uuid => request (Backend.delete uuid)
  | _ => raise TypeError
  end.

Definition delete_documents (index : option string) (ids : option (list string))
    (filters : value) (headers : value) : M unit :=
  if truthy headers then raise NotImplementedError
  else
    let* index := lift (index_or_default index) in
    let* _ := _create_schema_and_index_if_not_exist (Some index) in
    let no_ids := match ids with Some (_ :: _) => false | _ => true end in
    if (negb (truthy filters) && no_ids)%bool then
      let* _ := request (Backend.schema_delete_class index) in
      _create_schema_and_index_if_not_exist (Some index)
    else
      let* docs_to_delete := get_all_documents (Some index) filters None 10000%Z VNone in
      let docs_to_delete :=
        match ids with
        | Some ((_ :: _) as ids) =>
            filter (fun doc => id_in (doc_id doc) (map VStr ids)) docs_to_delete
        | _ => docs_to_delete
        end in
      for_each docs_to_delete delete_document.

Definition delete_all_documents (index : option string) (filters : value)
    (headers : value) : M unit :=
  if truthy headers then raise NotImplementedError
  else delete_documents index None filters VNone.

End Store.

(* ===================================================================== *)
(** ** The two answer shapes, in the words of the specification *)
(* ===================================================================== *)

(** Section 4.4: an answer to get-by-id nests the fields under a
    ["properties"] key, a query answer has them at its root. *)
Inductive fields_of (res : dict) : dict -> Prop :=
| get_by_id_shape (p : dict) :
    dict_get "properties" res = Some (VDict p) -> p <> [] -> fields_of res p
| query_shape :
    truthy (value_at "properties" res) = false -> fields_of res res.

(** Both may carry a side channel under ["_additional"]; without one, the
    side channel has no entries. *)
Inductive side_channel (fields : dict) : dict -> Prop :=
| side_channel_present (a : dict) :
    dict_get "_additional" fields = Some (VDict a) -> side_channel fields a
| side_channel_absent :
    dict_get "_additional" fields = None -> side_channel fields [].

(** The content is the stored text, deserialised; without stored text it
    is the empty string. *)
Inductive stored_content (ext : collaborators) (self : config) (fields : dict)
  : value -> Prop :=
| content_decoded (content : value) :
    is_not_none (value_at (content_field self) fields) = true ->
    json_loads ext (py_str ext (value_at (content_field self) fields)) = Some content ->
    stored_content ext self fields content
| content_missing :
    is_not_none (value_at (content_field self) fields) = false ->
    stored_content ext self fields (VStr EmptyString).

(** Section 3: on read every top-level property except content and
    embedding is folded back into [meta].  The side channel is no property
    of the document, and neither is a content type that is set. *)
Definition set_aside (self : config) (fields : dict) (k : string) : bool :=
  (str_in k [content_field self; embedding_field self; "_additional"]
   || (String.eqb k "content_type"
       && is_not_none (value_at "content_type" fields)))%bool.

(* ===================================================================== *)
(** ** The query facade, in the words of the specification *)
(* ===================================================================== *)

(** Section 4.1, [normalize(rawId, indexName)]: an id of the UUID grammar
    is returned unchanged; any other is replaced by the UUID made of every
    second hexadecimal digit of [sha256(rawId || indexName)]. *)
Definition normalize (rawId indexName : string) : string :=
  if Uuid.UUID_PATTERN rawId then rawId
  else
    match Uuid.of_hex (every_second
                         (Sha256.hexdigest (encode_utf8 (rawId ++ indexName)))) with
    | Ok n => Uuid.to_str n
    | Raise _ => EmptyString
    end.

(** Section 4.6, [getByIds(ids)]: the ids are looked up one after the
    other; an id that is not stored is left out, and the documents come in
    the order of the ids that are. *)
Fixpoint getByIds (ext : collaborators) (self : config)
    (stored : list (string * Backend.object)) (indexName : string)
    (ids : list string) : result (list Document) :=
  match ids with
  | [] => Ok []
  | id :: rest =>
      match dict_get (normalize id indexName) stored with
      | Some o =>
          let+ document :=
            _convert_weaviate_result_to_document ext self
              (Backend.get_shape (normalize id indexName) o) true in
          let+ documents := getByIds ext self stored indexName rest in
          Ok (document :: documents)
      | None => getByIds ext self stored indexName rest
      end
  end.

(* ===================================================================== *)
(** ** Schema migrations of a write, in the words of the specification *)
(* ===================================================================== *)

(** The names of the properties the service has been asked to add so far *)
Definition migrations (w : world) : list string :=
  Backend.migrated (Backend.log (backend w)).

(** A method body that asks for no migration *)
Definition quiet {A} (m : M A) : Prop :=
  forall w r w', m w = (r, w') -> migrations w' = migrations w.

(** A call of the client that asks for no migration *)
Definition silent {A} (f : Backend.t -> A * Backend.t) : Prop :=
  forall b, Backend.migrated (Backend.log (snd (f b))) = Backend.migrated (Backend.log b).

(** The property names that appear in a document as it is written *)
Definition fields (ext : collaborators) (self : config) (doc : Document) : list string :=
  match flatten ext self doc with
  | Ok (_, _, _doc) => dict_keys _doc
  | Raise _ => []
  end.

(** Section 4.5: for each document, the properties absent from the schema
    snapshot are migrated, and the snapshot is extended by them.  [plan] is
    the list of migrations this asks for, document after document. *)
Definition absent (snapshot : list string) (names : list string) : list string :=
  filter (fun name => negb (str_in name snapshot)) names.

Fixpoint plan (ext : collaborators) (self : config) (snapshot : list string)
    (documents : list Document) : list string :=
  match documents with
  | [] => []
  | doc :: rest =>
      let new := absent snapshot (fields ext self doc) in
      (new ++ plan ext self (snapshot ++ new) rest)%list
  end.

(** [l] is an initial part of [l'] *)
Definition prefix_of {A} (l l' : list A) : Prop := exists rest, l' = (l ++ rest)%list.

(* ===================================================================== *)
(** ** Canonical names, schema readings and frames *)
(* ===================================================================== *)

Unset Implicit Arguments.

(** *** The passes of the write loop *)

(** A turn of the loop of [write_documents]: the document whose pass
    begins, with the property list, the queue of the batch and the world
    as they are then *)
Record turn : Type :=
  mk_turn {
    turn_doc : Document;
    turn_properties : list string;
    turn_queue : list (string * Backend.object);
    turn_world : world
  }.

(** The pass of a turn: the body of the inner loop *)
Definition pass (ext : collaborators) (self : config) (index : string) (t : turn)
  : result (list string * list (string * Backend.object)) * world :=
  write_document ext self index (turn_doc t) (turn_properties t) (turn_queue t)
    (turn_world t).

(** The date properties that the pass of a turn reads from the schema,
    which by then has the properties that the document has brought; [None]
    when the pass ends before it reads them *)
Definition dates_read (ext : collaborators) (self : config) (index : string) (t : turn)
  : option (list string) :=
  match flatten ext self (turn_doc t) with
  | Ok (_, _, _doc) =>
      match update_missing ext self (_check_document (turn_properties t) _doc) _doc
              index (turn_properties t) (turn_world t) with
      | (Ok _, w1) =>
          match fst (_get_date_properties self (Some index) w1) with
          | Ok dates => Some dates
          | Raise _ => None
          end
      | (Raise _, _) => None
      end
  | Raise _ => None
  end.

(** The document carries a value for each of the date properties *)
Definition carries (ext : collaborators) (self : config) (doc : Document)
    (dates : list string) : Prop :=
  forall f, In f dates -> In f (fields ext self doc).

(** The turns of a batch, one document after the other for as long as the
    passes return *)
Fixpoint batch_turns (ext : collaborators) (self : config) (index : string)
    (docs : list Document) (cp : list string) (q : list (string * Backend.object))
    (w : world) : list turn :=
  match docs with
  | [] => []
  | doc :: rest =>
      mk_turn doc cp q w ::
      match pass ext self index (mk_turn doc cp q w) with
      | (Ok st, w') => batch_turns ext self index rest (fst st) (snd st) w'
      | (Raise _, _) => []
      end
  end.

(** The turns of a call: a batch is sent to the service before the next
    one begins, with an empty queue *)
Fixpoint turns (ext : collaborators) (self : config) (index : string)
    (batches : list (list Document)) (cp : list string) (w : world) : list turn :=
  match batches with
  | [] => []
  | b :: rest =>
      (batch_turns ext self index b cp [] w ++
       match write_batch ext self index b cp [] w with
       | (Ok st, w1) =>
           turns ext self index rest (fst st)
             (snd (request (Backend.batch_create (snd st)) w1))
       | (Raise _, _) => []
       end)%list
  end.

(** The first character, if there is one, is its own upper case. *)
Definition starts_upper (s : string) : Prop :=
  match s with
  | EmptyString => True
  | String c _ => upper_char c = String c EmptyString
  end.

(** What [lower] and [capitalize] keep: no underscore, only ASCII *)
Definition plain (s : string) : Prop :=
  contains_char "_" s = false /\ all_chars is_ascii s = true.

(** A name made of ASCII characters; an absent name is one *)
Definition ascii_name (s : string) : bool := all_chars is_ascii s.

Definition ascii_index (idx : option string) : bool :=
  match idx with Some s => ascii_name s | None => true end.

(** The property names of the class [i], as [_get_current_properties] folds
    them out of the classes *)
Definition names_of (i : string) (classes : list Backend.class_item)
    (cur : list string) : list string :=
  fold_left
    (fun cur_properties class_item =>
       if String.eqb (Backend.class_name class_item) i
       then map Backend.prop_name (Backend.class_properties class_item)
       else cur_properties)
    classes cur.

(** The [where] clause the store sends for [filters] *)
Definition where_clause (ext : collaborators) (filters : value) : result (option value) :=
  if truthy filters then
    let+ filter_dict := compile_filters ext filters in Ok (Some filter_dict)
  else Ok None.

(** What is left of [query] once the index is resolved and the property
    list is read *)
Definition query_after_schema (ext : collaborators) (self : config) (filters : value)
    (top_k : Z) (custom_query : option string) (i : string) (properties : list string)
  : M (list Document) :=
  let* query_output :=
    if truthy (match custom_query with Some q => VStr q | None => VNone end) then
      request (Backend.query_raw (raw_answer ext)
                 (match custom_query with Some q => q | None => "" end))
    else if truthy filters then
      let* filter_dict := lift (compile_filters ext filters) in
      request (Backend.query_get (where_matches ext) i properties
                 (Some filter_dict) (Some top_k))
    else raise NotImplementedError in
  let* results := lift (get_hits i query_output (VList [])) in
  let* results := lift (py_iter results) in
  lift (convert_all ext self results true).

(** A method body that takes the service from a state to one related to it
    by [R], whether it returns or raises *)
Definition keeps (R : Backend.t -> Backend.t -> Prop) {A : Type} (m : M A) : Prop :=
  forall w, R (backend w) (backend (snd (m w))).

(** The same for one call of the client *)
Definition call_keeps (R : Backend.t -> Backend.t -> Prop) {A : Type}
    (f : Backend.t -> A * Backend.t) : Prop :=
  forall b, R b (snd (f b)).

(** Schema and objects are as they were; the log may be longer *)
Definition same_data (b b' : Backend.t) : Prop :=
  Backend.schema b' = Backend.schema b /\ Backend.objects b' = Backend.objects b.

(** No uuid and no class is lost *)
Definition grows (b b' : Backend.t) : Prop :=
  (forall u, dict_mem u (Backend.objects b) = true ->
             dict_mem u (Backend.objects b') = true) /\
  (forall c, Backend.has_class c b = true -> Backend.has_class c b' = true).

(** No object is new *)
Definition shrinks (b b' : Backend.t) : Prop :=
  incl (Backend.objects b') (Backend.objects b).

Set Implicit Arguments.

(* ===================================================================== *)
(** ** A concrete store, to run the methods on *)
(* ===================================================================== *)

Module Sample.

Definition quote : string := String (ascii_of_nat 34) EmptyString.

(** Dates of the form [YYYY-MM-DD], given midnight UTC *)
Definition iso_date (s : string) : option string :=
  match
    Uuid.and_then (Uuid.and_then (Uuid.and_then (Uuid.and_then
      (Uuid.take_class is_digit 4 s) (Uuid.take_char "-"))
      (Uuid.take_class is_digit 2)) (Uuid.take_char "-"))
      (Uuid.take_class is_digit 2)
  with
  | Some EmptyString => Some (s ++ "T00:00:00Z")
  | _ => None
  end.

(** JSON of a string without characters to escape *)
Definition dumps (v : value) : string :=
  match v with
  | VStr s => quote ++ s ++ quote
  | _ => "null"
  end.

Definition loads (s : string) : option value :=
  match s with
  | String c r =>
      if (Ascii.eqb c (ascii_of_nat 34)
          && String.eqb (substring (String.length r - 1) 1 r) quote)%bool
      then Some (VStr (substring 0 (String.length r - 1) r))
      else None
  | EmptyString => None
  end.

Definition half : value := VFloat (S754_finite false 1 (-1)).

Definition ext : collaborators :=
  mk_collaborators iso_date loads dumps (fun _ => "?") (fun v => v) (fun v => v)
    (fun n => VList (repeat half n))
    (fun f => Some f) (fun _ _ => true) (fun _ _ => VDict [])
    (fun d => "id of " ++ dumps (value_at "content" d)).

Definition self : config :=
  mk_config "Document" 2 "content" "name" "embedding" false None "overwrite".

Definition fresh : world := mk_world Backend.empty false.

Definition doc (id text : string) (meta : dict) : Document :=
  mk_document (VStr id) (VStr text) (VStr "text") meta VNone VNone.

(** Three documents under the caller's own ids *)
Definition three_docs : list Document :=
  [doc "doc-1" "one" []; doc "doc-2" "two" []; doc "doc-3" "three" []].

(** The world after they have been written to a fresh service *)
Definition three_written : world :=
  snd (write_documents ext self three_docs None 10000%Z None VNone fresh).

(** A store whose default index has a two-part name, holding one document *)
Definition indexed : config :=
  mk_config "DocumentIndex" 2 "content" "name" "embedding" false None "overwrite".

Definition indexed_written : world :=
  snd (write_documents ext indexed [doc "doc-1" "one" []] None 10000%Z None VNone fresh).

(** A hit of a vector search, with a stale id and vector at its root *)
Definition additional : dict :=
  [("id", VStr "ffe66bff-9675-d98c-e872-6768a096179c"); ("certainty", half);
   ("vector", VList [half; half])].

Definition hit : dict :=
  [("content", VStr (dumps (VStr "two"))); ("genre", VStr "news");
   ("id", VStr "stale"); ("vector", VList []); ("_additional", VDict additional)].

(** Two documents with meta data; the second brings a date *)
Definition tagged_docs : list Document :=
  [doc "doc-1" "one" [("genre", VStr "news")];
   doc "doc-2" "two" [("genre", VStr "blog"); ("day", VStr "2020-01-02")]].

(** The worlds a write of [tagged_docs] to a fresh service goes through
    before its loop starts *)
Definition schema_ready : world :=
  snd (_create_schema_and_index_if_not_exist self (Some "Document") fresh).

Definition snapshot_taken : world :=
  snd (_get_current_properties self (Some "Document") schema_ready).

Definition tagged_sanitized : list Document :=
  [doc "4847abb9-44fc-b88c-a6d9-b4b0c972a7fa" "one" [("genre", VStr "news")];
   doc "ffe66bff-9675-d98c-e872-6768a096179c" "two"
     [("genre", VStr "blog"); ("day", VStr "2020-01-02")]].

Definition ids_sanitized : world :=
  snd (sanitize_ids self tagged_docs "Document" snapshot_taken).

(** The world after the write: its schema has the date property ["day"] *)
Definition tagged_written : world :=
  snd (write_documents ext self tagged_docs None 10000%Z None VNone fresh).

(** A document that has no ["day"] *)
Definition undated : Document := doc "doc-4" "four" [("genre", VStr "memo")].

Definition undated_fields : dict :=
  [("content", VStr (dumps (VStr "four"))); ("content_type", VStr "text");
   ("genre", VStr "memo")].

Definition tagged_properties : list string :=
  ["name"; "content"; "content_type"; "genre"; "day"].

(** Two documents for one batch: the first brings the date ["day"], the
    second has none *)
Definition dated_first : list Document :=
  [doc "ffe66bff-9675-d98c-e872-6768a096179c" "two"
     [("genre", VStr "blog"); ("day", VStr "2020-01-02")];
   doc "4847abb9-44fc-b88c-a6d9-b4b0c972a7fa" "one" [("genre", VStr "news")]].

(** The turns of the loop when they are written to a fresh service *)
Definition dated_first_turns : list turn :=
  turns ext self "Document"
    (get_batches_from_generator (map (dummy_embed ext self) dated_first) 10000%Z)
    ["name"; "content"] snapshot_taken.

Definition no_turn : turn := mk_turn (doc "" "" []) [] [] fresh.

End Sample.

(* ===================================================================== *)
(** * Properties *)
(* ===================================================================== *)

Unset Implicit Arguments.

(** ** Strings and hexadecimal digits *)

Lemma length_append (s t : string) :
  String.length (s ++ t) = String.length s + String.length t.
Proof. induction s as [|c s IH]; simpl; [reflexivity | now rewrite IH]. Qed.

Lemma all_chars_append p (s t : string) :
  all_chars p (s ++ t) = (all_chars p s && all_chars p t)%bool.
Proof.
  induction s as [|c s IH]; simpl; [reflexivity|].
  now rewrite IH, andb_assoc.
Qed.

Lemma substring_all_chars p (s : string) :
  all_chars p s = true -> forall a b, all_chars p (substring a b s) = true.
Proof.
  induction s as [|c s IH]; intros H a b.
  - destruct a, b; reflexivity.
  - simpl in H. apply andb_true_iff in H as [Hc Hs].
    destruct a as [|a]; simpl.
    + destruct b as [|b]; simpl; [reflexivity|].
      rewrite Hc. simpl. apply IH. exact Hs.
    + apply IH. exact Hs.
Qed.

Lemma substring_length (s : string) :
  forall a b, a + b <= String.length s -> String.length (substring a b s) = b.
Proof.
  induction s as [|c s IH]; intros a b H; simpl in H.
  - assert (a = 0) by lia. assert (b = 0) by lia. subst. reflexivity.
  - destruct a as [|a]; simpl.
    + destruct b as [|b]; simpl; [reflexivity|].
      f_equal. apply IH. lia.
    + apply IH. lia.
Qed.

Lemma hex_of_length (k : nat) (x : Z) : String.length (Sha256.hex_of k x) = k.
Proof. induction k as [|k IH]; simpl; [reflexivity | now rewrite IH]. Qed.

Lemma hex_digit_is_hex (x : Z) :
  Uuid.is_hex (Sha256.hex_digit (Z.land x 15)) = true.
Proof.
  assert (H : (0 <= Z.land x 15 < 16)%Z).
  { change 15%Z with (Z.ones 4). rewrite Z.land_ones by lia.
    apply Z.mod_pos_bound. reflexivity. }
  remember (Z.land x 15) as d eqn:E. clear E.
  assert (C : (d = 0 \/ d = 1 \/ d = 2 \/ d = 3 \/ d = 4 \/ d = 5 \/ d = 6 \/ d = 7 \/
               d = 8 \/ d = 9 \/ d = 10 \/ d = 11 \/ d = 12 \/ d = 13 \/ d = 14 \/
               d = 15)%Z) by lia.
  repeat (destruct C as [C|C]; [subst d; reflexivity|]).
  subst d. reflexivity.
Qed.

Lemma hex_of_is_hex (k : nat) (x : Z) :
  all_chars Uuid.is_hex (Sha256.hex_of k x) = true.
Proof.
  induction k as [|k IH]; simpl; [reflexivity|].
  now rewrite hex_digit_is_hex, IH.
Qed.

Lemma every_second_all_chars p (s : string) :
  all_chars p s = true -> all_chars p (every_second s) = true.
Proof.
  revert s. fix IH 1. intros [|c [|c' s]] H; simpl in *.
  - reflexivity.
  - exact H.
  - apply andb_true_iff in H as [Hc H]. apply andb_true_iff in H as [_ H].
    rewrite Hc. simpl. apply IH. exact H.
Qed.

Lemma every_second_length (s : string) (n : nat) :
  String.length s = 2 * n -> String.length (every_second s) = n.
Proof.
  revert s. induction n as [|n IH]; intros s H.
  - destruct s; [reflexivity | simpl in H; lia].
  - destruct s as [|c [|c' s]]; simpl in H; try lia.
    simpl. f_equal. apply IH. lia.
Qed.

Lemma hexdigest_length (msg : list Z) :
  String.length (Sha256.hexdigest msg) = 64.
Proof.
  unfold Sha256.hexdigest. cbv zeta.
  repeat rewrite length_append. repeat rewrite hex_of_length. reflexivity.
Qed.

Lemma hexdigest_is_hex (msg : list Z) :
  all_chars Uuid.is_hex (Sha256.hexdigest msg) = true.
Proof.
  unfold Sha256.hexdigest. cbv zeta.
  repeat rewrite all_chars_append. repeat rewrite hex_of_is_hex. reflexivity.
Qed.

(** [uuid.UUID] accepts every second character of a digest *)
Lemma uuid_of_digest (msg : list Z) :
  exists n, Uuid.of_hex (every_second (Sha256.hexdigest msg)) = Ok n.
Proof.
  unfold Uuid.of_hex.
  rewrite (every_second_length (Sha256.hexdigest msg) 32)
    by (rewrite hexdigest_length; reflexivity).
  rewrite every_second_all_chars by apply hexdigest_is_hex.
  rewrite Nat.eqb_refl. eexists. reflexivity.
Qed.

(** ** [UUID_PATTERN] and the canonical grammar *)

Lemma take_class_app p (k : nat) (s rest : string) :
  String.length s = k -> all_chars p s = true ->
  Uuid.take_class p k (s ++ rest) = Some rest.
Proof.
  revert k. induction s as [|c s IH]; intros k Hk Hp; simpl in Hk; subst k.
  - reflexivity.
  - simpl in Hp. apply andb_true_iff in Hp as [Hc Hs].
    simpl. rewrite Hc. apply IH; [reflexivity | exact Hs].
Qed.

Lemma take_class_all p (k : nat) (s : string) :
  String.length s = k -> all_chars p s = true ->
  Uuid.take_class p k s = Some EmptyString.
Proof.
  intros Hk Hp. rewrite <- (take_class_app p k s EmptyString Hk Hp).
  f_equal. clear. induction s as [|c s IH]; simpl; [reflexivity|].
  now rewrite <- IH.
Qed.

Lemma group4_app (s rest : string) :
  Uuid.hex_group 4 s -> Uuid.group4 (s ++ String "-" rest) = Some rest.
Proof.
  intros [Hl Hh]. unfold Uuid.group4.
  rewrite (take_class_app _ _ _ _ Hl Hh). reflexivity.
Qed.

(** Every string of the canonical grammar is matched by the pattern. *)
Lemma canonical_matches (s : string) :
  Uuid.canonical s -> Uuid.UUID_PATTERN s = true.
Proof.
  intros [a b c d e [Ha Ha'] Hb Hc Hd [He He']].
  unfold Uuid.UUID_PATTERN.
  rewrite (take_class_app _ _ _ _ Ha Ha').
  cbn [Uuid.and_then Uuid.take_char append Ascii.eqb Bool.eqb].
  cbn [Uuid.take_rep].
  rewrite (group4_app _ _ Hb), (group4_app _ _ Hc), (group4_app _ _ Hd).
  cbn [Uuid.and_then].
  rewrite (take_class_all _ _ _ He He'). reflexivity.
Qed.

(** The pattern is a little wider than the grammar: [$] also matches
    before a final newline. *)
Example pattern_accepts_final_newline :
  Uuid.UUID_PATTERN
    (String.append "1bad51b7-bd77-485d-8871-21c50fab248f" (String "010" EmptyString))
  = true.
Proof. reflexivity. Qed.

(** What [str(uuid.UUID(...))] prints is canonical. *)
Lemma to_str_canonical (n : Z) : Uuid.canonical (Uuid.to_str n).
Proof.
  unfold Uuid.to_str. cbv zeta.
  assert (L : String.length (Sha256.hex_of 32 n) = 32) by apply hex_of_length.
  assert (H : all_chars Uuid.is_hex (Sha256.hex_of 32 n) = true) by apply hex_of_is_hex.
  constructor; (split; [apply substring_length; rewrite L; lia
                       | apply substring_all_chars; exact H]).
Qed.

(** ** Test vectors *)

Example K_first_and_last :
  nth 0 Sha256.K 0%Z = 0x428a2f98%Z /\ nth 63 Sha256.K 0%Z = 0xc67178f2%Z /\
  List.length Sha256.K = 64.
Proof. repeat split. Qed.

Example sha256_abc :
  Sha256.hexdigest (encode_utf8 "abc")
  = "ba7816bf8f01cfea414140de5dae2223b00361a396177a9cb410ff61f20015ad".
Proof. vm_compute. reflexivity. Qed.

Example sha256_empty :
  Sha256.hexdigest (encode_utf8 "")
  = "e3b0c44298fc1c149afbf4c8996fb92427ae41e4649b934ca495991b7852b855".
Proof. vm_compute. reflexivity. Qed.

(** 119 octets: two blocks, the second one all padding and length *)
Example sha256_two_blocks :
  Sha256.hexdigest (repeat 97%Z 119)
  = "31eba51c313a5c08226adf18d4a359cfdfd8d2e816b13f4af952f7ea6584dcfb".
Proof. vm_compute. reflexivity. Qed.

Example uuid_pattern_samples :
  Uuid.UUID_PATTERN "1bad51b7-bd77-485d-8871-21c50fab248f" = true /\
  Uuid.UUID_PATTERN "1BAD51B7-bd77-485d-8871-21c50fab248F" = true /\
  Uuid.UUID_PATTERN "doc-2" = false /\
  Uuid.UUID_PATTERN "1bad51b7-bd77-485d-8871-21c50fab248" = false /\
  Uuid.UUID_PATTERN "1bad51b7-bd77-485d-8871-21c50fab248f0" = false /\
  Uuid.UUID_PATTERN "1bad51b7bd77-485d-8871-21c50fab248f" = false.
Proof. vm_compute. repeat split. Qed.

Example normalize_doc_2 :
  normalize "doc-2" "Document" = "ffe66bff-9675-d98c-e872-6768a096179c".
Proof. vm_compute. reflexivity. Qed.

(** ** Index names *)

Lemma index_or_default_ok (self : config) (idx : option string) :
  idx <> Some EmptyString -> exists i, index_or_default self idx = Ok i.
Proof.
  intros H. unfold index_or_default, _sanitize_index_name.
  destruct idx as [[|c rest]|].
  - congruence.
  - destruct (contains_char "_" (String c rest)); eexists; reflexivity.
  - eexists; reflexivity.
Qed.

(** ** Identifier normalisation *)

Lemma sanitize_id_match (self : config) (idx : option string) (w : world)
    (s i : string) :
  index_or_default self idx = Ok i ->
  Uuid.UUID_PATTERN s = true ->
  _sanitize_id self s idx w = (Ok s, w).
Proof.
  intros Hi Hs. unfold _sanitize_id, bind, lift, ret.
  rewrite Hi, Hs. reflexivity.
Qed.

Lemma sanitize_id_generate (self : config) (idx : option string) (w : world)
    (s i : string) :
  index_or_default self idx = Ok i ->
  Uuid.UUID_PATTERN s = false ->
  exists n,
    Uuid.of_hex (every_second (Sha256.hexdigest (encode_utf8 (s ++ i)))) = Ok n /\
    _sanitize_id self s idx w = (Ok (Uuid.to_str n), mk_world (backend w) true).
Proof.
  intros Hi Hs.
  destruct (uuid_of_digest (encode_utf8 (s ++ i))) as [n Hn].
  exists n. split; [exact Hn|].
  unfold _sanitize_id, bind, lift, ret.
  rewrite Hi, Hs. cbn [negb]. rewrite Hn. reflexivity.
Qed.

(** What does hold: [_sanitize_id] returns a string of the canonical UUID
    grammar unchanged, and it is idempotent by value, since its result is
    always matched by [UUID_PATTERN]: a second call, made in the world the
    first one left, returns that result again.  The index name is any but
    the empty string. *)
Lemma sanitize_id_is_idempotent
    (self : config) (idx : option string) (w : world) (s : string) :
  idx <> Some EmptyString ->
  (Uuid.canonical s -> _sanitize_id self s idx w = (Ok s, w)) /\
  (Uuid.UUID_PATTERN s = true -> _sanitize_id self s idx w = (Ok s, w)) /\
  exists u w',
    _sanitize_id self s idx w = (Ok u, w') /\
    Uuid.UUID_PATTERN u = true /\
    _sanitize_id self u idx w' = (Ok u, w').
Proof.
  intros Hidx.
  destruct (index_or_default_ok self idx Hidx) as [i Hi].
  split; [|split].
  - intros Hs. apply (sanitize_id_match self idx w s i Hi).
    apply canonical_matches, Hs.
  - apply (sanitize_id_match self idx w s i Hi).
  - destruct (Uuid.UUID_PATTERN s) eqn:Hs.
    + exists s, w. repeat split; try assumption;
        apply (sanitize_id_match self idx w s i Hi Hs).
    + destruct (sanitize_id_generate self idx w s i Hi Hs) as [n [_ Hrun]].
      exists (Uuid.to_str n), (mk_world (backend w) true).
      assert (Hm : Uuid.UUID_PATTERN (Uuid.to_str n) = true)
        by apply canonical_matches, to_str_canonical.
      repeat split; try assumption.
      apply (sanitize_id_match self idx _ _ i Hi Hm).
Qed.

Lemma canonical_length (s : string) : Uuid.canonical s -> String.length s = 36.
Proof.
  intros [a b c d e [La _] [Lb _] [Lc _] [Ld _] [Le _]].
  rewrite !length_append, La, Lb, Lc, Ld, Le. reflexivity.
Qed.

(** C5.  The result of [_sanitize_id] is not always of the canonical UUID
    grammar, and not every index name is accepted.  [$] of [UUID_PATTERN]
    also matches before a final newline: an id made of a UUID and a newline
    is matched, so no uuid is generated for it and it is returned as it is,
    though it is not of the grammar.  And with the empty string as index
    name the call raises [IndexError] before it looks at the id, also for
    an id that is a UUID. *)
Theorem sanitize_id_returns_uuid_with_newline :
  let uuid := "1bad51b7-bd77-485d-8871-21c50fab248f" in
  let s := (uuid ++ String "010" EmptyString)%string in
  Uuid.canonical uuid /\
  ~ Uuid.canonical s /\
  Uuid.UUID_PATTERN s = true /\
  _sanitize_id Sample.self s None Sample.fresh = (Ok s, Sample.fresh) /\
  _sanitize_id Sample.self uuid (Some EmptyString) Sample.fresh
  = (Raise IndexError, Sample.fresh).
Proof.
  cbv zeta. split; [|split; [|split; [|split]]]; try reflexivity.
  - apply (@Uuid.canonical_groups "1bad51b7" "bd77" "485d" "8871" "21c50fab248f");
      split; reflexivity.
  - intros H. apply canonical_length in H. discriminate H.
Qed.

(** ** Type inference for new properties *)

(** C2, as the module has it.  A non-empty list is unwrapped once, to its
    first element, and the type of that element gets the suffix ["[]"]; a
    string that the date conversion accepts is a ["date"]; any other string
    is a ["string"]; an integer is an ["int"]; a float is a ["number"]. *)
Theorem weaviate_type_of_value (ext : collaborators) :
  (forall x xs t,
      isinstance_list x = false ->
      _get_weaviate_type_of_value ext x = Ok t ->
      _get_weaviate_type_of_value ext (VList (x :: xs)) = Ok (t ++ "[]")) /\
  (forall s r,
      convert_date_to_rfc3339 ext s = Some r ->
      _get_weaviate_type_of_value ext (VStr s) = Ok "date") /\
  (forall s,
      convert_date_to_rfc3339 ext s = None ->
      _get_weaviate_type_of_value ext (VStr s) = Ok "string") /\
  (forall n, _get_weaviate_type_of_value ext (VInt n) = Ok "int") /\
  (forall f, _get_weaviate_type_of_value ext (VFloat f) = Ok "number").
Proof.
  repeat split.
  - intros x xs t Hx Ht. unfold _get_weaviate_type_of_value in *.
    rewrite Hx in Ht. cbn in Ht. cbn.
    destruct (isinstance_str x), (isinstance_int x), (isinstance_float x),
      (isinstance_bool x);
      try destruct (convert_date_to_rfc3339 ext (py_str ext x));
      injection Ht as <-; reflexivity.
  - intros s r H. unfold _get_weaviate_type_of_value. cbn. now rewrite H.
  - intros s H. unfold _get_weaviate_type_of_value. cbn. now rewrite H.
Qed.

Lemma weaviate_type_of_value_witness :
  convert_date_to_rfc3339 Sample.ext "2015-01-01" = Some "2015-01-01T00:00:00Z" /\
  _get_weaviate_type_of_value Sample.ext (VStr "2015-01-01") = Ok "date".
Proof.
  assert (H : convert_date_to_rfc3339 Sample.ext "2015-01-01"
              = Some "2015-01-01T00:00:00Z") by reflexivity.
  split; [exact H|].
  exact (proj1 (proj2 (weaviate_type_of_value Sample.ext)) _ _ H).
Defined.

(** C2 as written has ["text"] for a string that is no date. *)
Lemma plain_string_is_not_text :
  convert_date_to_rfc3339 Sample.ext "hello" = None /\
  _get_weaviate_type_of_value Sample.ext (VStr "hello") = Ok "string" /\
  _get_weaviate_type_of_value Sample.ext (VStr "hello") <> Ok "text".
Proof. repeat split. discriminate. Qed.

(** [isinstance(value, int)] is asked before [isinstance(value, bool)], and
    holds for a boolean. *)
Example boolean_is_typed_int :
  _get_weaviate_type_of_value Sample.ext (VBool true) = Ok "int" /\
  _get_weaviate_type_of_value Sample.ext (VList [VBool false]) = Ok "int[]".
Proof. split; reflexivity. Qed.

Example empty_list_has_no_type :
  _get_weaviate_type_of_value Sample.ext (VList []) = Raise IndexError.
Proof. reflexivity. Qed.

(** ** Counting *)

(** C7.  Asked only for the documents without an embedding,
    [get_document_count] answers 0 at once: whatever the filters and the
    index, the world is left as it was, so the service has received no call
    and neither the filters nor the index name have been looked at. *)
Theorem count_without_embedding_is_zero
    (ext : collaborators) (self : config) (filters : value) (idx : option string)
    (headers : value) (w : world) :
  truthy headers = false ->
  get_document_count ext self filters idx true headers w = (Ok (VInt 0), w).
Proof.
  intros H. unfold get_document_count. rewrite H. reflexivity.
Qed.

Lemma count_without_embedding_is_zero_witness :
  truthy VNone = false /\
  get_document_count Sample.ext Sample.self (VDict [("genre", VStr "news")])
    (Some EmptyString) true VNone Sample.three_written
  = (Ok (VInt 0), Sample.three_written).
Proof.
  split; [reflexivity|].
  apply (count_without_embedding_is_zero Sample.ext Sample.self
           (VDict [("genre", VStr "news")]) (Some EmptyString) VNone
           Sample.three_written).
  reflexivity.
Defined.

(** ** Text-only queries *)

Lemma index_or_default_raises (self : config) (idx : option string) (e : exn) :
  index_or_default self idx = Raise e -> e = IndexError.
Proof.
  unfold index_or_default, _sanitize_index_name.
  destruct idx as [[|c rest]|].
  - cbn. intros H. now injection H as <-.
  - destruct (contains_char "_" (String c rest)); cbn; discriminate.
  - cbn. discriminate.
Qed.

Lemma rbind_supported {A B} (r : result A) (k : A -> result B) :
  supported r -> (forall a, supported (k a)) -> supported (rbind r k).
Proof.
  unfold supported. destruct r as [a|e]; cbn; intros Hr Hk; [apply Hk|].
  intros H. apply Hr. now injection H as ->.
Qed.

Lemma py_get_supported k v : supported (py_get k v).
Proof. unfold supported. destruct v; discriminate. Qed.

Lemma py_in_supported k v : supported (py_in k v).
Proof. unfold supported. destruct v; discriminate. Qed.

Lemma py_getitem_supported k v : supported (py_getitem k v).
Proof.
  unfold supported. destruct v; try discriminate.
  cbn. destruct (dict_get k d); discriminate.
Qed.

Lemma py_iter_supported v : supported (py_iter v).
Proof. unfold supported. destruct v; discriminate. Qed.

Lemma ok_supported {A} (a : A) : supported (Ok a).
Proof. unfold supported. discriminate. Qed.

Lemma from_dict_supported ext d : supported (from_dict ext d).
Proof.
  unfold supported, from_dict. destruct (is_not_none _); discriminate.
Qed.

Create HintDb supported.
#[local] Hint Resolve py_get_supported py_in_supported py_getitem_supported
  py_iter_supported ok_supported from_dict_supported : supported.

Ltac supported_step :=
  match goal with
  | |- supported (rbind _ _) => apply rbind_supported; [|intros ?]
  | |- supported (if ?b then _ else _) => destruct b
  | |- supported (match ?x with _ => _ end) => destruct x
  | |- supported (Raise _) => unfold supported; discriminate
  | |- supported _ => solve [auto with supported]
  end.

Lemma convert_supported ext self res re :
  supported (_convert_weaviate_result_to_document ext self res re).
Proof.
  unfold _convert_weaviate_result_to_document. repeat supported_step.
Qed.

Lemma convert_all_supported ext self results re :
  supported (convert_all ext self results re).
Proof.
  induction results as [|res rest IH]; cbn [convert_all].
  - apply ok_supported.
  - apply rbind_supported; [apply convert_supported | intros d].
    apply rbind_supported; [exact IH | intros ds; apply ok_supported].
Qed.

Lemma get_hits_supported index res none : supported (get_hits index res none).
Proof. unfold get_hits. repeat supported_step. Qed.

Lemma compile_filters_supported ext filters : supported (compile_filters ext filters).
Proof. unfold compile_filters. repeat supported_step. Qed.

Lemma bind_supported {A B} (m : M A) (k : A -> M B) :
  always_supported m -> (forall a, always_supported (k a)) ->
  always_supported (bind m k).
Proof.
  intros Hm Hk w. unfold bind. specialize (Hm w).
  destruct (m w) as [[a|e] w']; cbn in *.
  - apply Hk.
  - unfold supported in *. intros H. apply Hm. now injection H as ->.
Qed.

Lemma lift_supported {A} (r : result A) : supported r -> always_supported (lift r).
Proof. intros H w. exact H. Qed.

Lemma request_supported {A} (f : Backend.t -> A * Backend.t) :
  always_supported (request f).
Proof.
  intros w. unfold request. destruct (f (backend w)). apply ok_supported.
Qed.

Lemma index_or_default_supported self idx : supported (index_or_default self idx).
Proof.
  unfold supported. intros H. apply index_or_default_raises in H. discriminate.
Qed.

Lemma get_current_properties_supported self idx :
  always_supported (_get_current_properties self idx).
Proof.
  unfold _get_current_properties.
  apply bind_supported; [apply lift_supported, index_or_default_supported|].
  intros i. apply bind_supported; [apply request_supported|].
  intros classes w. apply ok_supported.
Qed.

Lemma get_current_properties_run self i1 i2 w :
  index_or_default self (Some i1) = Ok i2 ->
  exists props,
    _get_current_properties self (Some i1) w
    = (Ok props, mk_world (Backend.record Backend.SchemaGet (backend w))
                          (uuid_format_warning_raised w)).
Proof.
  intros H. unfold _get_current_properties, bind, lift, request, ret.
  rewrite H. cbn. eexists. reflexivity.
Qed.

(** C8.  A query with neither filters nor a custom query ends in
    [NotImplementedError]; the one call the service has received by then is
    the read of the schema, and no query.  With filters, or with a custom
    query, the call does not end in that error. *)
Theorem query_needs_filters_or_custom_query
    (ext : collaborators) (self : config) (q : option string) (filters : value)
    (top_k : Z) (custom_query : option string) (idx : option string) (w : world) :
  (forall i1 i2,
      index_or_default self idx = Ok i1 ->
      index_or_default self (Some i1) = Ok i2 ->
      truthy filters = false ->
      custom_query = None \/ custom_query = Some EmptyString ->
      exists w',
        query ext self q filters top_k custom_query idx w
        = (Raise NotImplementedError, w') /\
        Backend.log (backend w') = (Backend.log (backend w) ++ [Backend.SchemaGet])%list /\
        filter Backend.is_query (Backend.log (backend w'))
        = filter Backend.is_query (Backend.log (backend w))) /\
  (truthy filters = true \/ (exists c, custom_query = Some c /\ c <> EmptyString) ->
   supported (fst (query ext self q filters top_k custom_query idx w))).
Proof.
  split.
  - intros i1 i2 H1 H2 Hf Hc.
    destruct (get_current_properties_run self i1 i2 w H2) as [props Hp].
    eexists. split; [|split].
    + unfold query, bind, lift. rewrite H1, Hp, Hf.
      destruct Hc as [-> | ->]; reflexivity.
    + reflexivity.
    + cbn. rewrite filter_app. cbn. now rewrite app_nil_r.
  - intros H. unfold query.
    apply bind_supported; [apply lift_supported, index_or_default_supported|].
    intros i. apply bind_supported; [apply get_current_properties_supported|].
    intros props. apply bind_supported.
    + destruct H as [Hf | [c [-> Hc]]].
      * assert (Hq : always_supported
                       (let* filter_dict := lift (compile_filters ext filters) in
                        request (Backend.query_get (where_matches ext) i
                                   (props ++ [Backend.additional_selector])%list
                                   (Some filter_dict) (Some top_k)))).
        { apply bind_supported;
            [apply lift_supported, compile_filters_supported|].
          intros f. apply request_supported. }
        rewrite Hf.
        destruct custom_query as [c|]; [|exact Hq].
        destruct (truthy (VStr c)); [apply request_supported | exact Hq].
      * cbn. destruct (String.eqb_spec c EmptyString) as [E|E]; [contradiction|].
        apply request_supported.
    + intros out. apply bind_supported;
        [apply lift_supported, get_hits_supported|].
      intros hits. apply bind_supported;
        [apply lift_supported, py_iter_supported|].
      intros results. apply lift_supported, convert_all_supported.
Qed.

Lemma query_needs_filters_or_custom_query_witness :
  index_or_default Sample.self None = Ok "Document" /\
  index_or_default Sample.self (Some "Document") = Ok "Document" /\
  truthy VNone = false /\
  fst (query Sample.ext Sample.self (Some "who wrote it?") VNone 10 None None
         Sample.three_written)
  = Raise NotImplementedError.
Proof.
  assert (H1 : index_or_default Sample.self None = Ok "Document") by reflexivity.
  assert (H2 : index_or_default Sample.self (Some "Document") = Ok "Document")
    by reflexivity.
  assert (H3 : truthy VNone = false) by reflexivity.
  split; [exact H1 | split; [exact H2 | split; [exact H3 |]]].
  destruct (proj1 (query_needs_filters_or_custom_query Sample.ext Sample.self
                     (Some "who wrote it?") VNone 10 None None Sample.three_written)
                  _ _ H1 H2 H3 (or_introl eq_refl)) as [w' [E _]].
  now rewrite E.
Defined.

(** ** The scenario of section 8: three documents, one deleted *)

(** C1, evaluated.  Three documents are written under the ids ["doc-1"],
    ["doc-2"] and ["doc-3"], and the count is 3.  [delete_documents] with
    [ids=["doc-2"]] returns normally, but it compares the stored,
    normalised ids with the caller's strings as they are: afterwards the
    count is still 3, and [get_document_by_id("doc-2")] still finds the
    document. *)
Theorem delete_by_caller_id_deletes_nothing :
  let count w :=
    fst (get_document_count Sample.ext Sample.self VNone None false VNone w) in
  let deleted :=
    delete_documents Sample.ext Sample.self None (Some ["doc-2"]) VNone VNone
      Sample.three_written in
  count Sample.three_written = Ok (VInt 3) /\
  fst deleted = Ok tt /\
  count (snd deleted) = Ok (VInt 3) /\
  exists d,
    fst (get_document_by_id Sample.ext Sample.self "doc-2" None VNone (snd deleted))
    = Ok (Some d) /\
    doc_id d = VStr "ffe66bff-9675-d98c-e872-6768a096179c" /\
    doc_content d = VStr "two".
Proof.
  vm_compute. repeat split. eexists. repeat split.
Qed.

(** Given the normalised id, the same call deletes the document. *)
Example delete_by_normalised_id :
  let count w :=
    fst (get_document_count Sample.ext Sample.self VNone None false VNone w) in
  let deleted :=
    delete_documents Sample.ext Sample.self None
      (Some ["ffe66bff-9675-d98c-e872-6768a096179c"]) VNone VNone
      Sample.three_written in
  count (snd deleted) = Ok (VInt 2) /\
  fst (get_document_by_id Sample.ext Sample.self "doc-2" None VNone (snd deleted))
  = Ok None.
Proof. vm_compute. split; reflexivity. Qed.

(** ** Index names on the way to the service *)

Example index_names_are_canonicalised :
  _sanitize_index_name (Some "document_index") = Ok (Some "DocumentIndex") /\
  _sanitize_index_name (Some "DocumentIndex") = Ok (Some "DocumentIndex") /\
  _sanitize_index_name (Some "document") = Ok (Some "Document") /\
  _sanitize_index_name (Some "my_docIndex") = Ok (Some "MyDocindex") /\
  _sanitize_index_name (Some EmptyString) = Raise IndexError.
Proof. repeat split. Qed.

(** Beyond ASCII: e with acute accent ([U+00E9], upper case [U+00C9]), and
    the sharp s ([U+00DF]) in upper case and in title case *)
Example index_names_of_latin_1 :
  _sanitize_index_name (Some (String "233" "lan")) = Ok (Some (String "201" "lan")) /\
  _sanitize_index_name (Some (String "233" "t_" ++ String "201" "T"))
  = Ok (Some (String "201" "t" ++ String "201" "t")) /\
  _sanitize_index_name (Some (String "223" "a")) = Ok (Some "SSa") /\
  _sanitize_index_name (Some (String "223" "A_b")) = Ok (Some "SsaB").
Proof. repeat split. Qed.

(** C9, evaluated.  [update_document_meta] is given the index name
    ["document_index"].  The helpers it calls canonicalise the name for
    themselves, so the new property is added to the class
    ["DocumentIndex"]; the update of the object is sent with the name as the
    caller wrote it. *)
Theorem update_document_meta_sends_raw_index_name :
  let before := Sample.indexed_written in
  let updated :=
    update_document_meta Sample.ext Sample.indexed
      "2cbbe9ec-d0cf-fb58-f56a-1dd939612f45" [("genre", VStr "news")]
      (Some "document_index") before in
  let after := snd updated in
  fst updated = Ok tt /\
  skipn (List.length (Backend.log (backend before))) (Backend.log (backend after))
  = [Backend.SchemaGet;
     Backend.PropertyCreate "DocumentIndex" (Backend.mk_property "genre" ["string"]);
     Backend.SchemaGet;
     Backend.ObjectUpdate "document_index" "2cbbe9ec-d0cf-fb58-f56a-1dd939612f45"].
Proof. vm_compute. split; reflexivity. Qed.

(** ** Dictionaries *)

Lemma dict_get_remove_ne {V} (k k' : string) (d : list (string * V)) :
  k <> k' -> dict_get k (dict_remove k' d) = dict_get k d.
Proof.
  intros Hne. induction d as [|[k0 v] d IH]; cbn; [reflexivity|].
  destruct (String.eqb_spec k' k0) as [->|E'].
  - rewrite IH. destruct (String.eqb_spec k k0); [contradiction | reflexivity].
  - cbn. now rewrite IH.
Qed.

Lemma dict_get_remove_eq {V} (k : string) (d : list (string * V)) :
  dict_get k (dict_remove k d) = None.
Proof.
  induction d as [|[k0 v] d IH]; cbn; [reflexivity|].
  destruct (String.eqb_spec k k0) as [->|E]; [exact IH|].
  cbn. destruct (String.eqb_spec k k0); [contradiction | exact IH].
Qed.

Lemma dict_remove_incl {V} (k : string) (d : list (string * V)) (kv : string * V) :
  In kv (dict_remove k d) -> In kv d.
Proof.
  induction d as [|[k0 v] d IH]; cbn; [tauto|].
  destruct (String.eqb k k0); cbn; intuition.
Qed.

Lemma dict_get_filter_none {V} (k : string) (f : string * V -> bool)
    (d : list (string * V)) :
  dict_get k d = None -> dict_get k (filter f d) = None.
Proof.
  induction d as [|[k0 v] d IH]; cbn; [reflexivity|].
  destruct (String.eqb_spec k k0) as [->|E]; [discriminate|].
  intros H. destruct (f (k0, v)); cbn; [|now apply IH].
  destruct (String.eqb_spec k k0); [contradiction | now apply IH].
Qed.

Lemma dict_mem_get {V} (k : string) (d : list (string * V)) (v : V) :
  dict_get k d = Some v -> dict_mem k d = true.
Proof. unfold dict_mem. now intros ->. Qed.

(** ** Decoding the answers of the service *)

Lemma dict_remove_filter {V} (k : string) (d : list (string * V)) :
  dict_remove k d = filter (fun kv => negb (String.eqb k (fst kv))) d.
Proof.
  induction d as [|[k0 v] d IH]; cbn; [reflexivity|].
  destruct (String.eqb k k0); cbn; now rewrite IH.
Qed.

Lemma filter_twice {A} (f g : A -> bool) (l : list A) :
  filter f (filter g l) = filter (fun x => (g x && f x)%bool) l.
Proof.
  induction l as [|x l IH]; cbn; [reflexivity|].
  destruct (g x); cbn; [destruct (f x)|]; now rewrite IH.
Qed.

Lemma dict_remove_absent {V} (k : string) (d : list (string * V)) :
  dict_get k d = None -> dict_remove k d = d.
Proof.
  induction d as [|[k0 v] d IH]; cbn; [reflexivity|].
  destruct (String.eqb k k0); [discriminate|]. intros H. now rewrite IH.
Qed.

(** What the decoder leaves in [props] when it builds the meta data *)
Lemma meta_data_of_fields (self : config) (fields : dict) :
  filter (fun kv => negb (str_in (fst kv) [content_field self; embedding_field self]))
    (dict_remove "_additional"
       (if is_not_none (value_at "content_type" fields)
        then dict_remove "content_type" fields else fields))
  = filter (fun kv => negb (set_aside self fields (fst kv))) fields.
Proof.
  rewrite dict_remove_filter.
  assert (E : (if is_not_none (value_at "content_type" fields)
               then dict_remove "content_type" fields else fields)
              = filter (fun kv => negb (String.eqb "content_type" (fst kv)
                                        && is_not_none (value_at "content_type" fields)))
                       fields).
  { destruct (is_not_none _).
    - rewrite dict_remove_filter. apply filter_ext. intros kv. now rewrite andb_true_r.
    - symmetry. apply forallb_filter_id, forallb_forall. intros kv _.
      now rewrite andb_false_r. }
  rewrite E, !filter_twice. apply filter_ext. intros [k v]. cbn [fst].
  unfold set_aside, str_in. cbn [existsb].
  rewrite (String.eqb_sym k "content_type"), (String.eqb_sym k "_additional").
  destruct (String.eqb "content_type" k && _)%bool, (String.eqb "_additional" k),
    (String.eqb k (content_field self)), (String.eqb k (embedding_field self));
    reflexivity.
Qed.

Lemma set_aside_additional (self : config) (fields : dict) :
  dict_mem "_additional"
    (filter (fun kv => negb (set_aside self fields (fst kv))) fields) = false.
Proof.
  unfold dict_mem.
  assert (G : forall d : dict,
             dict_get "_additional"
               (filter (fun kv => negb (set_aside self fields (fst kv))) d) = None).
  { induction d as [|[k v] d IH]; [reflexivity|]. cbn [filter fst].
    destruct (set_aside self fields k) eqn:E; cbn [negb]; [exact IH|].
    cbn [dict_get]. destruct (String.eqb_spec "_additional" k) as [<-|_]; [|exact IH].
    unfold set_aside, str_in in E. cbn [existsb] in E.
    rewrite String.eqb_refl, !orb_true_r in E. discriminate. }
  now rewrite G.
Qed.

(** C3.  Whichever shape the answer has, the fields are those under a
    non-empty ["properties"] key, else those at the root.  With the
    ["_additional"] entry of the fields as side channel, the decoder hands
    [Document.from_dict] the id and the vector of the side channel, and the
    root's only when the side channel has none, the side channel's
    certainty as score, the stored text, decoded, as content, the content
    type, and as meta data the fields in their order, without the content
    field, the embedding field, the side channel and a content type that is
    set.  So ["_additional"] is no key of the meta data; a content that
    decodes to [None] is refused, and in every other case the document has
    these very fields, with a generated id when there is none. *)
Theorem convert_normalises_both_shapes
    (ext : collaborators) (self : config) (res fields a : dict) (content : value)
    (return_embedding_ : bool) :
  fields_of res fields ->
  side_channel fields a ->
  stored_content ext self fields content ->
  let id := match dict_get "id" a with Some x => x | None => value_at "id" res end in
  let vector :=
    match dict_get "vector" a with Some x => x | None => value_at "vector" res end in
  let embedding :=
    if (return_embedding_ && truthy vector)%bool then np_asarray ext vector else vector in
  let content_type :=
    if is_not_none (value_at "content_type" fields)
    then VStr (py_str ext (value_at "content_type" fields)) else VNone in
  let meta := filter (fun kv => negb (set_aside self fields (fst kv))) fields in
  let given :=
    [("id", id); ("content", content); ("content_type", content_type);
     ("meta", VDict meta); ("score", value_at "certainty" a);
     ("embedding", embedding)] in
  let run :=
    _convert_weaviate_result_to_document ext self (VDict res) return_embedding_ in
  run = from_dict ext given /\
  dict_mem "_additional" meta = false /\
  (content = VNone -> run = Raise ValueError) /\
  (content <> VNone ->
   run = Ok (mk_document
               (VStr (if truthy id then py_str ext id else generated_id ext given))
               content content_type meta (value_at "certainty" a) embedding)).
Proof.
  intros Hf Ha Hc id vector embedding content_type meta given run.
  assert (E : run = from_dict ext given).
  { unfold run, _convert_weaviate_result_to_document.
    cbn [py_get rbind].
    assert (Hp : (if negb (truthy (value_at "properties" res))
                  then VDict res else value_at "properties" res) = VDict fields).
    { destruct Hf as [p Hp Hne | Hq].
      - unfold value_at. rewrite Hp. destruct p; [contradiction | reflexivity].
      - now rewrite Hq. }
    rewrite Hp. clear Hp.
    assert (Hc' : (if is_not_none (value_at (content_field self) fields)
                   then match json_loads ext
                                (py_str ext (value_at (content_field self) fields)) with
                        | Some x => Ok x
                        | None => Raise JSONDecodeError
                        end
                   else Ok (VStr "")) = Ok content).
    { destruct Hc as [c H1 H2 | H1]; rewrite H1; [now rewrite H2 | reflexivity]. }
    rewrite Hc'. clear Hc'. cbn [rbind].
    pose proof (meta_data_of_fields self fields) as Hm. fold meta in Hm.
    set (props := if is_not_none (value_at "content_type" fields)
                  then dict_remove "content_type" fields else fields) in *.
    assert (Hadd : dict_get "_additional" props = dict_get "_additional" fields).
    { unfold props. destruct (is_not_none _); [|reflexivity].
      apply dict_get_remove_ne. discriminate. }
    rewrite Hadd. unfold given, id, embedding, vector.
    destruct Ha as [a Ha | Ha]; rewrite Ha.
    - cbn [py_in py_getitem rbind]. unfold dict_mem, value_at.
      destruct (dict_get "certainty" a), (dict_get "id" a), (dict_get "vector" a);
        cbn [rbind]; now rewrite Hm.
    - rewrite dict_remove_absent in Hm by (now rewrite Hadd).
      cbn [rbind dict_get]. now rewrite Hm. }
  split; [exact E | split; [apply set_aside_additional | split]].
  - intros ->. rewrite E. reflexivity.
  - intros Hn. rewrite E. unfold from_dict, given. cbn.
    destruct content; try reflexivity. now contradiction Hn.
Qed.

Lemma convert_normalises_both_shapes_witness :
  fields_of Sample.hit Sample.hit /\
  side_channel Sample.hit Sample.additional /\
  stored_content Sample.ext Sample.self Sample.hit (VStr "two") /\
  exists doc,
    _convert_weaviate_result_to_document Sample.ext Sample.self (VDict Sample.hit) true
    = Ok doc /\
    doc_id doc = VStr "ffe66bff-9675-d98c-e872-6768a096179c" /\
    doc_score doc = Sample.half /\
    doc_embedding doc = VList [Sample.half; Sample.half] /\
    doc_meta doc
    = [("genre", VStr "news"); ("id", VStr "stale"); ("vector", VList [])].
Proof.
  assert (H1 : fields_of Sample.hit Sample.hit) by (apply query_shape; reflexivity).
  assert (H2 : side_channel Sample.hit Sample.additional)
    by (apply side_channel_present; reflexivity).
  assert (H3 : stored_content Sample.ext Sample.self Sample.hit (VStr "two"))
    by (apply content_decoded; reflexivity).
  split; [exact H1 | split; [exact H2 | split; [exact H3 |]]].
  assert (Hn : VStr "two" <> VNone) by discriminate.
  eexists. split.
  - exact (proj2 (proj2 (proj2
             (convert_normalises_both_shapes Sample.ext Sample.self Sample.hit
                Sample.hit Sample.additional (VStr "two") true H1 H2 H3))) Hn).
  - cbn. repeat split.
Defined.

(** ** Fetching by id *)

Lemma sanitize_id_normalize (self : config) (idx : option string) (w : world)
    (s i : string) :
  index_or_default self idx = Ok i ->
  exists flag,
    _sanitize_id self s idx w = (Ok (normalize s i), mk_world (backend w) flag).
Proof.
  intros Hi. unfold normalize.
  destruct (Uuid.UUID_PATTERN s) eqn:Hs.
  - exists (uuid_format_warning_raised w).
    rewrite (sanitize_id_match self idx w s i Hi Hs). now destruct w.
  - destruct (sanitize_id_generate self idx w s i Hi Hs) as [n [Hn Hrun]].
    exists true. now rewrite Hn, Hrun.
Qed.

Lemma get_documents_by_id_loop_spec (ext : collaborators) (self : config)
    (i1 i2 : string) (stored : list (string * Backend.object)) (ids : list string) :
  index_or_default self (Some i1) = Ok i2 ->
  forall (documents : list Document) (w : world),
    Backend.objects (backend w) = stored ->
    exists w',
      get_documents_by_id_loop ext self ids i1 documents w
      = (match getByIds ext self stored i2 ids with
         | Ok ds => Ok (documents ++ ds)%list
         | Raise e => Raise e
         end, w') /\
      Backend.objects (backend w') = stored /\
      Backend.schema (backend w') = Backend.schema (backend w) /\
      (is_ok (getByIds ext self stored i2 ids) = true ->
       Backend.log (backend w')
       = (Backend.log (backend w)
          ++ map (fun id => Backend.ObjectGetById (normalize id i2)) ids)%list).
Proof.
  intros Hi. induction ids as [|id ids IH]; intros documents w Hw.
  - exists w. cbn. rewrite !app_nil_r. repeat split; assumption.
  - cbn [get_documents_by_id_loop getByIds map].
    destruct (sanitize_id_normalize self (Some i1) w id i2 Hi) as [flag Hs].
    unfold bind at 1. rewrite Hs.
    unfold bind at 1. unfold request at 1.
    cbn [backend uuid_format_warning_raised Backend.get_by_id].
    rewrite Hw.
    set (w1 := mk_world (Backend.record (Backend.ObjectGetById (normalize id i2)) (backend w)) flag).
    destruct (dict_get (normalize id i2) stored) as [o|] eqn:Ho; cbn [option_map found].
    + change (truthy (Backend.get_shape (normalize id i2) o)) with true. cbn iota.
      unfold bind at 1, lift at 1.
      destruct (_convert_weaviate_result_to_document ext self
                  (Backend.get_shape (normalize id i2) o) true) as [d|e] eqn:Hd;
        cbn [rbind].
      * destruct (IH (documents ++ [d])%list w1 Hw) as [w' [E [Ho' [Hs' Hl]]]].
        exists w'. rewrite E. repeat split; try assumption.
        -- destruct (getByIds ext self stored i2 ids); [|reflexivity].
           cbn. now rewrite <- app_assoc.
        -- intros Hok. rewrite Hl.
           ++ cbn. now rewrite <- app_assoc.
           ++ destruct (getByIds ext self stored i2 ids); [reflexivity | discriminate].
      * exists w1. repeat split; try assumption. discriminate.
    + destruct (IH documents w1 Hw) as [w' [E [Ho' [Hs' Hl]]]].
      exists w'. rewrite E. repeat split; try assumption.
      intros Hok. rewrite (Hl Hok). cbn. now rewrite <- app_assoc.
Qed.

(** C6.  [get_documents_by_id] returns what [getByIds] describes: the ids
    are normalised and looked up one after the other, a document is
    returned for each id that is stored, in the order of the ids, and an id
    that is not stored leaves no trace in the result.  The service receives
    one [get_by_id] per id, in order, and nothing in it is changed. *)
Theorem get_documents_by_id_in_order
    (ext : collaborators) (self : config) (ids : list string) (idx : option string)
    (batch_size : Z) (headers : value) (w : world) (i1 i2 : string) :
  truthy headers = false ->
  index_or_default self idx = Ok i1 ->
  index_or_default self (Some i1) = Ok i2 ->
  let stored := Backend.objects (backend w) in
  exists w',
    get_documents_by_id ext self ids idx batch_size headers w
    = (getByIds ext self stored i2 ids, w') /\
    Backend.objects (backend w') = stored /\
    Backend.schema (backend w') = Backend.schema (backend w) /\
    (is_ok (getByIds ext self stored i2 ids) = true ->
     Backend.log (backend w')
     = (Backend.log (backend w)
        ++ map (fun id => Backend.ObjectGetById (normalize id i2)) ids)%list).
Proof.
  intros Hh H1 H2 stored.
  destruct (get_documents_by_id_loop_spec ext self i1 i2 stored ids H2 [] w eq_refl)
    as [w' [E H]].
  exists w'. split; [|exact H].
  unfold get_documents_by_id. rewrite Hh.
  unfold bind, lift. rewrite H1, E.
  now destruct (getByIds ext self stored i2 ids).
Qed.

Lemma get_documents_by_id_in_order_witness :
  truthy VNone = false /\
  index_or_default Sample.self None = Ok "Document" /\
  index_or_default Sample.self (Some "Document") = Ok "Document" /\
  exists d3 d1,
    fst (get_documents_by_id Sample.ext Sample.self ["doc-3"; "doc-9"; "doc-1"]
           None 10000 VNone Sample.three_written)
    = Ok [d3; d1] /\
    doc_content d3 = VStr "three" /\ doc_content d1 = VStr "one".
Proof.
  assert (H0 : truthy VNone = false) by reflexivity.
  assert (H1 : index_or_default Sample.self None = Ok "Document") by reflexivity.
  assert (H2 : index_or_default Sample.self (Some "Document") = Ok "Document")
    by reflexivity.
  split; [exact H0 | split; [exact H1 | split; [exact H2 |]]].
  destruct (get_documents_by_id_in_order Sample.ext Sample.self
              ["doc-3"; "doc-9"; "doc-1"] None 10000 VNone Sample.three_written
              "Document" "Document" H0 H1 H2) as [w' [E _]].
  rewrite E. vm_compute. do 2 eexists. repeat split.
Defined.

(** ** Running a method body step by step *)

Lemma bind_inv {A B} (m : M A) (k : A -> M B) (w : world) (r : result B) (w' : world) :
  bind m k w = (r, w') ->
  (exists a w1, m w = (Ok a, w1) /\ k a w1 = (r, w')) \/
  (exists e, m w = (Raise e, w') /\ r = Raise e).
Proof.
  unfold bind. destruct (m w) as [[a|e] w1]; intros H.
  - left. now exists a, w1.
  - right. exists e. now injection H as <- <-.
Qed.

Lemma bind_ret {A B} (a : A) (k : A -> M B) (w : world) : bind (ret a) k w = k a w.
Proof. reflexivity. Qed.

Lemma bind_ret_r {A} (m : M A) (w : world) : bind m (fun a => ret a) w = m w.
Proof. unfold bind, ret. now destruct (m w) as [[a|e] w1]. Qed.

Lemma str_in_In (x : string) (l : list string) : str_in x l = true <-> In x l.
Proof.
  unfold str_in. rewrite existsb_exists. split.
  - intros [y [Hy E]]. apply String.eqb_eq in E. now subst.
  - intros H. exists x. split; [exact H | apply String.eqb_refl].
Qed.

Lemma str_in_not_In (x : string) (l : list string) : str_in x l = false <-> ~ In x l.
Proof.
  rewrite <- str_in_In. destruct (str_in x l); split; intros; congruence.
Qed.

(** ** Calls that ask for no migration *)

Lemma migrated_app (l l' : list Backend.call) :
  Backend.migrated (l ++ l') = (Backend.migrated l ++ Backend.migrated l')%list.
Proof. apply flat_map_app. Qed.

Lemma quiet_ret {A} (a : A) : quiet (ret a).
Proof. intros w r w' H. now injection H as _ <-. Qed.

Lemma quiet_raise {A} (e : exn) : quiet (@raise A e).
Proof. intros w r w' H. now injection H as _ <-. Qed.

Lemma quiet_lift {A} (x : result A) : quiet (lift x).
Proof. intros w r w' H. now injection H as _ <-. Qed.

Lemma quiet_bind {A B} (m : M A) (k : A -> M B) :
  quiet m -> (forall a, quiet (k a)) -> quiet (bind m k).
Proof.
  intros Hm Hk w r w' H.
  apply bind_inv in H as [[a [w1 [H1 H2]]] | [e [H1 _]]].
  - rewrite (Hk a _ _ _ H2). exact (Hm _ _ _ H1).
  - exact (Hm _ _ _ H1).
Qed.

Lemma quiet_request {A} (f : Backend.t -> A * Backend.t) :
  silent f -> quiet (request f).
Proof.
  intros Hf w r w' H. unfold request in H. specialize (Hf (backend w)).
  destruct (f (backend w)) as [a b]. injection H as _ <-. exact Hf.
Qed.

Lemma quiet_request_r {A} (f : Backend.t -> result A * Backend.t) :
  silent f -> quiet (request_r f).
Proof.
  intros Hf w r w' H. unfold request_r in H. specialize (Hf (backend w)).
  destruct (f (backend w)) as [a b]. injection H as _ <-. exact Hf.
Qed.

Lemma migrated_record (c : Backend.call) (b : Backend.t) :
  Backend.migrated (Backend.log (Backend.record c b))
  = (Backend.migrated (Backend.log b) ++ Backend.migrated [c])%list.
Proof. unfold Backend.record. cbn [Backend.log]. apply migrated_app. Qed.

Ltac silent_call :=
  intros b; cbn; try rewrite migrated_app; cbn; try apply app_nil_r; try reflexivity.

Lemma silent_schema_get : silent Backend.schema_get.
Proof. silent_call. Qed.

Lemma silent_schema_contains s : silent (Backend.schema_contains s).
Proof. silent_call. Qed.

Lemma silent_schema_create s : silent (Backend.schema_create s).
Proof.
  intros b. unfold Backend.schema_create. cbv zeta.
  destruct (Backend.add_classes s _); cbn; rewrite migrated_app; apply app_nil_r.
Qed.

Lemma silent_get_by_id u : silent (Backend.get_by_id u).
Proof. silent_call. Qed.

Lemma silent_batch_create batch : silent (Backend.batch_create batch).
Proof. silent_call. Qed.

Lemma quiet_create_schema self idx : quiet (_create_schema_and_index_if_not_exist self idx).
Proof.
  unfold _create_schema_and_index_if_not_exist.
  apply quiet_bind; [apply quiet_lift | intros i].
  apply quiet_bind; [apply quiet_request, silent_schema_contains | intros known].
  destruct (negb known); [apply quiet_request_r, silent_schema_create | apply quiet_ret].
Qed.

Lemma quiet_get_current_properties self idx : quiet (_get_current_properties self idx).
Proof.
  unfold _get_current_properties.
  apply quiet_bind; [apply quiet_lift | intros i].
  apply quiet_bind; [apply quiet_request, silent_schema_get | intros c].
  apply quiet_ret.
Qed.

Lemma quiet_get_date_properties self idx : quiet (_get_date_properties self idx).
Proof.
  unfold _get_date_properties.
  apply quiet_bind; [apply quiet_lift | intros i].
  apply quiet_bind; [apply quiet_request, silent_schema_get | intros c].
  apply quiet_lift.
Qed.

Lemma quiet_sanitize_id self id idx : quiet (_sanitize_id self id idx).
Proof.
  unfold _sanitize_id.
  apply quiet_bind; [apply quiet_lift | intros i].
  destruct (negb (Uuid.UUID_PATTERN id)); [|apply quiet_ret].
  apply quiet_bind; [apply quiet_lift | intros u].
  intros w r w' H. now injection H as _ <-.
Qed.

Lemma quiet_sanitize_ids self docs i : quiet (sanitize_ids self docs i).
Proof.
  induction docs as [|do rest IH]; cbn [sanitize_ids]; [apply quiet_ret|].
  destruct (doc_id do); try apply quiet_raise.
  apply quiet_bind; [apply quiet_sanitize_id | intros id].
  apply quiet_bind; [exact IH | intros ds]. apply quiet_ret.
Qed.

Lemma quiet_get_documents_by_id_loop ext self ids i documents :
  quiet (get_documents_by_id_loop ext self ids i documents).
Proof.
  revert documents. induction ids as [|id ids IH]; intros documents;
    cbn [get_documents_by_id_loop]; [apply quiet_ret|].
  apply quiet_bind; [apply quiet_sanitize_id | intros u].
  apply quiet_bind; [apply quiet_request, silent_get_by_id | intros r].
  destruct (found r); [|apply IH].
  apply quiet_bind; [apply quiet_lift | intros d]. apply IH.
Qed.

Lemma quiet_get_documents_by_id ext self ids idx bs headers :
  quiet (get_documents_by_id ext self ids idx bs headers).
Proof.
  unfold get_documents_by_id. destruct (truthy headers); [apply quiet_raise|].
  apply quiet_bind; [apply quiet_lift | intros i].
  apply quiet_get_documents_by_id_loop.
Qed.

Lemma quiet_handle_duplicate_documents ext self docs i dup :
  quiet (_handle_duplicate_documents ext self docs i dup).
Proof.
  unfold _handle_duplicate_documents.
  destruct (String.eqb dup "overwrite"); [apply quiet_ret|].
  apply quiet_bind; [apply quiet_get_documents_by_id | intros found].
  destruct (map doc_id found); [apply quiet_ret|].
  destruct (String.eqb dup "fail"); [apply quiet_raise | apply quiet_ret].
Qed.

(** ** Keys of a dictionary stay distinct *)

Lemma dict_keys_remove {V} (k : string) (d : list (string * V)) (x : string) :
  In x (dict_keys (dict_remove k d)) -> In x (dict_keys d).
Proof.
  unfold dict_keys. induction d as [|[k0 v] d IH]; cbn; [tauto|].
  destruct (String.eqb k k0); cbn; intuition.
Qed.

Lemma dict_remove_nodup {V} (k : string) (d : list (string * V)) :
  NoDup (dict_keys d) -> NoDup (dict_keys (dict_remove k d)).
Proof.
  unfold dict_keys. induction d as [|[k0 v] d IH]; cbn; intros H; [exact H|].
  inversion H as [|? ? Hn Hd]; subst.
  destruct (String.eqb k k0); [now apply IH|].
  cbn. constructor; [|now apply IH].
  intros Hin. apply Hn. now apply (dict_keys_remove k).
Qed.

Lemma dict_keys_set {V} (k : string) (v : V) (d : list (string * V)) (x : string) :
  In x (dict_keys (dict_set k v d)) -> x = k \/ In x (dict_keys d).
Proof.
  unfold dict_keys. induction d as [|[k0 v0] d IH]; cbn.
  - intuition.
  - destruct (String.eqb_spec k k0) as [->|E]; cbn; intuition.
Qed.

Lemma dict_set_nodup {V} (k : string) (v : V) (d : list (string * V)) :
  NoDup (dict_keys d) -> NoDup (dict_keys (dict_set k v d)).
Proof.
  unfold dict_keys. induction d as [|[k0 v0] d IH]; cbn; intros H.
  - constructor; [tauto | constructor].
  - inversion H as [|? ? Hn Hd]; subst.
    destruct (String.eqb_spec k k0) as [->|E]; cbn.
    + now constructor.
    + constructor; [|now apply IH].
      intros Hin. apply dict_keys_set in Hin as [->|Hin]; [congruence | now apply Hn].
Qed.

Lemma dict_update_nodup {V} (items d : list (string * V)) :
  NoDup (dict_keys d) -> NoDup (dict_keys (dict_update items d)).
Proof.
  unfold dict_update. revert d. induction items as [|[k v] items IH]; intros d H; cbn.
  - exact H.
  - apply IH. now apply dict_set_nodup.
Qed.

Lemma fields_nodup ext self doc : NoDup (fields ext self doc).
Proof.
  unfold fields, flatten.
  assert (H0 : NoDup (dict_keys (dict_remove "score" (to_dict self doc)))).
  { apply dict_remove_nodup. unfold to_dict. apply dict_update_nodup. constructor. }
  set (d0 := dict_remove "score" (to_dict self doc)) in *. clearbody d0.
  assert (H1 : forall d1, unnest_meta d0 = Ok d1 -> NoDup (dict_keys d1)).
  { unfold unnest_meta. intros d1.
    destruct (dict_get "meta" d0) as [[]|]; intros E; try discriminate;
      injection E as <-; [|exact H0].
    apply dict_remove_nodup, dict_update_nodup, H0. }
  destruct (unnest_meta d0) as [d1|e]; cbn [rbind]; [|constructor].
  specialize (H1 d1 eq_refl).
  unfold pop at 1. destruct (dict_get "id" d1); cbn [rbind fst snd]; [|constructor].
  unfold pop at 1.
  destruct (dict_get (embedding_field self) (dict_remove "id" d1));
    cbn [rbind fst snd]; [|constructor].
  cbn [py_getitem].
  destruct (dict_get "content" _); cbn [rbind]; [|constructor].
  apply dict_set_nodup, dict_remove_nodup, dict_remove_nodup, H1.
Qed.

(** ** The migration plan *)

Lemma absent_In snapshot names p :
  In p (absent snapshot names) <-> In p names /\ ~ In p snapshot.
Proof.
  unfold absent. rewrite filter_In, negb_true_iff, str_in_not_In. tauto.
Qed.

Lemma plan_sound ext self docs : forall snapshot p,
  In p (plan ext self snapshot docs) ->
  ~ In p snapshot /\ exists doc, In doc docs /\ In p (fields ext self doc).
Proof.
  induction docs as [|doc rest IH]; intros snapshot p H; cbn in H; [tauto|].
  apply in_app_or in H as [H|H].
  - apply absent_In in H as [H1 H2]. split; [exact H2|].
    exists doc. split; [now left | exact H1].
  - apply IH in H as [H1 [d [H2 H3]]]. split.
    + intros Hin. apply H1, in_or_app. now left.
    + exists d. split; [now right | exact H3].
Qed.

Lemma plan_complete ext self docs : forall snapshot p doc,
  ~ In p snapshot -> In doc docs -> In p (fields ext self doc) ->
  In p (plan ext self snapshot docs).
Proof.
  induction docs as [|d rest IH]; intros snapshot p doc Hs Hd Hp; cbn; [contradiction|].
  apply in_or_app.
  destruct (in_dec string_dec p (absent snapshot (fields ext self d))) as [Hin|Hout];
    [now left | right].
  destruct Hd as [->|Hd].
  - exfalso. apply Hout, absent_In. now split.
  - apply (IH _ p doc); try assumption.
    intros Hin. apply in_app_or in Hin as [Hin|Hin]; contradiction.
Qed.

Lemma plan_nodup ext self docs : forall snapshot,
  NoDup (plan ext self snapshot docs).
Proof.
  induction docs as [|doc rest IH]; intros snapshot; cbn; [constructor|].
  apply NoDup_app.
  - unfold absent. apply NoDup_filter, fields_nodup.
  - apply IH.
  - intros p Hp Hq. apply plan_sound in Hq as [Hq _].
    apply Hq, in_or_app. now right.
Qed.

Lemma plan_app ext self docs docs' : forall snapshot,
  plan ext self snapshot (docs ++ docs')
  = (plan ext self snapshot docs
     ++ plan ext self (snapshot ++ plan ext self snapshot docs) docs')%list.
Proof.
  induction docs as [|doc rest IH]; intros snapshot; cbn.
  - now rewrite app_nil_r.
  - rewrite IH, <- !app_assoc. reflexivity.
Qed.

Lemma prefix_of_refl {A} (l : list A) : prefix_of l l.
Proof. exists []. now rewrite app_nil_r. Qed.

Lemma prefix_of_nil {A} (l : list A) : prefix_of [] l.
Proof. now exists l. Qed.

Lemma prefix_of_app {A} (l l1 l2 : list A) :
  prefix_of l1 l2 -> prefix_of (l ++ l1) (l ++ l2).
Proof. intros [rest ->]. exists rest. now rewrite app_assoc. Qed.

Lemma prefix_of_app_r {A} (l l1 l2 : list A) :
  prefix_of l l1 -> prefix_of l (l1 ++ l2).
Proof. intros [rest ->]. exists (rest ++ l2)%list. now rewrite app_assoc. Qed.

Lemma prefix_of_In {A} (l l' : list A) (x : A) : prefix_of l l' -> In x l -> In x l'.
Proof. intros [rest ->] H. apply in_or_app. now left. Qed.

Lemma prefix_of_nodup {A} (l l' : list A) : prefix_of l l' -> NoDup l' -> NoDup l.
Proof. intros [rest ->] H. now apply NoDup_app_remove_r in H. Qed.

(** ** The migrations of a write *)

Lemma update_schema_log ext self p v idx w r w' :
  _update_schema ext self p v idx w = (r, w') ->
  migrations w' = (migrations w ++ [p])%list \/
  (migrations w' = migrations w /\ exists e, r = Raise e).
Proof.
  unfold _update_schema. intros H.
  apply bind_inv in H as [[i [w1 [H1 H]]] | [e [H1 ->]]].
  2:{ right. injection H1 as _ <-. split; [reflexivity | now exists e]. }
  injection H1 as _ <-.
  apply bind_inv in H as [[t [w1 [H1 H]]] | [e [H1 ->]]].
  2:{ right. injection H1 as _ <-. split; [reflexivity | now exists e]. }
  injection H1 as _ <-.
  left. unfold request_r, Backend.property_create in H. cbv zeta in H.
  destruct (Backend.has_class i _); injection H as _ <-;
    unfold migrations; cbn; rewrite migrated_app; reflexivity.
Qed.

Lemma update_missing_log ext self d index : forall missing cp w r w',
  update_missing ext self missing d index cp w = (r, w') ->
  exists names,
    prefix_of names missing /\
    migrations w' = (migrations w ++ names)%list /\
    forall cp', r = Ok cp' -> names = missing /\ cp' = (cp ++ missing)%list.
Proof.
  induction missing as [|p rest IH]; intros cp w r w' H; cbn [update_missing] in H.
  - injection H as <- <-. exists []. rewrite app_nil_r.
    split; [apply prefix_of_refl | split; [reflexivity|]].
    intros cp' E. injection E as <-. now rewrite app_nil_r.
  - apply bind_inv in H as [[v [w1 [H1 H]]] | [e [H1 ->]]].
    2:{ injection H1 as _ <-. exists []. rewrite app_nil_r.
        split; [apply prefix_of_nil | split; [reflexivity | discriminate]]. }
    injection H1 as _ <-.
    apply bind_inv in H as [[u [w1 [H1 H]]] | [e [H1 ->]]].
    + apply update_schema_log in H1 as [H1 | [_ [e E]]]; [|discriminate].
      apply IH in H as [names [Hp [Hm Hr]]].
      exists (p :: names). split; [|split].
      * now apply (prefix_of_app [p]).
      * rewrite Hm, H1, <- app_assoc. reflexivity.
      * intros cp' E. destruct (Hr cp' E) as [-> ->].
        split; [reflexivity | now rewrite <- app_assoc].
    + apply update_schema_log in H1 as [H1 | [H1 _]].
      * exists [p]. split; [apply (prefix_of_app [p]), prefix_of_nil|].
        split; [exact H1 | discriminate].
      * exists []. rewrite app_nil_r.
        split; [apply prefix_of_nil | split; [exact H1 | discriminate]].
Qed.

Lemma write_document_log ext self index doc cp batch w r w' :
  write_document ext self index doc cp batch w = (r, w') ->
  exists names,
    prefix_of names (absent cp (fields ext self doc)) /\
    migrations w' = (migrations w ++ names)%list /\
    forall st, r = Ok st ->
      names = absent cp (fields ext self doc) /\ fst st = (cp ++ names)%list.
Proof.
  unfold write_document, fields. intros H.
  apply bind_inv in H as [[f [w1 [H1 H]]] | [e [H1 ->]]].
  2:{ injection H1 as _ <-. exists []. rewrite app_nil_r.
      split; [apply prefix_of_nil | split; [reflexivity | discriminate]]. }
  injection H1 as -> <-. destruct f as [[id vec] d].
  apply bind_inv in H as [[cp1 [w1 [H1 H]]] | [e [H1 ->]]].
  2:{ apply update_missing_log in H1 as [names [Hp [Hm _]]].
      exists names. split; [exact Hp | split; [exact Hm | discriminate]]. }
  apply update_missing_log in H1 as [names [Hp [Hm Hr]]].
  destruct (Hr cp1 eq_refl) as [-> ->].
  exists (_check_document cp d).
  assert (Hq : migrations w' = migrations w1).
  { apply bind_inv in H as [[dates [w2 [H1 H]]] | [e [H1 ->]]].
    - apply quiet_get_date_properties in H1. rewrite <- H1.
      apply bind_inv in H as [[d' [w3 [H2 H]]] | [e [H2 _]]].
      + injection H2 as _ <-. now injection H as _ <-.
      + now injection H2 as _ <-.
    - now apply quiet_get_date_properties in H1. }
  split; [apply prefix_of_refl | split; [now rewrite Hq|]].
  intros st E. subst r. split; [reflexivity|].
  apply bind_inv in H as [[dates [w2 [H1 H]]] | [e [_ E]]]; [|discriminate].
  apply bind_inv in H as [[d' [w3 [H2 H]]] | [e [_ E]]]; [|discriminate].
  now injection H as <- _.
Qed.

Lemma write_batch_log ext self index : forall docs cp batch w r w',
  write_batch ext self index docs cp batch w = (r, w') ->
  exists names,
    prefix_of names (plan ext self cp docs) /\
    migrations w' = (migrations w ++ names)%list /\
    forall st, r = Ok st ->
      names = plan ext self cp docs /\ fst st = (cp ++ names)%list.
Proof.
  induction docs as [|doc rest IH]; intros cp batch w r w' H; cbn [write_batch plan] in *.
  - injection H as <- <-. exists []. rewrite app_nil_r.
    split; [apply prefix_of_refl | split; [reflexivity|]].
    intros st E. injection E as <-. now rewrite app_nil_r.
  - apply bind_inv in H as [[st1 [w1 [H1 H]]] | [e [H1 ->]]].
    + apply write_document_log in H1 as [n1 [_ [Hm1 Hr1]]].
      destruct (Hr1 st1 eq_refl) as [-> E1].
      apply IH in H as [n2 [Hp2 [Hm2 Hr2]]]. rewrite E1 in *.
      exists (absent cp (fields ext self doc) ++ n2)%list. split; [|split].
      * now apply prefix_of_app.
      * now rewrite Hm2, Hm1, app_assoc.
      * intros st E. destruct (Hr2 st E) as [-> ->].
        split; [reflexivity | now rewrite app_assoc].
    + apply write_document_log in H1 as [n1 [Hp1 [Hm1 _]]].
      exists n1. split; [now apply prefix_of_app_r | split; [exact Hm1 | discriminate]].
Qed.

Lemma write_batches_log ext self index : forall batches cp w r w',
  write_batches ext self index batches cp w = (r, w') ->
  exists names,
    prefix_of names (plan ext self cp (List.concat batches)) /\
    migrations w' = (migrations w ++ names)%list /\
    forall cp', r = Ok cp' ->
      names = plan ext self cp (List.concat batches) /\ cp' = (cp ++ names)%list.
Proof.
  induction batches as [|b rest IH]; intros cp w r w' H;
    cbn [write_batches List.concat] in *.
  - injection H as <- <-. exists []. rewrite app_nil_r.
    split; [apply prefix_of_refl | split; [reflexivity|]].
    intros st E. injection E as <-. now rewrite app_nil_r.
  - rewrite plan_app.
    apply bind_inv in H as [[st1 [w1 [H1 H]]] | [e [H1 ->]]].
    + apply write_batch_log in H1 as [n1 [_ [Hm1 Hr1]]].
      destruct (Hr1 st1 eq_refl) as [-> E1].
      apply bind_inv in H as [[u [w2 [H2 H]]] | [e [H2 _]]].
      2:{ unfold request in H2. destruct (Backend.batch_create _ _). discriminate. }
      apply (quiet_request _ (silent_batch_create _)) in H2.
      apply IH in H as [n2 [Hp2 [Hm2 Hr2]]]. rewrite E1 in *.
      exists (plan ext self cp b ++ n2)%list. split; [|split].
      * now apply prefix_of_app.
      * now rewrite Hm2, H2, Hm1, app_assoc.
      * intros cp' E. destruct (Hr2 cp' E) as [-> ->].
        split; [reflexivity | now rewrite app_assoc].
    + apply write_batch_log in H1 as [n1 [Hp1 [Hm1 _]]].
      exists n1. split; [now apply prefix_of_app_r | split; [exact Hm1 | discriminate]].
Qed.

(** C4.  In a call of [write_documents] that gets as far as its loop,
    [snapshot] is the property list read once, before the loop, and
    [written] are the documents the loop goes through.  The migrations the
    call asks of the service are [names]: no name is asked for twice;
    each is a property of a written document that the snapshot lacks; and
    when the call returns normally, each such property has been asked for
    exactly once.  An aborted call has asked for an initial part of these
    migrations. *)
Theorem write_documents_migrates_each_property_once
    (ext : collaborators) (self : config) (documents : list Document)
    (idx : option string) (batch_size : Z) (dup : option string) (headers : value)
    (w : world) (i : string) (w1 : world) (snapshot : list string) (w2 : world)
    (ds1 : list Document) (w3 : world) (ds2 : list Document) (w4 : world) :
  truthy headers = false ->
  index_or_default self idx = Ok i ->
  _create_schema_and_index_if_not_exist self (Some i) w = (Ok tt, w1) ->
  str_in (or_default dup (duplicate_documents self)) duplicate_documents_options = true ->
  documents <> [] ->
  _get_current_properties self (Some i) w1 = (Ok snapshot, w2) ->
  sanitize_ids self documents i w2 = (Ok ds1, w3) ->
  _handle_duplicate_documents ext self ds1 i
    (or_default dup (duplicate_documents self)) w3 = (Ok ds2, w4) ->
  let written :=
    List.concat (get_batches_from_generator (map (dummy_embed ext self) ds2) batch_size) in
  let qualifies p :=
    ~ In p snapshot /\ exists doc, In doc written /\ In p (fields ext self doc) in
  exists names r w',
    write_documents ext self documents idx batch_size dup headers w = (r, w') /\
    migrations w' = (migrations w ++ names)%list /\
    NoDup names /\
    (forall p, In p names -> qualifies p) /\
    (r = Ok tt -> forall p, qualifies p -> count_occ string_dec names p = 1).
Proof.
  intros Hh Hi Hc Hd Hne Hs Hsan Hdup written qualifies.
  destruct (write_batches ext self i
              (get_batches_from_generator (map (dummy_embed ext self) ds2) batch_size)
              snapshot w4) as [r' w'] eqn:Hrun.
  destruct (write_batches_log _ _ _ _ _ _ _ _ Hrun) as [names [Hp [Hm Hr]]].
  fold written in Hp, Hr.
  exists names, (match r' with Ok _ => Ok tt | Raise e => Raise e end), w'.
  assert (Hnd : NoDup names) by (eapply prefix_of_nodup; [exact Hp | apply plan_nodup]).
  split; [|split; [|split; [exact Hnd | split]]].
  - unfold write_documents. rewrite Hh. unfold bind at 1, lift at 1. rewrite Hi.
    unfold bind at 1. rewrite Hc. rewrite Hd. cbn [negb].
    destruct documents as [|d0 rest]; [contradiction|].
    unfold bind at 1. rewrite Hs.
    unfold bind at 1. rewrite Hsan.
    unfold bind at 1. rewrite Hdup.
    unfold bind at 1. rewrite Hrun.
    now destruct r'.
  - rewrite Hm.
    rewrite (quiet_handle_duplicate_documents _ _ _ _ _ _ _ _ Hdup).
    rewrite (quiet_sanitize_ids _ _ _ _ _ _ Hsan).
    rewrite (quiet_get_current_properties _ _ _ _ _ Hs).
    rewrite (quiet_create_schema _ _ _ _ _ Hc). reflexivity.
  - intros p Hin. apply (prefix_of_In _ _ _ Hp) in Hin.
    now apply plan_sound in Hin.
  - intros Hok p [Hsnap [doc [Hdoc Hf]]].
    destruct r' as [cp'|e]; [|discriminate].
    destruct (Hr cp' eq_refl) as [-> _].
    apply NoDup_count_occ'; [exact Hnd|].
    now apply (plan_complete _ _ _ _ _ doc).
Qed.

Lemma write_documents_migrates_each_property_once_witness :
  truthy VNone = false /\
  index_or_default Sample.self None = Ok "Document" /\
  _create_schema_and_index_if_not_exist Sample.self (Some "Document") Sample.fresh
  = (Ok tt, Sample.schema_ready) /\
  str_in (or_default None (duplicate_documents Sample.self)) duplicate_documents_options
  = true /\
  Sample.tagged_docs <> [] /\
  _get_current_properties Sample.self (Some "Document") Sample.schema_ready
  = (Ok ["name"; "content"], Sample.snapshot_taken) /\
  sanitize_ids Sample.self Sample.tagged_docs "Document" Sample.snapshot_taken
  = (Ok Sample.tagged_sanitized, Sample.ids_sanitized) /\
  _handle_duplicate_documents Sample.ext Sample.self Sample.tagged_sanitized "Document"
    (or_default None (duplicate_documents Sample.self)) Sample.ids_sanitized
  = (Ok Sample.tagged_sanitized, Sample.ids_sanitized) /\
  exists names r w',
    write_documents Sample.ext Sample.self Sample.tagged_docs None 10000 None VNone
      Sample.fresh = (r, w') /\
    migrations w' = (migrations Sample.fresh ++ names)%list /\
    NoDup names.
Proof.
  assert (H1 : truthy VNone = false) by reflexivity.
  assert (H2 : index_or_default Sample.self None = Ok "Document") by reflexivity.
  assert (H3 : _create_schema_and_index_if_not_exist Sample.self (Some "Document")
                 Sample.fresh = (Ok tt, Sample.schema_ready)) by reflexivity.
  assert (H4 : str_in (or_default None (duplicate_documents Sample.self))
                 duplicate_documents_options = true) by reflexivity.
  assert (H5 : Sample.tagged_docs <> []) by discriminate.
  assert (H6 : _get_current_properties Sample.self (Some "Document") Sample.schema_ready
               = (Ok ["name"; "content"], Sample.snapshot_taken)) by reflexivity.
  assert (H7 : sanitize_ids Sample.self Sample.tagged_docs "Document"
                 Sample.snapshot_taken
               = (Ok Sample.tagged_sanitized, Sample.ids_sanitized))
    by (vm_compute; reflexivity).
  assert (H8 : _handle_duplicate_documents Sample.ext Sample.self
                 Sample.tagged_sanitized "Document"
                 (or_default None (duplicate_documents Sample.self))
                 Sample.ids_sanitized
               = (Ok Sample.tagged_sanitized, Sample.ids_sanitized)) by reflexivity.
  split; [exact H1 | split; [exact H2 | split; [exact H3 | split; [exact H4 |
  split; [exact H5 | split; [exact H6 | split; [exact H7 | split; [exact H8 |]]]]]]]].
  destruct (write_documents_migrates_each_property_once Sample.ext Sample.self
              Sample.tagged_docs None 10000 None VNone Sample.fresh "Document"
              Sample.schema_ready ["name"; "content"] Sample.snapshot_taken
              Sample.tagged_sanitized Sample.ids_sanitized
              Sample.tagged_sanitized Sample.ids_sanitized
              H1 H2 H3 H4 H5 H6 H7 H8)
    as [names [r [w' [E [Hm [Hnd _]]]]]].
  exists names, r, w'. split; [exact E | split; [exact Hm | exact Hnd]].
Defined.

Example tagged_docs_migrations :
  migrations Sample.tagged_written = ["content_type"; "genre"; "day"] /\
  plan Sample.ext Sample.self ["name"; "content"] Sample.tagged_sanitized
  = ["content_type"; "genre"; "day"].
Proof. vm_compute. split; reflexivity. Qed.

Lemma batches_of_concat {A} (n : nat) : forall (fuel : nat) (l : list A),
  0 < n -> List.length l <= fuel -> List.concat (batches_of fuel n l) = l.
Proof.
  induction fuel as [|fuel IH]; intros l Hn Hl.
  - destruct l; [reflexivity | cbn in Hl; lia].
  - cbn [batches_of].
    destruct (firstn n l) as [|x xs] eqn:E.
    + destruct l as [|y l]; [reflexivity|].
      destruct n; [lia | cbn in E; discriminate E].
    + cbn [List.concat]. rewrite IH.
      * rewrite <- E. apply firstn_skipn.
      * exact Hn.
      * rewrite length_skipn. destruct l; [destruct n; discriminate E | cbn [List.length] in Hl |- *; lia].
Qed.

Lemma batches_cover {A} (l : list A) (n : Z) :
  (0 < n)%Z -> List.concat (get_batches_from_generator l n) = l.
Proof.
  intros Hn. unfold get_batches_from_generator.
  apply batches_of_concat; lia.
Qed.

(** ** Date coercion *)

Lemma dict_mem_set {V} (k k' : string) (v : V) (d : list (string * V)) :
  dict_mem k (dict_set k' v d) = (String.eqb k k' || dict_mem k d)%bool.
Proof.
  unfold dict_mem. induction d as [|[k0 v0] d IH]; cbn.
  - destruct (String.eqb k k'); reflexivity.
  - destruct (String.eqb_spec k' k0) as [->|E]; cbn.
    + destruct (String.eqb k k0); reflexivity.
    + destruct (String.eqb_spec k k0) as [->|E0].
      * now rewrite orb_true_r.
      * exact IH.
Qed.

Lemma getitem_ok (k : string) (d : dict) (v : value) :
  py_getitem k (VDict d) = Ok v -> dict_mem k d = true.
Proof.
  cbn. unfold dict_mem. destruct (dict_get k d); [reflexivity | discriminate].
Qed.

Lemma getitem_missing (k : string) (d : dict) :
  dict_mem k d = false -> py_getitem k (VDict d) = Raise (KeyError k).
Proof.
  cbn. unfold dict_mem. destruct (dict_get k d); [discriminate | reflexivity].
Qed.

Lemma getitem_present (k : string) (d : dict) :
  dict_mem k d = true -> exists v, py_getitem k (VDict d) = Ok v.
Proof.
  cbn. unfold dict_mem. destruct (dict_get k d) as [v|]; [now exists v | discriminate].
Qed.

Lemma coerce_dates_step ext f rest d r :
  coerce_dates ext (f :: rest) d = r ->
  (exists v s, py_getitem f (VDict d) = Ok v /\ to_rfc3339 ext v = Ok s /\
               coerce_dates ext rest (dict_set f (VStr s) d) = r) \/
  (exists e, r = Raise e /\
             (py_getitem f (VDict d) = Raise e \/
              exists v, py_getitem f (VDict d) = Ok v /\ to_rfc3339 ext v = Raise e)).
Proof.
  cbn [coerce_dates]. intros <-.
  destruct (py_getitem f (VDict d)) as [v|e]; cbn [rbind].
  - destruct (to_rfc3339 ext v) as [s|e] eqn:E; cbn [rbind].
    + left. now exists v, s.
    + right. exists e. split; [reflexivity|]. right. now exists v.
  - right. exists e. split; [reflexivity | now left].
Qed.

Lemma coerce_dates_keys ext : forall fs d d',
  coerce_dates ext fs d = Ok d' -> forall k, dict_mem k d' = dict_mem k d.
Proof.
  induction fs as [|f rest IH]; intros d d' H k.
  - now injection H as <-.
  - apply coerce_dates_step in H as [[v [s [H1 [H2 H3]]]] | [e [E _]]]; [|discriminate].
    rewrite (IH _ _ H3), dict_mem_set.
    destruct (String.eqb_spec k f) as [->|E]; [|reflexivity].
    now rewrite (getitem_ok _ _ _ H1).
Qed.

Lemma coerce_dates_present ext : forall fs d d',
  coerce_dates ext fs d = Ok d' -> forall f, In f fs -> dict_mem f d = true.
Proof.
  induction fs as [|f0 rest IH]; intros d d' H f Hin; [contradiction|].
  apply coerce_dates_step in H as [[v [s [H1 [H2 H3]]]] | [e [E _]]]; [|discriminate].
  destruct (String.eqb_spec f f0) as [->|E]; [exact (getitem_ok _ _ _ H1)|].
  destruct Hin as [Hin|Hin]; [congruence|].
  specialize (IH _ _ H3 f Hin). rewrite dict_mem_set in IH.
  apply String.eqb_neq in E. now rewrite E in IH.
Qed.

Lemma to_rfc3339_no_key_error ext v k : to_rfc3339 ext v <> Raise (KeyError k).
Proof.
  unfold to_rfc3339. destruct v; try discriminate.
  destruct (convert_date_to_rfc3339 ext s); discriminate.
Qed.

Lemma coerce_dates_no_key_error ext : forall fs d,
  (forall f, In f fs -> dict_mem f d = true) ->
  forall k, coerce_dates ext fs d <> Raise (KeyError k).
Proof.
  induction fs as [|f0 rest IH]; intros d Hall k H; [discriminate|].
  apply coerce_dates_step in H as [[v [s [H1 [H2 H3]]]] | [e [E [H1 | [v [H1 H2]]]]]].
  - revert H3. apply IH. intros f Hin. rewrite dict_mem_set, (Hall f).
    + apply orb_true_r.
    + now right.
  - injection E as <-.
    destruct (getitem_present f0 d (Hall f0 (or_introl eq_refl))) as [v Hv].
    congruence.
  - injection E as <-. now apply to_rfc3339_no_key_error in H2.
Qed.

Lemma coerce_dates_app ext : forall pre post d,
  coerce_dates ext (pre ++ post) d
  = rbind (coerce_dates ext pre d) (coerce_dates ext post).
Proof.
  induction pre as [|f rest IH]; intros post d; cbn [app coerce_dates rbind].
  - reflexivity.
  - destruct (py_getitem f (VDict d)); cbn [rbind]; [|reflexivity].
    destruct (to_rfc3339 ext a); cbn [rbind]; [apply IH | reflexivity].
Qed.

Lemma coerce_dates_missing ext pre f post d d' :
  coerce_dates ext pre d = Ok d' -> dict_mem f d = false ->
  coerce_dates ext (pre ++ f :: post) d = Raise (KeyError f).
Proof.
  intros Hpre Hf. rewrite coerce_dates_app, Hpre. cbn [rbind coerce_dates].
  rewrite getitem_missing; [reflexivity|].
  now rewrite (coerce_dates_keys _ _ _ _ Hpre).
Qed.

Lemma write_document_run ext self index doc cp batch w id vec d cp' w1 dates w2 :
  flatten ext self doc = Ok (id, vec, d) ->
  update_missing ext self (_check_document cp d) d index cp w = (Ok cp', w1) ->
  _get_date_properties self (Some index) w1 = (Ok dates, w2) ->
  write_document ext self index doc cp batch w
  = (match coerce_dates ext dates d with
     | Ok d' => Ok (cp', (batch ++ [(id, Backend.mk_object index d' vec)])%list)
     | Raise e => Raise e
     end, w2).
Proof.
  intros Hf Hu Hd. unfold write_document.
  unfold bind at 1, lift at 1. rewrite Hf.
  unfold bind at 1. rewrite Hu.
  unfold bind at 1. rewrite Hd.
  unfold bind, lift, ret. now destruct (coerce_dates ext dates d).
Qed.

Lemma dict_mem_keys {V} (k : string) (d : list (string * V)) :
  dict_mem k d = true <-> In k (dict_keys d).
Proof.
  unfold dict_mem, dict_keys. induction d as [|[k0 v] d IH]; cbn.
  - split; [discriminate | tauto].
  - destruct (String.eqb_spec k k0) as [->|E].
    + split; [now left | reflexivity].
    + rewrite IH. split; [now right | intros [H|H]; [congruence | exact H]].
Qed.

(** One pass of the loop, for a document with the flattened fields [d]:
    the properties it lacks have been migrated and [dates] are the date
    properties of the schema as it is then. *)
Lemma pass_needs_every_date_field
    (ext : collaborators) (self : config) (index : string) (doc : Document)
    (cp : list string) (batch : list (string * Backend.object)) (w : world)
    (id : string) (vec : value) (d : dict) (cp' : list string) (w1 : world)
    (dates : list string) (w2 : world) :
  flatten ext self doc = Ok (id, vec, d) ->
  update_missing ext self (_check_document cp d) d index cp w = (Ok cp', w1) ->
  _get_date_properties self (Some index) w1 = (Ok dates, w2) ->
  let run := fst (write_document ext self index doc cp batch w) in
  (is_ok run = true -> forall f, In f dates -> dict_mem f d = true) /\
  ((forall f, In f dates -> dict_mem f d = true) ->
   forall k, run <> Raise (KeyError k)) /\
  (forall pre f post d',
      dates = (pre ++ f :: post)%list ->
      coerce_dates ext pre d = Ok d' ->
      dict_mem f d = false ->
      run = Raise (KeyError f)).
Proof.
  intros Hf Hu Hd run. unfold run.
  rewrite (write_document_run _ _ _ _ _ batch _ _ _ _ _ _ _ _ Hf Hu Hd).
  cbn [fst]. split; [|split].
  - destruct (coerce_dates ext dates d) as [d'|e] eqn:E; [|discriminate].
    intros _. exact (coerce_dates_present _ _ _ _ E).
  - intros Hall k H.
    apply (coerce_dates_no_key_error ext dates d Hall k).
    destruct (coerce_dates ext dates d); [discriminate | now injection H as ->].
  - intros pre f post d' -> Hpre Hmiss.
    now rewrite (coerce_dates_missing _ _ _ post _ _ Hpre Hmiss).
Qed.

(** *** What ends a pass *)

Lemma weaviate_type_raises ext v e :
  _get_weaviate_type_of_value ext v = Raise e -> e = IndexError.
Proof.
  unfold _get_weaviate_type_of_value.
  destruct v as [| | | | |l|]; cbn; try discriminate.
  destruct l as [|x l]; cbn; [|discriminate].
  intros H. now injection H as <-.
Qed.

Lemma update_schema_no_key_error ext self p v idx w k :
  fst (_update_schema ext self p v idx w) <> Raise (KeyError k).
Proof.
  unfold _update_schema, bind, lift.
  destruct (index_or_default self idx) as [i|e] eqn:Hi; cbn [fst].
  2:{ apply index_or_default_raises in Hi. subst e. discriminate. }
  destruct (_get_weaviate_type_of_value ext v) as [t|e] eqn:Ht; cbn [fst].
  2:{ apply weaviate_type_raises in Ht. subst e. discriminate. }
  unfold request_r, Backend.property_create. cbv zeta.
  destruct (Backend.has_class i _); cbn [fst]; discriminate.
Qed.

Lemma update_missing_no_key_error ext self d index : forall missing cp w k,
  (forall p, In p missing -> dict_mem p d = true) ->
  fst (update_missing ext self missing d index cp w) <> Raise (KeyError k).
Proof.
  induction missing as [|p rest IH]; intros cp w k Hall; cbn [update_missing].
  - discriminate.
  - unfold bind at 1, lift at 1.
    destruct (getitem_present p d (Hall p (or_introl eq_refl))) as [v Hv]. rewrite Hv.
    unfold bind at 1.
    pose proof (update_schema_no_key_error ext self p v (Some index) w k) as Hs.
    destruct (_update_schema ext self p v (Some index) w) as [[u|e] w1]; cbn [fst] in *.
    + apply IH. intros q Hq. apply Hall. now right.
    + intros H. apply Hs. now injection H as ->.
Qed.

Lemma date_names_raises properties e : date_names properties = Raise e -> e = IndexError.
Proof.
  induction properties as [|item rest IH]; cbn [date_names]; [discriminate|].
  destruct (Backend.prop_dataType item) as [|t ts]; [intros H; now injection H as <-|].
  destruct (date_names rest) as [names|e']; cbn [rbind]; [discriminate|].
  intros H. injection H as <-. now apply IH.
Qed.

Lemma date_properties_of_raises index : forall classes cur e,
  date_properties_of classes index cur = Raise e -> e = IndexError.
Proof.
  induction classes as [|c rest IH]; intros cur e; cbn [date_properties_of];
    [discriminate|].
  destruct (String.eqb (Backend.class_name c) index); [|apply IH].
  destruct (date_names (Backend.class_properties c)) as [names|e'] eqn:E; cbn [rbind].
  - apply IH.
  - intros H. injection H as <-. exact (date_names_raises _ _ E).
Qed.

Lemma get_date_properties_no_key_error self idx w k :
  fst (_get_date_properties self idx w) <> Raise (KeyError k).
Proof.
  unfold _get_date_properties, bind, lift.
  destruct (index_or_default self idx) as [i|e] eqn:Hi; cbn [fst].
  2:{ apply index_or_default_raises in Hi. subst e. discriminate. }
  unfold request, Backend.schema_get. cbn [fst].
  destruct (date_properties_of _ i []) as [ds|e] eqn:E; [discriminate|].
  apply date_properties_of_raises in E. subst e. discriminate.
Qed.

Lemma check_document_keys cp (d : dict) p :
  In p (_check_document cp d) -> dict_mem p d = true.
Proof.
  unfold _check_document. rewrite filter_In. intros [H _]. now apply dict_mem_keys.
Qed.

(** How a pass ends, step by step *)
Lemma pass_run ext self index (t : turn) :
  match flatten ext self (turn_doc t) with
  | Raise e => fst (pass ext self index t) = Raise e
  | Ok (id, vec, d) =>
      match update_missing ext self (_check_document (turn_properties t) d) d index
              (turn_properties t) (turn_world t) with
      | (Raise e, _) => fst (pass ext self index t) = Raise e
      | (Ok cp', w1) =>
          match _get_date_properties self (Some index) w1 with
          | (Raise e, _) => fst (pass ext self index t) = Raise e
          | (Ok dates, _) =>
              fst (pass ext self index t)
              = match coerce_dates ext dates d with
                | Ok d' =>
                    Ok (cp', (turn_queue t ++ [(id, Backend.mk_object index d' vec)])%list)
                | Raise e => Raise e
                end
          end
      end
  end.
Proof.
  unfold pass.
  destruct (flatten ext self (turn_doc t)) as [[[id vec] d]|e] eqn:Hf.
  2:{ unfold write_document. unfold bind at 1, lift at 1. now rewrite Hf. }
  destruct (update_missing ext self (_check_document (turn_properties t) d) d index
              (turn_properties t) (turn_world t)) as [[cp'|e] w1] eqn:Hu.
  2:{ unfold write_document. unfold bind at 1, lift at 1. rewrite Hf.
      unfold bind at 1. now rewrite Hu. }
  destruct (_get_date_properties self (Some index) w1) as [[dates|e] w2] eqn:Hd.
  2:{ unfold write_document. unfold bind at 1, lift at 1. rewrite Hf.
      unfold bind at 1. rewrite Hu. unfold bind at 1. now rewrite Hd. }
  now rewrite (write_document_run _ _ _ _ _ _ _ _ _ _ _ _ _ _ Hf Hu Hd).
Qed.

(** A pass that returns has read the date properties, and the document
    carries them all. *)
Lemma pass_ok_carries ext self index (t : turn) :
  is_ok (fst (pass ext self index t)) = true ->
  exists dates,
    dates_read ext self index t = Some dates /\
    carries ext self (turn_doc t) dates.
Proof.
  pose proof (pass_run ext self index t) as R. unfold dates_read, carries, fields.
  destruct (flatten ext self (turn_doc t)) as [[[id vec] d]|e];
    [|rewrite R; discriminate].
  destruct (update_missing _ _ _ _ _ _ _) as [[cp'|e] w1]; [|rewrite R; discriminate].
  destruct (_get_date_properties self (Some index) w1) as [[dates|e] w2];
    [|rewrite R; discriminate].
  rewrite R. cbn [fst].
  destruct (coerce_dates ext dates d) as [d'|e] eqn:E; [|discriminate].
  intros _. exists dates. split; [reflexivity|].
  intros f Hf. apply dict_mem_keys. exact (coerce_dates_present _ _ _ _ E f Hf).
Qed.

(** A pass whose document lacks a date property that it reads ends in
    [KeyError], the date fields before it being there and converting. *)
Lemma pass_missing_date ext self index (t : turn) id vec d dates pre f post d' :
  flatten ext self (turn_doc t) = Ok (id, vec, d) ->
  dates_read ext self index t = Some dates ->
  dates = (pre ++ f :: post)%list ->
  coerce_dates ext pre d = Ok d' ->
  ~ In f (fields ext self (turn_doc t)) ->
  fst (pass ext self index t) = Raise (KeyError f).
Proof.
  intros Hf Hd -> Hpre Hmiss.
  pose proof (pass_run ext self index t) as R. unfold dates_read, fields in *.
  rewrite Hf in *.
  destruct (update_missing _ _ _ _ _ _ _) as [[cp'|e] w1]; [|discriminate].
  destruct (_get_date_properties self (Some index) w1) as [[dates|e] w2];
    cbn [fst] in Hd; [|discriminate].
  injection Hd as ->. rewrite R.
  rewrite (coerce_dates_missing ext pre f post d d' Hpre); [reflexivity|].
  destruct (dict_mem f d) eqn:E; [|reflexivity].
  apply dict_mem_keys in E. contradiction.
Qed.

(** A pass whose document is flattened and carries the date properties it
    reads does not end in a [KeyError]. *)
Lemma pass_no_key_error ext self index (t : turn) k :
  is_ok (flatten ext self (turn_doc t)) = true ->
  (forall dates, dates_read ext self index t = Some dates ->
                 carries ext self (turn_doc t) dates) ->
  fst (pass ext self index t) <> Raise (KeyError k).
Proof.
  intros Hf Hall.
  pose proof (pass_run ext self index t) as R. unfold dates_read, carries, fields in *.
  destruct (flatten ext self (turn_doc t)) as [[[id vec] d]|e]; [|discriminate].
  pose proof (update_missing_no_key_error ext self d index
                (_check_document (turn_properties t) d) (turn_properties t)
                (turn_world t) k (check_document_keys _ d)) as Hu.
  destruct (update_missing _ _ _ _ _ _ _) as [[cp'|e] w1]; cbn [fst] in Hu;
    [|rewrite R; intros E; apply Hu; now injection E as ->].
  pose proof (get_date_properties_no_key_error self (Some index) w1 k) as Hd.
  destruct (_get_date_properties self (Some index) w1) as [[dates|e] w2];
    cbn [fst] in Hd, Hall; [|rewrite R; intros E; apply Hd; now injection E as ->].
  rewrite R.
  assert (Hc : forall f, In f dates -> dict_mem f d = true).
  { intros f Hin. apply dict_mem_keys. exact (Hall dates eq_refl f Hin). }
  pose proof (coerce_dates_no_key_error ext dates d Hc k) as Hk.
  destruct (coerce_dates ext dates d); [discriminate|].
  intros E. apply Hk. now injection E as ->.
Qed.

(** *** From the passes to the call *)

Lemma batch_turns_run ext self index : forall docs cp q w,
  let r := fst (write_batch ext self index docs cp q w) in
  let ts := batch_turns ext self index docs cp q w in
  (is_ok r = true ->
   map turn_doc ts = docs /\
   forall t, In t ts -> is_ok (fst (pass ext self index t)) = true) /\
  (forall t e, In t ts -> fst (pass ext self index t) = Raise e -> r = Raise e) /\
  (forall e, r = Raise e ->
             exists t, In t ts /\ fst (pass ext self index t) = Raise e).
Proof.
  induction docs as [|doc rest IH]; intros cp q w; cbn [write_batch batch_turns].
  - cbn. split; [split; [reflexivity | contradiction]|].
    split; [contradiction | discriminate].
  - unfold bind at 1 2 3. fold (pass ext self index (mk_turn doc cp q w)).
    set (t0 := mk_turn doc cp q w).
    assert (P0 : pass ext self index t0 = write_document ext self index doc cp q w)
      by reflexivity.
    rewrite <- P0.
    destruct (pass ext self index t0) as [[st|e0] w1] eqn:E0.
    + specialize (IH (fst st) (snd st) w1). cbv zeta in IH.
      destruct IH as [IH1 [IH2 IH3]]. split; [|split].
      * intros Hok. destruct (IH1 Hok) as [Hm Hall]. split.
        -- cbn [map turn_doc t0]. now rewrite Hm.
        -- intros t [<-|Hin]; [now rewrite E0 | now apply Hall].
      * intros t e [<-|Hin] Ht.
        -- rewrite E0 in Ht. discriminate.
        -- exact (IH2 t e Hin Ht).
      * intros e He. destruct (IH3 e He) as [t [Hin Ht]].
        exists t. split; [now right | exact Ht].
    + cbn [fst]. split; [discriminate | split].
      * intros t e [<-|[]] Ht. rewrite E0 in Ht. exact Ht.
      * intros e He. exists t0. split; [now left | now rewrite E0].
Qed.

Lemma write_batches_step ext self index b rest cp w :
  fst (write_batches ext self index (b :: rest) cp w)
  = match write_batch ext self index b cp [] w with
    | (Ok st, w1) =>
        fst (write_batches ext self index rest (fst st)
               (snd (request (Backend.batch_create (snd st)) w1)))
    | (Raise e, _) => Raise e
    end.
Proof.
  cbn [write_batches]. unfold bind at 1.
  destruct (write_batch ext self index b cp [] w) as [[st|e] w1]; [|reflexivity].
  unfold bind at 1. unfold request.
  now destruct (Backend.batch_create (snd st) (backend w1)) as [[] b'].
Qed.

Lemma turns_run ext self index : forall batches cp w,
  let r := fst (write_batches ext self index batches cp w) in
  let ts := turns ext self index batches cp w in
  (is_ok r = true ->
   map turn_doc ts = List.concat batches /\
   forall t, In t ts -> is_ok (fst (pass ext self index t)) = true) /\
  (forall t e, In t ts -> fst (pass ext self index t) = Raise e -> r = Raise e) /\
  (forall e, r = Raise e ->
             exists t, In t ts /\ fst (pass ext self index t) = Raise e).
Proof.
  induction batches as [|b rest IH]; intros cp w; cbv zeta.
  - cbn. split; [split; [reflexivity | contradiction]|].
    split; [contradiction | discriminate].
  - rewrite write_batches_step. cbn [turns List.concat].
    destruct (batch_turns_run ext self index b cp [] w) as [B1 [B2 B3]].
    cbv zeta in B1, B2, B3.
    destruct (write_batch ext self index b cp [] w) as [[st|e0] w1] eqn:E0;
      cbn [fst] in B1, B2, B3.
    + set (w2 := snd (request (Backend.batch_create (snd st)) w1)).
      specialize (IH (fst st) w2). cbv zeta in IH. destruct IH as [IH1 [IH2 IH3]].
      destruct (B1 eq_refl) as [Bm Ball]. split; [|split].
      * intros Hok. destruct (IH1 Hok) as [Hm Hall]. split.
        -- now rewrite map_app, Bm, Hm.
        -- intros t Hin. apply in_app_or in Hin as [Hin|Hin]; [now apply Ball|].
           now apply Hall.
      * intros t e Hin Ht. apply in_app_or in Hin as [Hin|Hin].
        -- specialize (B2 t e Hin Ht). discriminate.
        -- exact (IH2 t e Hin Ht).
      * intros e He. destruct (IH3 e He) as [t [Hin Ht]].
        exists t. split; [apply in_or_app; now right | exact Ht].
    + rewrite app_nil_r. split; [discriminate | split].
      * intros t e Hin Ht. specialize (B2 t e Hin Ht). now injection B2 as ->.
      * intros e He. apply B3. now injection He as ->.
Qed.

(** C10.  In a call of [write_documents] that gets as far as its loop,
    [ts] are the turns of the loop: one for every document it gets to,
    batch after batch, with the schema as the documents before it have left
    it.  The call can only return normally if it has got to every written
    document and every one of them carries all the date properties that its
    pass reads, those of the schema once the document's own fields have
    been added.  If a document that the loop gets to, wherever it stands in
    its batch, lacks one of them, [f], while the date fields before [f] are
    there and convert, the call ends in [KeyError f].  And if every document
    that the loop gets to is flattened and carries the date properties that
    its pass reads, the call does not end in a [KeyError]. *)
Theorem date_coercion_needs_every_date_field
    (ext : collaborators) (self : config) (documents : list Document)
    (idx : option string) (batch_size : Z) (dup : option string) (headers : value)
    (w : world) (i : string) (w1 : world) (snapshot : list string) (w2 : world)
    (ds1 : list Document) (w3 : world) (ds2 : list Document) (w4 : world) :
  truthy headers = false ->
  index_or_default self idx = Ok i ->
  _create_schema_and_index_if_not_exist self (Some i) w = (Ok tt, w1) ->
  str_in (or_default dup (duplicate_documents self)) duplicate_documents_options = true ->
  documents <> [] ->
  _get_current_properties self (Some i) w1 = (Ok snapshot, w2) ->
  sanitize_ids self documents i w2 = (Ok ds1, w3) ->
  _handle_duplicate_documents ext self ds1 i
    (or_default dup (duplicate_documents self)) w3 = (Ok ds2, w4) ->
  let batches :=
    get_batches_from_generator (map (dummy_embed ext self) ds2) batch_size in
  let ts := turns ext self i batches snapshot w4 in
  let run := fst (write_documents ext self documents idx batch_size dup headers w) in
  (run = Ok tt ->
   map turn_doc ts = List.concat batches /\
   ((0 < batch_size)%Z -> map turn_doc ts = map (dummy_embed ext self) ds2) /\
   forall t, In t ts ->
     exists dates,
       dates_read ext self i t = Some dates /\
       carries ext self (turn_doc t) dates) /\
  (forall t id vec d dates pre f post d',
      In t ts ->
      flatten ext self (turn_doc t) = Ok (id, vec, d) ->
      dates_read ext self i t = Some dates ->
      dates = (pre ++ f :: post)%list ->
      coerce_dates ext pre d = Ok d' ->
      ~ In f (fields ext self (turn_doc t)) ->
      run = Raise (KeyError f)) /\
  ((forall t, In t ts ->
      is_ok (flatten ext self (turn_doc t)) = true /\
      forall dates, dates_read ext self i t = Some dates ->
                    carries ext self (turn_doc t) dates) ->
   forall k, run <> Raise (KeyError k)).
Proof.
  intros Hh Hi Hc Hd Hne Hs Hsan Hdup batches ts run.
  destruct (turns_run ext self i batches snapshot w4) as [T1 [T2 T3]].
  cbv zeta in T1, T2, T3. fold ts in T1, T2, T3.
  assert (Hrun : run = match fst (write_batches ext self i batches snapshot w4) with
                       | Ok _ => Ok tt
                       | Raise e => Raise e
                       end).
  { unfold run, write_documents. rewrite Hh. unfold bind at 1, lift at 1. rewrite Hi.
    unfold bind at 1. rewrite Hc. rewrite Hd. cbn [negb].
    destruct documents as [|d0 rest]; [contradiction|].
    unfold bind at 1. rewrite Hs.
    unfold bind at 1. rewrite Hsan.
    unfold bind at 1. rewrite Hdup.
    unfold bind at 1. fold batches.
    now destruct (write_batches ext self i batches snapshot w4) as [[cp'|e] w']. }
  rewrite Hrun. clear Hrun.
  destruct (fst (write_batches ext self i batches snapshot w4)) as [cp'|e0] eqn:E.
  - split; [|split].
    + intros _. destruct (T1 eq_refl) as [Hm Hall].
      split; [exact Hm | split].
      * intros Hb. rewrite Hm. now apply batches_cover.
      * intros t Hin. exact (pass_ok_carries ext self i t (Hall t Hin)).
    + intros t id vec d dates pre f post d' Hin Hf Hdr Hdates Hpre Hmiss.
      pose proof (pass_missing_date ext self i t id vec d dates pre f post d'
                    Hf Hdr Hdates Hpre Hmiss) as Hp.
      specialize (T2 t _ Hin Hp). discriminate.
    + discriminate.
  - split; [discriminate | split].
    + intros t id vec d dates pre f post d' Hin Hf Hdr Hdates Hpre Hmiss.
      pose proof (pass_missing_date ext self i t id vec d dates pre f post d'
                    Hf Hdr Hdates Hpre Hmiss) as Hp.
      specialize (T2 t _ Hin Hp). now injection T2 as ->.
    + intros Hall k Hk. injection Hk as ->.
      destruct (T3 _ eq_refl) as [t [Hin Ht]].
      destruct (Hall t Hin) as [Hf Hcar].
      exact (pass_no_key_error ext self i t k Hf Hcar Ht).
Qed.

Lemma date_coercion_needs_every_date_field_witness :
  truthy VNone = false /\
  index_or_default Sample.self None = Ok "Document" /\
  _create_schema_and_index_if_not_exist Sample.self (Some "Document") Sample.fresh
  = (Ok tt, Sample.schema_ready) /\
  str_in (or_default None (duplicate_documents Sample.self)) duplicate_documents_options
  = true /\
  Sample.dated_first <> [] /\
  _get_current_properties Sample.self (Some "Document") Sample.schema_ready
  = (Ok ["name"; "content"], Sample.snapshot_taken) /\
  sanitize_ids Sample.self Sample.dated_first "Document" Sample.snapshot_taken
  = (Ok Sample.dated_first, Sample.snapshot_taken) /\
  _handle_duplicate_documents Sample.ext Sample.self Sample.dated_first "Document"
    (or_default None (duplicate_documents Sample.self)) Sample.snapshot_taken
  = (Ok Sample.dated_first, Sample.snapshot_taken) /\
  map turn_doc Sample.dated_first_turns
  = map (dummy_embed Sample.ext Sample.self) Sample.dated_first /\
  dates_read Sample.ext Sample.self "Document" (nth 1 Sample.dated_first_turns Sample.no_turn)
  = Some ["day"] /\
  fst (write_documents Sample.ext Sample.self Sample.dated_first None 10000 None VNone
         Sample.fresh)
  = Raise (KeyError "day").
Proof.
  assert (H1 : truthy VNone = false) by reflexivity.
  assert (H2 : index_or_default Sample.self None = Ok "Document") by reflexivity.
  assert (H3 : _create_schema_and_index_if_not_exist Sample.self (Some "Document")
                 Sample.fresh = (Ok tt, Sample.schema_ready)) by reflexivity.
  assert (H4 : str_in (or_default None (duplicate_documents Sample.self))
                 duplicate_documents_options = true) by reflexivity.
  assert (H5 : Sample.dated_first <> []) by discriminate.
  assert (H6 : _get_current_properties Sample.self (Some "Document") Sample.schema_ready
               = (Ok ["name"; "content"], Sample.snapshot_taken)) by reflexivity.
  assert (H7 : sanitize_ids Sample.self Sample.dated_first "Document"
                 Sample.snapshot_taken
               = (Ok Sample.dated_first, Sample.snapshot_taken))
    by (vm_compute; reflexivity).
  assert (H8 : _handle_duplicate_documents Sample.ext Sample.self
                 Sample.dated_first "Document"
                 (or_default None (duplicate_documents Sample.self))
                 Sample.snapshot_taken
               = (Ok Sample.dated_first, Sample.snapshot_taken)) by reflexivity.
  pose (t := nth 1 Sample.dated_first_turns Sample.no_turn).
  assert (Hm : map turn_doc Sample.dated_first_turns
               = map (dummy_embed Sample.ext Sample.self) Sample.dated_first)
    by (vm_compute; reflexivity).
  assert (Hin : In t Sample.dated_first_turns).
  { apply nth_In. vm_compute. repeat constructor. }
  assert (Hf : flatten Sample.ext Sample.self (turn_doc t)
               = Ok ("4847abb9-44fc-b88c-a6d9-b4b0c972a7fa",
                     VList [Sample.half; Sample.half],
                     [("content", VStr (Sample.dumps (VStr "one")));
                      ("content_type", VStr "text"); ("genre", VStr "news")]))
    by (vm_compute; reflexivity).
  assert (Hd : dates_read Sample.ext Sample.self "Document" t = Some ["day"])
    by (vm_compute; reflexivity).
  assert (Hk : ~ In "day" (fields Sample.ext Sample.self (turn_doc t))).
  { vm_compute. intros [H|[H|[H|[]]]]; discriminate H. }
  split; [exact H1 | split; [exact H2 | split; [exact H3 | split; [exact H4 |
  split; [exact H5 | split; [exact H6 | split; [exact H7 | split; [exact H8 |
  split; [exact Hm | split; [exact Hd |]]]]]]]]]].
  exact (proj1 (proj2
           (date_coercion_needs_every_date_field Sample.ext Sample.self
              Sample.dated_first None 10000 None VNone Sample.fresh "Document"
              Sample.schema_ready ["name"; "content"] Sample.snapshot_taken
              Sample.dated_first Sample.snapshot_taken
              Sample.dated_first Sample.snapshot_taken
              H1 H2 H3 H4 H5 H6 H7 H8))
           t _ _ _ ["day"] [] "day" [] _ Hin Hf Hd eq_refl eq_refl Hk).
Defined.


(** The same in a whole call: a document without ["day"], written to a
    class whose schema has the date property ["day"]. *)
Example write_undated_document_aborts :
  fst (write_documents Sample.ext Sample.self [Sample.undated] None 10000 None VNone
         Sample.tagged_written)
  = Raise (KeyError "day") /\
  fst (get_document_count Sample.ext Sample.self VNone None false VNone
         (snd (write_documents Sample.ext Sample.self [Sample.undated] None 10000 None
                 VNone Sample.tagged_written)))
  = Ok (VInt 2).
Proof. vm_compute. split; reflexivity. Qed.

(* ===================================================================== *)
(** * Further properties of the store *)
(* ===================================================================== *)

(** ** Canonical index names *)

Ltac every_char c := destruct c as [[] [] [] [] [] [] [] []].

Lemma upper_char_starts_upper (c : ascii) (rest : string) :
  starts_upper (upper_char c ++ rest).
Proof. every_char c; reflexivity. Qed.

Lemma title_char_starts_upper (c : ascii) (rest more : string) :
  starts_upper ((title_char c ++ rest) ++ more).
Proof. every_char c; reflexivity. Qed.

Lemma starts_upper_not_lower (c : ascii) (rest : string) :
  starts_upper (String c rest) -> is_lower c = false.
Proof. every_char c; intros H; try reflexivity; discriminate H. Qed.

Lemma upper_char_no_underscore (c : ascii) :
  Ascii.eqb "_" c = false -> contains_char "_" (upper_char c) = false.
Proof. every_char c; intros H; try reflexivity; discriminate H. Qed.

Lemma title_char_no_underscore (c : ascii) :
  Ascii.eqb "_" c = false -> contains_char "_" (title_char c) = false.
Proof. every_char c; intros H; try reflexivity; discriminate H. Qed.

Lemma lower_char_no_underscore (c : ascii) :
  Ascii.eqb "_" c = false -> Ascii.eqb "_" (lower_char c) = false.
Proof. every_char c; intros H; try reflexivity; discriminate H. Qed.

Lemma upper_char_ascii (c : ascii) :
  is_ascii c = true -> all_chars is_ascii (upper_char c) = true.
Proof. every_char c; intros H; try reflexivity; discriminate H. Qed.

Lemma title_char_ascii (c : ascii) :
  is_ascii c = true -> all_chars is_ascii (title_char c) = true.
Proof. every_char c; intros H; try reflexivity; discriminate H. Qed.

Lemma lower_char_ascii (c : ascii) :
  is_ascii c = true -> is_ascii (lower_char c) = true.
Proof. every_char c; intros H; try reflexivity; discriminate H. Qed.

Lemma contains_char_append (c : ascii) (s t : string) :
  contains_char c (s ++ t) = (contains_char c s || contains_char c t)%bool.
Proof.
  induction s as [|c' s IH]; cbn; [reflexivity|].
  now rewrite IH, orb_assoc.
Qed.

Lemma plain_append (s t : string) : plain s -> plain t -> plain (s ++ t).
Proof.
  intros [H1 H2] [H3 H4]. split.
  - now rewrite contains_char_append, H1, H3.
  - now rewrite all_chars_append, H2, H4.
Qed.

Lemma lower_plain (s : string) : plain s -> plain (lower s).
Proof.
  unfold plain, lower. induction s as [|c s IH]; [tauto|].
  cbn [str_map contains_char all_chars]. intros [H1 H2].
  apply orb_false_iff in H1 as [Hc Hs]. apply andb_true_iff in H2 as [Ac As].
  destruct (IH (conj Hs As)) as [I1 I2].
  now rewrite (lower_char_no_underscore c Hc), (lower_char_ascii c Ac), I1, I2.
Qed.

Lemma capitalize_plain (s : string) : plain s -> plain (capitalize s).
Proof.
  destruct s as [|c s]; [tauto|]. unfold plain at 1.
  cbn [capitalize contains_char all_chars]. intros [H1 H2].
  apply orb_false_iff in H1 as [Hc Hs]. apply andb_true_iff in H2 as [Ac As].
  apply plain_append; [|apply lower_plain; now split].
  split; [now apply title_char_no_underscore | now apply title_char_ascii].
Qed.

Lemma split_parts_plain (s : string) : forall cur,
  all_chars is_ascii s = true -> plain cur ->
  Forall plain (split_go "_" s cur).
Proof.
  induction s as [|c s IH]; intros cur Hs Hcur; cbn [split_go].
  - now constructor.
  - cbn [all_chars] in Hs. apply andb_true_iff in Hs as [Ac As].
    destruct (Ascii.eqb "_" c) eqn:E.
    + constructor; [exact Hcur | apply IH; [exact As | now split]].
    + apply IH; [exact As|]. apply plain_append; [exact Hcur|].
      split; cbn [contains_char all_chars]; [now rewrite E | now rewrite Ac].
Qed.

Lemma join_plain (parts : list string) :
  Forall plain parts -> plain (join (map capitalize parts)).
Proof.
  induction 1 as [|p parts Hp _ IH]; [now split|].
  cbn [map join fold_right]. apply plain_append; [now apply capitalize_plain | exact IH].
Qed.

Lemma join_starts_upper (parts : list string) :
  starts_upper (join (map capitalize parts)).
Proof.
  induction parts as [|p parts IH]; [exact I|].
  cbn [map join fold_right]. unfold join in IH.
  destruct p as [|c p]; [exact IH|].
  cbn [capitalize]. apply title_char_starts_upper.
Qed.

Lemma sanitize_index_name_shape (i j : string) :
  all_chars is_ascii i = true ->
  _sanitize_index_name (Some i) = Ok (Some j) ->
  plain j /\ starts_upper j.
Proof.
  intros Hi. unfold _sanitize_index_name.
  destruct (contains_char "_" i) eqn:E.
  - intros H. injection H as <-. split.
    + apply join_plain, split_parts_plain; [exact Hi | now split].
    + apply join_starts_upper.
  - destruct i as [|c rest]; [discriminate|].
    intros H. injection H as <-.
    cbn [contains_char] in E. apply orb_false_iff in E as [Ec Er].
    cbn [all_chars] in Hi. apply andb_true_iff in Hi as [Ac Ar]. split.
    + apply plain_append; [|now split].
      split; [now apply upper_char_no_underscore | now apply upper_char_ascii].
    + apply upper_char_starts_upper.
Qed.

Lemma sanitize_index_name_again (i j : string) :
  all_chars is_ascii i = true ->
  _sanitize_index_name (Some i) = Ok (Some j) ->
  j <> EmptyString ->
  _sanitize_index_name (Some j) = Ok (Some j).
Proof.
  intros Hi H Hne. destruct (sanitize_index_name_shape i j Hi H) as [[Hu _] Hs].
  unfold _sanitize_index_name. rewrite Hu.
  destruct j as [|c rest]; [contradiction|]. cbn in Hs. now rewrite Hs.
Qed.

(** X1.  For a name of ASCII characters, what [_sanitize_index_name] gives
    back is of ASCII characters, holds no underscore and does not start
    with a lower-case letter; unless it is empty, it is a fixed point:
    sanitising it again gives the same name. *)
Theorem sanitize_index_name_is_canonical (i j : string) :
  ascii_name i = true ->
  _sanitize_index_name (Some i) = Ok (Some j) ->
  ascii_name j = true /\
  contains_char "_" j = false /\
  (forall c rest, j = String c rest -> is_lower c = false) /\
  (j <> EmptyString -> _sanitize_index_name (Some j) = Ok (Some j)).
Proof.
  intros Hi H. destruct (sanitize_index_name_shape i j Hi H) as [[Hu Ha] Hs].
  split; [exact Ha | split; [exact Hu | split]].
  - intros c rest ->. exact (starts_upper_not_lower c rest Hs).
  - exact (sanitize_index_name_again i j Hi H).
Qed.

Lemma sanitize_index_name_is_canonical_witness :
  ascii_name "my_docIndex" = true /\
  _sanitize_index_name (Some "my_docIndex") = Ok (Some "MyDocindex") /\
  contains_char "_" "MyDocindex" = false /\
  _sanitize_index_name (Some "MyDocindex") = Ok (Some "MyDocindex").
Proof.
  assert (A : ascii_name "my_docIndex" = true) by reflexivity.
  assert (H : _sanitize_index_name (Some "my_docIndex") = Ok (Some "MyDocindex"))
    by reflexivity.
  destruct (sanitize_index_name_is_canonical "my_docIndex" "MyDocindex" A H)
    as [_ [H1 [_ H3]]].
  split; [exact A | split; [exact H | split; [exact H1 | apply H3; discriminate]]].
Defined.

(** X2.  In a store whose own index is the sanitised form of an ASCII name
    and is not empty, the index that a method resolves for an ASCII
    argument with [self._sanitize_index_name(index) or self.index] is never
    empty and resolves to itself: the helpers that resolve the name they are
    handed a second time work on the same index. *)
Theorem resolved_index_is_stable (self : config) (raw : string)
    (idx : option string) (i : string) :
  ascii_name raw = true ->
  _sanitize_index_name (Some raw) = Ok (Some (index self)) ->
  index self <> EmptyString ->
  ascii_index idx = true ->
  index_or_default self idx = Ok i ->
  i <> EmptyString /\ ascii_name i = true /\ index_or_default self (Some i) = Ok i.
Proof.
  intros Hraw Hself Hne Hidx Hi.
  assert (Hfix : forall j, j <> EmptyString ->
                   _sanitize_index_name (Some j) = Ok (Some j) ->
                   index_or_default self (Some j) = Ok j).
  { intros j Hj E. unfold index_or_default. rewrite E. cbn.
    destruct (String.eqb_spec j ""); [contradiction | reflexivity]. }
  assert (Hdef : ascii_name (index self) = true /\
                 index_or_default self (Some (index self)) = Ok (index self)).
  { split.
    - exact (proj2 (proj1 (sanitize_index_name_shape raw (index self) Hraw Hself))).
    - apply Hfix; [exact Hne|].
      exact (sanitize_index_name_again raw (index self) Hraw Hself Hne). }
  unfold index_or_default in Hi.
  destruct (_sanitize_index_name idx) as [[j|]|e] eqn:E; cbn in Hi;
    try discriminate; injection Hi as <-.
  - destruct (String.eqb_spec j "") as [->|Hj]; [split; [exact Hne | exact Hdef]|].
    destruct idx as [i0|]; [|discriminate]. cbn [ascii_index] in Hidx.
    split; [exact Hj | split].
    + exact (proj2 (proj1 (sanitize_index_name_shape i0 j Hidx E))).
    + apply Hfix; [exact Hj|]. exact (sanitize_index_name_again i0 j Hidx E Hj).
  - split; [exact Hne | exact Hdef].
Qed.

Lemma resolved_index_is_stable_witness :
  ascii_name "document" = true /\
  _sanitize_index_name (Some "document") = Ok (Some (index Sample.self)) /\
  index Sample.self <> EmptyString /\
  ascii_index (Some "news_archive") = true /\
  index_or_default Sample.self (Some "news_archive") = Ok "NewsArchive" /\
  index_or_default Sample.self (Some "NewsArchive") = Ok "NewsArchive".
Proof.
  assert (H0 : ascii_name "document" = true) by reflexivity.
  assert (H1 : _sanitize_index_name (Some "document") = Ok (Some (index Sample.self)))
    by reflexivity.
  assert (H2 : index Sample.self <> EmptyString) by discriminate.
  assert (H3 : ascii_index (Some "news_archive") = true) by reflexivity.
  assert (H4 : index_or_default Sample.self (Some "news_archive") = Ok "NewsArchive")
    by reflexivity.
  split; [exact H0 | split; [exact H1 | split; [exact H2 | split; [exact H3 |
  split; [exact H4|]]]]].
  exact (proj2 (proj2 (resolved_index_is_stable Sample.self "document"
                         (Some "news_archive") "NewsArchive" H0 H1 H2 H3 H4))).
Defined.

(** ** Type inference: the only failure *)

(** X3.  [_get_weaviate_type_of_value] raises on the empty list, with the
    [IndexError] of [value[0]], and on no other value. *)
Theorem weaviate_type_fails_only_on_empty_list (ext : collaborators) (v : value) :
  (forall e, _get_weaviate_type_of_value ext v = Raise e ->
             v = VList [] /\ e = IndexError) /\
  _get_weaviate_type_of_value ext (VList []) = Raise IndexError.
Proof.
  split; [|reflexivity].
  intros e. unfold _get_weaviate_type_of_value.
  destruct v as [| | | | |l|]; cbn; try discriminate.
  destruct l as [|x l]; cbn; [|discriminate].
  intros H. now injection H as <-.
Qed.

(** ** What the decoded document never carries in its meta data *)

Lemma dict_get_filter_key {V} (k : string) (f : string * V -> bool)
    (d : list (string * V)) :
  (forall v, f (k, v) = false) -> dict_get k (filter f d) = None.
Proof.
  intros Hf. induction d as [|[k0 v] d IH]; cbn; [reflexivity|].
  destruct (f (k0, v)) eqn:E; [|exact IH].
  cbn. destruct (String.eqb_spec k k0) as [->|Hk]; [|exact IH].
  now rewrite Hf in E.
Qed.

Lemma from_dict_meta (ext : collaborators) (id content content_type score embedding : value)
    (meta : dict) (doc : Document) :
  from_dict ext [("id", id); ("content", content); ("content_type", content_type);
                 ("meta", VDict meta); ("score", score); ("embedding", embedding)]
  = Ok doc ->
  doc_meta doc = meta.
Proof.
  unfold from_dict. cbn. destruct (is_not_none content); [|discriminate].
  intros H. now injection H as <-.
Qed.

Lemma convert_meta (ext : collaborators) (self : config) (res : value) (re : bool)
    (doc : Document) :
  _convert_weaviate_result_to_document ext self res re = Ok doc ->
  exists props,
    doc_meta doc
    = filter (fun kv => negb (str_in (fst kv) [content_field self; embedding_field self]))
             props /\
    dict_get "_additional" props = None.
Proof.
  unfold _convert_weaviate_result_to_document.
  destruct (py_get "id" res) as [id|]; cbn [rbind]; [|discriminate].
  destruct (py_get "vector" res) as [emb|]; cbn [rbind]; [|discriminate].
  destruct (py_get "properties" res) as [p|]; cbn [rbind]; [|discriminate].
  destruct (if negb (truthy p) then res else p) as [| | | | | |props];
    try discriminate.
  destruct (if is_not_none (value_at (content_field self) props) then _ else _)
    as [content|]; cbn [rbind]; [|discriminate].
  set (props' := if is_not_none (value_at "content_type" props)
                 then dict_remove "content_type" props else props).
  clearbody props'.
  destruct (dict_get "_additional" props') as [a|] eqn:Ha.
  - destruct (py_in "certainty" a) as [b1|]; cbn [rbind]; [|discriminate].
    destruct (if b1 then _ else _) as [sc|]; cbn [rbind]; [|discriminate].
    destruct (py_in "id" a) as [b2|]; cbn [rbind]; [|discriminate].
    destruct (if b2 then _ else _) as [id'|]; cbn [rbind]; [|discriminate].
    destruct (py_in "vector" a) as [b3|]; cbn [rbind]; [|discriminate].
    destruct (if b3 then _ else _) as [emb'|]; cbn [rbind]; [|discriminate].
    intros H. apply from_dict_meta in H.
    exists (dict_remove "_additional" props').
    split; [exact H | apply dict_get_remove_eq].
  - cbn [rbind]. intros H. apply from_dict_meta in H.
    exists props'. split; [exact H | exact Ha].
Qed.

(** X4.  The meta data of a decoded document never holds the content
    field, the embedding field or ["_additional"]: the three keys are taken
    out of the fields before the rest becomes [meta]. *)
Theorem convert_meta_has_no_reserved_key
    (ext : collaborators) (self : config) (res : value) (re : bool) (doc : Document) :
  _convert_weaviate_result_to_document ext self res re = Ok doc ->
  dict_mem (content_field self) (doc_meta doc) = false /\
  dict_mem (embedding_field self) (doc_meta doc) = false /\
  dict_mem "_additional" (doc_meta doc) = false.
Proof.
  intros H. destruct (convert_meta ext self res re doc H) as [props [-> Ha]].
  unfold dict_mem. repeat split.
  - rewrite dict_get_filter_key; [reflexivity|].
    intros v. cbn. now rewrite String.eqb_refl.
  - rewrite dict_get_filter_key; [reflexivity|].
    intros v. cbn. now rewrite String.eqb_refl, orb_true_r.
  - now rewrite dict_get_filter_none.
Qed.

Lemma convert_meta_has_no_reserved_key_witness :
  exists doc,
    _convert_weaviate_result_to_document Sample.ext Sample.self (VDict Sample.hit) true
    = Ok doc /\
    dict_mem "content" (doc_meta doc) = false /\
    dict_mem "_additional" (doc_meta doc) = false.
Proof.
  eexists. split; [reflexivity|].
  split; eapply (convert_meta_has_no_reserved_key Sample.ext Sample.self
                   (VDict Sample.hit) true); reflexivity.
Defined.

(** ** Stored content that does not decode *)

(** X5.  A stored content that [json.loads] refuses makes
    [_convert_weaviate_result_to_document] raise the decoder's error: the
    decoding is not guarded. *)
Theorem convert_reports_undecodable_content
    (ext : collaborators) (self : config) (res fields : dict) (re : bool) :
  fields_of res fields ->
  is_not_none (value_at (content_field self) fields) = true ->
  json_loads ext (py_str ext (value_at (content_field self) fields)) = None ->
  _convert_weaviate_result_to_document ext self (VDict res) re = Raise JSONDecodeError.
Proof.
  intros Hf Hc Hl. unfold _convert_weaviate_result_to_document. cbn [py_get rbind].
  assert (Hp : (if negb (truthy (value_at "properties" res))
                then VDict res else value_at "properties" res) = VDict fields).
  { destruct Hf as [p Hp Hne | Hq].
    - unfold value_at. rewrite Hp. destruct p; [contradiction | reflexivity].
    - now rewrite Hq. }
  rewrite Hp, Hc, Hl. reflexivity.
Qed.

Lemma convert_reports_undecodable_content_witness :
  fields_of [("content", VStr "two")] [("content", VStr "two")] /\
  _convert_weaviate_result_to_document Sample.ext Sample.self
    (VDict [("content", VStr "two")]) true
  = Raise JSONDecodeError.
Proof.
  assert (H : fields_of [("content", VStr "two")] [("content", VStr "two")])
    by (apply query_shape; reflexivity).
  split; [exact H|].
  apply (convert_reports_undecodable_content Sample.ext Sample.self _ _ true H);
    reflexivity.
Defined.

(** ** Headers *)

(** X6.  With custom headers every method that accepts them raises
    [NotImplementedError] before doing anything: the service receives no
    call and the store is left as it was.  The generator function
    [get_all_documents_generator] raises nothing when it is called: it is
    the generator it returns that raises, when it is iterated, and still
    before doing anything. *)
Theorem headers_are_not_supported
    (ext : collaborators) (self : config) (headers : value) (w : world) :
  truthy headers = true ->
  (forall id idx,
      get_document_by_id ext self id idx headers w = (Raise NotImplementedError, w)) /\
  (forall ids idx bs,
      get_documents_by_id ext self ids idx bs headers w = (Raise NotImplementedError, w)) /\
  (forall docs idx bs dup,
      write_documents ext self docs idx bs dup headers w
      = (Raise NotImplementedError, w)) /\
  (forall filters idx only,
      get_document_count ext self filters idx only headers w
      = (Raise NotImplementedError, w)) /\
  (forall idx filters re bs,
      get_all_documents ext self idx filters re bs headers w
      = (Raise NotImplementedError, w)) /\
  (forall idx filters re bs,
      exists g,
        get_all_documents_generator ext self idx filters re bs headers w = (Ok g, w) /\
        forall w', iterate g w' = (Raise NotImplementedError, w')) /\
  (forall idx ids filters,
      delete_documents ext self idx ids filters headers w
      = (Raise NotImplementedError, w)) /\
  (forall idx filters,
      delete_all_documents ext self idx filters headers w
      = (Raise NotImplementedError, w)).
Proof.
  intros H.
  unfold get_document_by_id, get_documents_by_id, write_documents, get_document_count,
    get_all_documents, get_all_documents_generator, delete_documents,
    delete_all_documents.
  rewrite H. repeat split.
  intros idx filters re bs. eexists. split; reflexivity.
Qed.

Lemma headers_are_not_supported_witness :
  truthy (VDict [("Authorization", VStr "Bearer x")]) = true /\
  delete_documents Sample.ext Sample.self None None VNone
    (VDict [("Authorization", VStr "Bearer x")]) Sample.three_written
  = (Raise NotImplementedError, Sample.three_written).
Proof.
  assert (H : truthy (VDict [("Authorization", VStr "Bearer x")]) = true)
    by reflexivity.
  split; [exact H|].
  apply (headers_are_not_supported Sample.ext Sample.self _ Sample.three_written H).
Defined.

(** ** Creating the class of an index *)

Lemma has_class_record c b i :
  Backend.has_class i (Backend.record c b) = Backend.has_class i b.
Proof. reflexivity. Qed.

Lemma create_schema_run
    (self : config) (idx : option string) (i : string) (w : world) :
  custom_schema self = None ->
  index_or_default self idx = Ok i ->
  exists w',
    _create_schema_and_index_if_not_exist self idx w = (Ok tt, w') /\
    Backend.has_class i (backend w') = true /\
    Backend.objects (backend w') = Backend.objects (backend w) /\
    Backend.schema (backend w')
    = (if Backend.has_class i (backend w) then Backend.schema (backend w)
       else Backend.schema (backend w) ++ default_schema self i)%list /\
    Backend.log (backend w')
    = (Backend.log (backend w)
       ++ if Backend.has_class i (backend w) then [Backend.SchemaContains]
          else [Backend.SchemaContains; Backend.SchemaCreate])%list.
Proof.
  intros Hc Hi. unfold _create_schema_and_index_if_not_exist, bind, lift.
  rewrite Hi, Hc. unfold request at 1. cbn [Backend.schema_contains default_schema forallb
    Backend.class_name].
  rewrite andb_true_r.
  destruct (Backend.has_class i (backend w)) eqn:E; cbn [negb].
  - eexists. split; [reflexivity|]. cbn. repeat split. exact E.
  - unfold request_r, Backend.schema_create. cbv zeta.
    cbn [backend Backend.add_classes Backend.class_name Backend.schema Backend.record].
    unfold Backend.has_class in E.
    unfold default_schema. cbn [Backend.add_classes Backend.class_name].
    rewrite E. cbn [Backend.add_classes].
    eexists. split; [reflexivity|]. cbn. repeat split.
    + unfold Backend.has_class. cbn. rewrite existsb_app. cbn.
      now rewrite String.eqb_refl, orb_true_r.
    + now rewrite <- app_assoc.
Qed.

(** X7.  Without a custom schema,
    [_create_schema_and_index_if_not_exist] always succeeds and leaves the
    class in the schema: it asks whether the class is known, and creates the
    default class at the end of the schema only when it is not; the stored
    objects are untouched. *)
Theorem create_schema_only_if_absent
    (self : config) (idx : option string) (i : string) (w : world) :
  custom_schema self = None ->
  index_or_default self idx = Ok i ->
  exists w',
    _create_schema_and_index_if_not_exist self idx w = (Ok tt, w') /\
    Backend.has_class i (backend w') = true /\
    Backend.objects (backend w') = Backend.objects (backend w) /\
    Backend.schema (backend w')
    = (if Backend.has_class i (backend w) then Backend.schema (backend w)
       else Backend.schema (backend w) ++ default_schema self i)%list /\
    Backend.log (backend w')
    = (Backend.log (backend w)
       ++ if Backend.has_class i (backend w) then [Backend.SchemaContains]
          else [Backend.SchemaContains; Backend.SchemaCreate])%list.
Proof. exact (create_schema_run self idx i w). Qed.

Lemma create_schema_only_if_absent_witness :
  custom_schema Sample.self = None /\
  index_or_default Sample.self (Some "document") = Ok "Document" /\
  exists w',
    _create_schema_and_index_if_not_exist Sample.self (Some "document") Sample.fresh
    = (Ok tt, w') /\
    Backend.has_class "Document" (backend w') = true.
Proof.
  assert (H1 : custom_schema Sample.self = None) by reflexivity.
  assert (H2 : index_or_default Sample.self (Some "document") = Ok "Document")
    by reflexivity.
  split; [exact H1 | split; [exact H2|]].
  destruct (create_schema_only_if_absent Sample.self (Some "document") "Document"
              Sample.fresh H1 H2) as [w' [E [Hc _]]].
  exists w'. split; [exact E | exact Hc].
Defined.

(** ** The schema as the store reads it back *)

Lemma get_current_properties_value self idx i w :
  index_or_default self idx = Ok i ->
  _get_current_properties self idx w
  = (Ok (names_of i (Backend.schema (backend w)) []),
     mk_world (Backend.record Backend.SchemaGet (backend w))
              (uuid_format_warning_raised w)).
Proof.
  intros H. unfold _get_current_properties, bind, lift, request, ret.
  now rewrite H.
Qed.

Lemma get_date_properties_value self idx i w :
  index_or_default self idx = Ok i ->
  _get_date_properties self idx w
  = (date_properties_of (Backend.schema (backend w)) i [],
     mk_world (Backend.record Backend.SchemaGet (backend w))
              (uuid_format_warning_raised w)).
Proof.
  intros H. unfold _get_date_properties, bind, lift, request.
  rewrite H. cbn. now destruct (date_properties_of _ _ _).
Qed.

Lemma names_of_unknown i classes : forall cur,
  existsb (fun c => String.eqb (Backend.class_name c) i) classes = false ->
  names_of i classes cur = cur.
Proof.
  unfold names_of. induction classes as [|c rest IH]; intros cur H; cbn in *.
  - reflexivity.
  - apply orb_false_iff in H as [Hc Hr]. rewrite Hc. now apply IH.
Qed.

Lemma add_property_name i p c :
  Backend.class_name (Backend.add_property i p c) = Backend.class_name c.
Proof. unfold Backend.add_property. now destruct (String.eqb _ _). Qed.

Lemma add_property_properties i p c :
  Backend.class_properties (Backend.add_property i p c)
  = if String.eqb (Backend.class_name c) i
    then (Backend.class_properties c ++ [p])%list
    else Backend.class_properties c.
Proof. unfold Backend.add_property. now destruct (String.eqb _ _). Qed.

Lemma names_of_added i p classes : forall cur cur',
  names_of i (map (Backend.add_property i p) classes) cur'
  = if existsb (fun c => String.eqb (Backend.class_name c) i) classes
    then (names_of i classes cur ++ [Backend.prop_name p])%list
    else cur'.
Proof.
  induction classes as [|c rest IH]; intros cur cur'; [reflexivity|].
  unfold names_of in *. cbn [map fold_left existsb].
  rewrite add_property_name, add_property_properties.
  destruct (String.eqb (Backend.class_name c) i) eqn:E; cbn [orb].
  - rewrite (IH (map Backend.prop_name (Backend.class_properties c))).
    rewrite map_app. cbn [map].
    destruct (existsb _ rest) eqn:Er; [reflexivity|].
    pose proof (names_of_unknown i rest
                  (map Backend.prop_name (Backend.class_properties c)) Er) as U.
    unfold names_of in U. now rewrite U.
  - apply IH.
Qed.

Lemma update_schema_ok ext self p v idx i w w' :
  index_or_default self idx = Ok i ->
  _update_schema ext self p v idx w = (Ok tt, w') ->
  exists t,
    _get_weaviate_type_of_value ext v = Ok t /\
    Backend.has_class i (backend w) = true /\
    Backend.schema (backend w')
    = map (Backend.add_property i (Backend.mk_property p [t]))
          (Backend.schema (backend w)) /\
    Backend.objects (backend w') = Backend.objects (backend w).
Proof.
  intros Hi. unfold _update_schema, bind, lift. rewrite Hi.
  destruct (_get_weaviate_type_of_value ext v) as [t|e]; [|discriminate].
  unfold request_r, Backend.property_create. cbv zeta.
  rewrite has_class_record.
  destruct (Backend.has_class i (backend w)) eqn:E; [|discriminate].
  intros H. injection H as <-. exists t. cbn. repeat split.
Qed.

(** X8.  After a successful [_update_schema], [_get_current_properties]
    reads the properties it read before, followed by the new one. *)
Theorem new_property_is_read_back
    (ext : collaborators) (self : config) (p : string) (v : value)
    (idx : option string) (i : string) (w w' : world) :
  index_or_default self idx = Ok i ->
  _update_schema ext self p v idx w = (Ok tt, w') ->
  exists old,
    fst (_get_current_properties self idx w) = Ok old /\
    fst (_get_current_properties self idx w') = Ok (old ++ [p])%list.
Proof.
  intros Hi Hu.
  destruct (update_schema_ok ext self p v idx i w w' Hi Hu) as [t [_ [Hc [Hs _]]]].
  exists (names_of i (Backend.schema (backend w)) []).
  rewrite !(get_current_properties_value self idx i _ Hi). cbn [fst].
  split; [reflexivity|].
  rewrite Hs, (names_of_added i _ _ [] []).
  unfold Backend.has_class in Hc. now rewrite Hc.
Qed.

Lemma new_property_is_read_back_witness :
  index_or_default Sample.self None = Ok "Document" /\
  fst (_update_schema Sample.ext Sample.self "rating" (VInt 3) None Sample.three_written)
  = Ok tt /\
  fst (_get_current_properties Sample.self None
         (snd (_update_schema Sample.ext Sample.self "rating" (VInt 3) None
                 Sample.three_written)))
  = Ok ["name"; "content"; "content_type"; "rating"].
Proof.
  assert (H1 : index_or_default Sample.self None = Ok "Document") by reflexivity.
  assert (H2 : _update_schema Sample.ext Sample.self "rating" (VInt 3) None
                 Sample.three_written
               = (Ok tt, snd (_update_schema Sample.ext Sample.self "rating" (VInt 3) None
                                Sample.three_written)))
    by (vm_compute; reflexivity).
  split; [exact H1 | split; [now rewrite H2|]].
  destruct (new_property_is_read_back Sample.ext Sample.self "rating" (VInt 3) None
              "Document" Sample.three_written _ H1 H2) as [old [Ho Hn]].
  rewrite Hn. f_equal.
  assert (E : Ok old = Ok ["name"; "content"; "content_type"])
    by (rewrite <- Ho; vm_compute; reflexivity).
  injection E as ->. reflexivity.
Defined.

(** ** Date properties *)

Lemma date_names_incl (properties : list Backend.property) (names : list string) :
  date_names properties = Ok names ->
  incl names (map Backend.prop_name properties).
Proof.
  revert names. induction properties as [|item rest IH]; intros names H;
    cbn [date_names] in H.
  - injection H as <-. apply incl_nil_l.
  - destruct (Backend.prop_dataType item) as [|t ts]; [discriminate|].
    destruct (date_names rest) as [ns|e]; cbn [rbind] in H; [|discriminate].
    injection H as <-. specialize (IH ns eq_refl). cbn [map].
    destruct (String.eqb t "date").
    + apply incl_cons; [now left | now apply incl_tl].
    + now apply incl_tl.
Qed.

Lemma date_properties_incl (i : string) (classes : list Backend.class_item) :
  forall cur cur' dates,
    incl cur cur' ->
    date_properties_of classes i cur = Ok dates ->
    incl dates (names_of i classes cur').
Proof.
  unfold names_of.
  induction classes as [|c rest IH]; intros cur cur' dates Hc H;
    cbn [date_properties_of fold_left] in *.
  - now injection H as <-.
  - destruct (String.eqb (Backend.class_name c) i).
    + destruct (date_names (Backend.class_properties c)) as [ns|e] eqn:E;
        cbn [rbind] in H; [|discriminate].
      apply (IH ns); [|exact H]. now apply date_names_incl.
    + now apply (IH cur).
Qed.

(** X9.  Every name [_get_date_properties] returns is one
    [_get_current_properties] returns for the same index and schema. *)
Theorem date_properties_are_current_properties
    (self : config) (idx : option string) (w : world)
    (dates properties : list string) :
  fst (_get_date_properties self idx w) = Ok dates ->
  fst (_get_current_properties self idx w) = Ok properties ->
  incl dates properties.
Proof.
  destruct (index_or_default self idx) as [i|e] eqn:Hi.
  - rewrite (get_date_properties_value self idx i w Hi),
      (get_current_properties_value self idx i w Hi). cbn [fst].
    intros Hd Hp. injection Hp as <-.
    now apply (date_properties_incl i _ [] []).
  - unfold _get_date_properties, bind, lift. rewrite Hi. discriminate.
Qed.

Lemma date_properties_are_current_properties_witness :
  fst (_get_date_properties Sample.self None Sample.tagged_written) = Ok ["day"] /\
  fst (_get_current_properties Sample.self None Sample.tagged_written)
  = Ok Sample.tagged_properties /\
  incl ["day"] Sample.tagged_properties.
Proof.
  assert (H1 : fst (_get_date_properties Sample.self None Sample.tagged_written)
               = Ok ["day"]) by (vm_compute; reflexivity).
  assert (H2 : fst (_get_current_properties Sample.self None Sample.tagged_written)
               = Ok Sample.tagged_properties) by (vm_compute; reflexivity).
  split; [exact H1 | split; [exact H2|]].
  exact (date_properties_are_current_properties Sample.self None Sample.tagged_written
           _ _ H1 H2).
Defined.

Lemma date_names_added (p t : string) (properties : list Backend.property)
    (names : list string) :
  date_names properties = Ok names ->
  date_names (properties ++ [Backend.mk_property p [t]])
  = Ok (names ++ if String.eqb t "date" then [p] else [])%list.
Proof.
  revert names. induction properties as [|item rest IH]; intros names H;
    cbn [date_names app] in *.
  - injection H as <-. cbn. now destruct (String.eqb t "date").
  - destruct (Backend.prop_dataType item) as [|t0 ts]; [discriminate|].
    destruct (date_names rest) as [ns|e]; cbn [rbind] in H; [|discriminate].
    injection H as <-. rewrite (IH ns eq_refl). cbn [rbind].
    now destruct (String.eqb t0 "date").
Qed.

Lemma date_properties_unknown i classes : forall cur,
  existsb (fun c => String.eqb (Backend.class_name c) i) classes = false ->
  date_properties_of classes i cur = Ok cur.
Proof.
  induction classes as [|c rest IH]; intros cur H; cbn in *; [reflexivity|].
  apply orb_false_iff in H as [Hc Hr]. rewrite Hc. now apply IH.
Qed.

Lemma date_properties_added i p t classes : forall cur cur' dates,
  date_properties_of classes i cur = Ok dates ->
  date_properties_of (map (Backend.add_property i (Backend.mk_property p [t])) classes)
    i cur'
  = Ok (if existsb (fun c => String.eqb (Backend.class_name c) i) classes
        then (dates ++ if String.eqb t "date" then [p] else [])%list
        else cur').
Proof.
  induction classes as [|c rest IH]; intros cur cur' dates H;
    cbn [map date_properties_of existsb] in *; [reflexivity|].
  rewrite add_property_name, add_property_properties.
  destruct (String.eqb (Backend.class_name c) i) eqn:E; cbn [orb].
  - destruct (date_names (Backend.class_properties c)) as [ns|e] eqn:En;
      cbn [rbind] in H; [|discriminate].
    rewrite (date_names_added p t _ ns En). cbn [rbind].
    rewrite (IH ns _ dates H).
    destruct (existsb _ rest) eqn:Er; [reflexivity|].
    rewrite (date_properties_unknown i rest ns Er) in H. now injection H as <-.
  - now apply (IH cur).
Qed.

(** X10.  After a successful [_update_schema], [_get_date_properties]
    reads the names it read before, followed by the new property exactly
    when the type inferred for its value is ["date"]. *)
Theorem new_date_property_is_read_back
    (ext : collaborators) (self : config) (p : string) (v : value)
    (idx : option string) (i : string) (w w' : world) (dates : list string) :
  index_or_default self idx = Ok i ->
  fst (_get_date_properties self idx w) = Ok dates ->
  _update_schema ext self p v idx w = (Ok tt, w') ->
  exists t,
    _get_weaviate_type_of_value ext v = Ok t /\
    fst (_get_date_properties self idx w')
    = Ok (dates ++ if String.eqb t "date" then [p] else [])%list.
Proof.
  intros Hi Hd Hu.
  destruct (update_schema_ok ext self p v idx i w w' Hi Hu) as [t [Ht [Hc [Hs _]]]].
  exists t. split; [exact Ht|].
  rewrite (get_date_properties_value self idx i w Hi) in Hd.
  rewrite (get_date_properties_value self idx i w' Hi). cbn [fst] in *.
  rewrite Hs, (date_properties_added i p t _ [] [] dates Hd).
  unfold Backend.has_class in Hc. now rewrite Hc.
Qed.

Lemma new_date_property_is_read_back_witness :
  index_or_default Sample.self None = Ok "Document" /\
  fst (_get_date_properties Sample.self None Sample.three_written) = Ok [] /\
  fst (_get_date_properties Sample.self None
         (snd (_update_schema Sample.ext Sample.self "published" (VStr "2015-01-01")
                 None Sample.three_written)))
  = Ok ["published"].
Proof.
  assert (H1 : index_or_default Sample.self None = Ok "Document") by reflexivity.
  assert (H2 : fst (_get_date_properties Sample.self None Sample.three_written) = Ok [])
    by (vm_compute; reflexivity).
  assert (H3 : _update_schema Sample.ext Sample.self "published" (VStr "2015-01-01")
                 None Sample.three_written
               = (Ok tt,
                  snd (_update_schema Sample.ext Sample.self "published"
                         (VStr "2015-01-01") None Sample.three_written)))
    by (vm_compute; reflexivity).
  split; [exact H1 | split; [exact H2|]].
  destruct (new_date_property_is_read_back Sample.ext Sample.self "published"
              (VStr "2015-01-01") None "Document" Sample.three_written _ [] H1 H2 H3)
    as [t [Ht E]].
  rewrite E.
  assert (Et : Ok t = Ok "date") by (rewrite <- Ht; reflexivity).
  injection Et as ->. reflexivity.
Defined.

(** ** One document by id *)

(** X11.  [get_document_by_id] sends one call, a lookup of the normalised
    id; it returns [None] when no object is stored under it, else the
    decoding of the object, and changes neither the objects nor the
    schema. *)
Theorem get_document_by_id_looks_up_normalised_id
    (ext : collaborators) (self : config) (id : string) (idx : option string)
    (headers : value) (w : world) (i1 i2 : string) :
  truthy headers = false ->
  index_or_default self idx = Ok i1 ->
  index_or_default self (Some i1) = Ok i2 ->
  let uuid := normalize id i2 in
  exists w',
    get_document_by_id ext self id idx headers w
    = (match dict_get uuid (Backend.objects (backend w)) with
       | Some o =>
           let+ document :=
             _convert_weaviate_result_to_document ext self (Backend.get_shape uuid o) true
           in Ok (Some document)
       | None => Ok None
       end, w') /\
    Backend.objects (backend w') = Backend.objects (backend w) /\
    Backend.schema (backend w') = Backend.schema (backend w) /\
    Backend.log (backend w')
    = (Backend.log (backend w) ++ [Backend.ObjectGetById uuid])%list.
Proof.
  intros Hh H1 H2 uuid.
  destruct (sanitize_id_normalize self (Some i1) w id i2 H2) as [flag Hs].
  exists (mk_world (Backend.record (Backend.ObjectGetById uuid) (backend w)) flag).
  split; [|repeat split].
  unfold get_document_by_id. rewrite Hh.
  unfold bind at 1, lift at 1. rewrite H1.
  unfold bind at 1. rewrite Hs.
  unfold bind at 1, request at 1.
  cbn [backend uuid_format_warning_raised Backend.get_by_id]. fold uuid.
  destruct (dict_get uuid (Backend.objects (backend w))) as [o|];
    cbn [option_map found]; [|reflexivity].
  change (truthy (Backend.get_shape uuid o)) with true. cbn iota.
  unfold bind, lift, ret.
  now destruct (_convert_weaviate_result_to_document ext self
                  (Backend.get_shape uuid o) true).
Qed.

Lemma get_document_by_id_looks_up_normalised_id_witness :
  truthy VNone = false /\
  index_or_default Sample.self None = Ok "Document" /\
  index_or_default Sample.self (Some "Document") = Ok "Document" /\
  fst (get_document_by_id Sample.ext Sample.self "doc-9" None VNone Sample.three_written)
  = Ok None.
Proof.
  assert (H0 : truthy VNone = false) by reflexivity.
  assert (H1 : index_or_default Sample.self None = Ok "Document") by reflexivity.
  assert (H2 : index_or_default Sample.self (Some "Document") = Ok "Document")
    by reflexivity.
  split; [exact H0 | split; [exact H1 | split; [exact H2|]]].
  destruct (get_document_by_id_looks_up_normalised_id Sample.ext Sample.self "doc-9"
              None VNone Sample.three_written "Document" "Document" H0 H1 H2)
    as [w' [E _]].
  rewrite E. vm_compute. reflexivity.
Defined.

(** ** Scanning and counting *)

Lemma bind_lift_ok {A B} (a : A) (k : A -> M B) (w : world) :
  bind (lift (Ok a)) k w = k a w.
Proof. reflexivity. Qed.

Lemma convert_all_length ext self results re docs :
  convert_all ext self results re = Ok docs ->
  List.length docs = List.length results.
Proof.
  revert docs. induction results as [|r rest IH]; intros docs H; cbn [convert_all] in H.
  - now injection H as <-.
  - destruct (_convert_weaviate_result_to_document ext self r re); cbn [rbind] in H;
      [|discriminate].
    destruct (convert_all ext self rest re) as [ds|]; cbn [rbind] in H; [|discriminate].
    injection H as <-. cbn. now rewrite (IH ds eq_refl).
Qed.

Lemma all_documents_in_index_run ext self i filters bs w where_ :
  index_or_default self (Some i) = Ok i ->
  where_clause ext filters = Ok where_ ->
  exists g w',
    (forall w0, _get_all_documents_in_index ext self (Some i) filters bs w0 = (Ok g, w0)) /\
    iterate g w
    = (Ok (if Backend.has_class i (backend w)
           then map (Backend.query_shape
                       (names_of i (Backend.schema (backend w)) []
                        ++ [Backend.additional_selector])%list)
                    (Backend.select (where_matches ext) i where_ (backend w))
           else []), w') /\
    Backend.objects (backend w') = Backend.objects (backend w) /\
    Backend.schema (backend w') = Backend.schema (backend w).
Proof.
  intros Hi Hw. unfold _get_all_documents_in_index. eexists.
  refine ((fun P => match P with ex_intro _ w' (conj A B) =>
                      ex_intro _ w' (conj (fun w0 => eq_refl) (conj A B)) end) _).
  unfold iterate.
  unfold bind at 1, lift at 1. rewrite Hi.
  unfold bind at 1. rewrite (get_current_properties_value self (Some i) i w Hi).
  set (w1 := mk_world (Backend.record Backend.SchemaGet (backend w))
                      (uuid_format_warning_raised w)).
  set (props := (names_of i (Backend.schema (backend w)) []
                 ++ [Backend.additional_selector])%list).
  assert (Hq : exists w',
             (if truthy filters then
                let* filter_dict := lift (compile_filters ext filters) in
                request (Backend.query_get (where_matches ext) i props
                           (Some filter_dict) None)
              else request (Backend.query_get (where_matches ext) i props None None)) w1
             = (Ok (fst (Backend.query_get (where_matches ext) i props where_ None
                           (backend w1))), w') /\
             Backend.objects (backend w') = Backend.objects (backend w) /\
             Backend.schema (backend w') = Backend.schema (backend w)).
  { unfold where_clause in Hw. destruct (truthy filters).
    - destruct (compile_filters ext filters) as [f|e] eqn:Ef; cbn [rbind] in Hw;
        [|discriminate].
      injection Hw as <-. unfold bind, lift.
      eexists. split; [reflexivity | split; reflexivity].
    - injection Hw as <-. eexists. split; [reflexivity | split; reflexivity]. }
  destruct Hq as [w' [Hq [Ho Hs]]].
  exists w'. split; [|split; assumption].
  unfold bind at 1. rewrite Hq.
  unfold Backend.query_get. cbn [fst].
  change (Backend.has_class i (backend w1)) with (Backend.has_class i (backend w)).
  change (Backend.select (where_matches ext) i where_ (backend w1))
    with (Backend.select (where_matches ext) i where_ (backend w)).
  destruct (Backend.has_class i (backend w)); [|reflexivity].
  unfold bind, lift, get_hits. cbn [truthy py_in py_get rbind dict_mem dict_get value_at
    String.eqb Ascii.eqb Bool.eqb].
  unfold value_at. cbn [dict_get]. rewrite String.eqb_refl.
  cbn [Backend.first_n].
  destruct (Backend.select (where_matches ext) i where_ (backend w)); reflexivity.
Qed.

(** X12.  On the same index and filters, [get_all_documents] returns as
    many documents as [get_document_count] counts, the service answering a
    query without limit with every object it selects. *)
Theorem all_documents_are_as_many_as_counted
    (ext : collaborators) (self : config) (idx : option string) (filters : value)
    (re : option bool) (bs : Z) (headers : value) (w : world) (i : string)
    (docs : list Document) :
  truthy headers = false ->
  index_or_default self idx = Ok i ->
  index_or_default self (Some i) = Ok i ->
  fst (get_all_documents ext self idx filters re bs headers w) = Ok docs ->
  fst (get_document_count ext self filters idx false headers w)
  = Ok (VInt (Z.of_nat (List.length docs))).
Proof.
  intros Hh H1 H2.
  unfold get_all_documents, get_all_documents_generator, get_document_count.
  rewrite Hh. cbn [truthy].
  unfold bind at 1, lift at 1. rewrite H1.
  rewrite bind_ret, bind_ret_r. unfold iterate at 1.
  unfold bind at 1, lift at 1. rewrite H2.
  rewrite bind_lift_ok.
  destruct (where_clause ext filters) as [where_|e] eqn:Hw.
  - destruct (all_documents_in_index_run ext self i filters bs w where_ H2 Hw)
      as [g [w' [Hcall [Hrun _]]]].
    unfold bind at 1. rewrite Hcall.
    unfold bind at 1. rewrite Hrun. unfold lift at 1. cbn [fst].
    intros Hc. apply convert_all_length in Hc.
    assert (Hq : (if truthy filters then
                    let* filter_dict := lift (compile_filters ext filters) in
                    request (Backend.query_aggregate (where_matches ext) i
                               (Some filter_dict))
                  else request (Backend.query_aggregate (where_matches ext) i None)) w
                 = (Ok (fst (Backend.query_aggregate (where_matches ext) i where_
                               (backend w))),
                    mk_world (Backend.record (Backend.QueryAggregate i where_)
                                (backend w))
                             (uuid_format_warning_raised w))).
    { unfold where_clause in Hw. destruct (truthy filters).
      - destruct (compile_filters ext filters) as [f|e] eqn:Ef; cbn [rbind] in Hw;
          [|discriminate].
        injection Hw as <-. reflexivity.
      - now injection Hw as <-. }
    unfold bind at 1. rewrite Hq. unfold lift. cbn [fst].
    unfold Backend.query_aggregate. cbn [fst].
    destruct (Backend.has_class i (backend w)).
    + rewrite Hc, length_map.
      unfold aggregate_count.
      cbn [py_in py_get py_first py_getitem rbind dict_mem dict_get value_at
           String.eqb Ascii.eqb Bool.eqb].
      unfold value_at. cbn [dict_get]. rewrite String.eqb_refl. reflexivity.
    + rewrite Hc. reflexivity.
  - unfold _get_all_documents_in_index.
    rewrite bind_ret. unfold iterate.
    unfold bind at 1, bind at 1, lift at 1. rewrite H2.
    unfold bind at 1. rewrite (get_current_properties_value self (Some i) i w H2).
    unfold where_clause in Hw. destruct (truthy filters); [|discriminate].
    destruct (compile_filters ext filters) as [f|e'] eqn:Ef; [discriminate|].
    unfold bind, lift. cbn [fst]. discriminate.
Qed.

Lemma all_documents_are_as_many_as_counted_witness :
  truthy VNone = false /\
  index_or_default Sample.self None = Ok "Document" /\
  index_or_default Sample.self (Some "Document") = Ok "Document" /\
  (exists docs,
      fst (get_all_documents Sample.ext Sample.self None VNone None 10000 VNone
             Sample.three_written) = Ok docs) /\
  fst (get_document_count Sample.ext Sample.self VNone None false VNone
         Sample.three_written)
  = Ok (VInt 3).
Proof.
  assert (H0 : truthy VNone = false) by reflexivity.
  assert (H1 : index_or_default Sample.self None = Ok "Document") by reflexivity.
  assert (H2 : index_or_default Sample.self (Some "Document") = Ok "Document")
    by reflexivity.
  pose (docs := match fst (get_all_documents Sample.ext Sample.self None VNone None
                             10000 VNone Sample.three_written) with
                | Ok ds => ds
                | Raise _ => []
                end).
  assert (H3 : fst (get_all_documents Sample.ext Sample.self None VNone None 10000
                      VNone Sample.three_written) = Ok docs)
    by (vm_compute; reflexivity).
  split; [exact H0 | split; [exact H1 | split; [exact H2 | split]]].
  - exists docs. exact H3.
  - rewrite (all_documents_are_as_many_as_counted Sample.ext Sample.self None VNone
               None 10000 VNone Sample.three_written "Document" docs H0 H1 H2 H3).
    vm_compute. reflexivity.
Defined.

(** ** What a query sends *)

Lemma query_run ext self q filters top_k custom_query idx w i :
  index_or_default self idx = Ok i ->
  index_or_default self (Some i) = Ok i ->
  query ext self q filters top_k custom_query idx w
  = query_after_schema ext self filters top_k custom_query i
      (names_of i (Backend.schema (backend w)) [] ++ [Backend.additional_selector])%list
      (mk_world (Backend.record Backend.SchemaGet (backend w))
                (uuid_format_warning_raised w)).
Proof.
  intros H1 H2. unfold query.
  unfold bind at 1, lift at 1. rewrite H1.
  unfold bind at 1. rewrite (get_current_properties_value self (Some i) i w H2).
  reflexivity.
Qed.

Lemma decode_keeps_log ext self i (o : value) (w1 : world) :
  snd ((let* results := lift (get_hits i o (VList [])) in
        let* results := lift (py_iter results) in
        lift (convert_all ext self results true)) w1) = w1.
Proof.
  unfold bind, lift.
  destruct (get_hits i o (VList [])) as [h|]; [|reflexivity].
  destruct (py_iter h) as [rs|]; reflexivity.
Qed.

Lemma skipn_appended {A} (l l' : list A) : skipn (List.length l) (l ++ l') = l'.
Proof. now rewrite skipn_app, skipn_all, Nat.sub_diag. Qed.

(** X13.  [query] reads the schema and then sends one query.  A non-empty
    custom query is sent raw and the filters are ignored; otherwise the
    compiled filters are sent with [top_k] as limit, and filters that do
    not compile end the method before any query is sent. *)
Theorem query_sends_custom_query_before_filters
    (ext : collaborators) (self : config) (q : option string) (filters : value)
    (top_k : Z) (custom_query : option string) (idx : option string) (w : world)
    (i : string) :
  index_or_default self idx = Ok i ->
  index_or_default self (Some i) = Ok i ->
  let sent := skipn (List.length (Backend.log (backend w)))
                    (Backend.log (backend (snd (query ext self q filters top_k
                                                  custom_query idx w)))) in
  (forall c, custom_query = Some c -> c <> EmptyString ->
     sent = [Backend.SchemaGet; Backend.QueryRaw c] /\
     fst (query ext self q filters top_k custom_query idx w)
     = fst (query ext self q VNone top_k custom_query idx w)) /\
  (custom_query = None \/ custom_query = Some EmptyString ->
   truthy filters = true ->
   match compile_filters ext filters with
   | Ok f => sent = [Backend.SchemaGet; Backend.QueryGet i (Some f) (Some top_k)]
   | Raise e =>
       sent = [Backend.SchemaGet] /\
       fst (query ext self q filters top_k custom_query idx w) = Raise e
   end).
Proof.
  intros H1 H2 sent. subst sent.
  rewrite !(query_run ext self q _ top_k custom_query idx w i H1 H2).
  unfold query_after_schema. split.
  - intros c -> Hc.
    assert (Ht : truthy (VStr c) = true).
    { cbn. now destruct (String.eqb_spec c ""). }
    rewrite Ht. split; [|reflexivity].
    unfold bind at 1, request at 1. cbn [Backend.query_raw backend].
    rewrite decode_keeps_log. cbn [backend Backend.record Backend.log].
    rewrite <- app_assoc. apply skipn_appended.
  - intros Hc Hf.
    assert (Ht : truthy match custom_query with Some q0 => VStr q0 | None => VNone end
                 = false) by (destruct Hc as [-> | ->]; reflexivity).
    rewrite Ht, Hf.
    unfold bind at 1, bind at 1, lift at 1.
    destruct (compile_filters ext filters) as [f|e].
    + unfold request at 1. cbn [Backend.query_get backend].
      rewrite decode_keeps_log. cbn [backend Backend.record Backend.log].
      rewrite <- app_assoc. apply skipn_appended.
    + cbn [fst snd backend Backend.record Backend.log]. split; [|reflexivity].
      apply skipn_appended.
Qed.

Lemma query_sends_custom_query_before_filters_witness :
  index_or_default Sample.self None = Ok "Document" /\
  index_or_default Sample.self (Some "Document") = Ok "Document" /\
  skipn (List.length (Backend.log (backend Sample.three_written)))
        (Backend.log (backend (snd (query Sample.ext Sample.self None
                                      (VDict [("genre", VStr "news")]) 10
                                      (Some "{ Get { Document { content } } }") None
                                      Sample.three_written))))
  = [Backend.SchemaGet; Backend.QueryRaw "{ Get { Document { content } } }"].
Proof.
  assert (H1 : index_or_default Sample.self None = Ok "Document") by reflexivity.
  assert (H2 : index_or_default Sample.self (Some "Document") = Ok "Document")
    by reflexivity.
  split; [exact H1 | split; [exact H2|]].
  apply (proj1 (query_sends_custom_query_before_filters Sample.ext Sample.self None
                  (VDict [("genre", VStr "news")]) 10
                  (Some "{ Get { Document { content } } }") None Sample.three_written
                  "Document" H1 H2) _ eq_refl).
  discriminate.
Defined.

(** ** Deleting a whole index *)





(** ** Writing nothing, or under an unknown policy *)





(** ** Updating meta data against a schema with dates *)

Lemma coerce_meta_dates_keys ext : forall fs meta meta',
  coerce_meta_dates ext fs meta = Ok meta' ->
  forall k, dict_mem k meta' = dict_mem k meta.
Proof.
  induction fs as [|f rest IH]; intros meta meta' H k; cbn [coerce_meta_dates] in H.
  - now injection H as <-.
  - destruct (py_getitem f (VDict meta)) as [v|] eqn:Hv; cbn [rbind] in H;
      [|discriminate].
    destruct (isinstance_str v); [|now apply (IH meta)].
    destruct (to_rfc3339 ext v) as [s|]; cbn [rbind] in H; [|discriminate].
    rewrite (IH _ _ H), dict_mem_set.
    destruct (String.eqb_spec k f) as [->|E]; [|reflexivity].
    now rewrite (getitem_ok _ _ _ Hv).
Qed.

Lemma coerce_meta_dates_present ext : forall fs meta meta',
  coerce_meta_dates ext fs meta = Ok meta' ->
  forall f, In f fs -> dict_mem f meta = true.
Proof.
  induction fs as [|f0 rest IH]; intros meta meta' H f Hin; [contradiction|].
  cbn [coerce_meta_dates] in H.
  destruct (py_getitem f0 (VDict meta)) as [v|] eqn:Hv; cbn [rbind] in H;
    [|discriminate].
  destruct (String.eqb_spec f f0) as [->|E]; [exact (getitem_ok _ _ _ Hv)|].
  destruct Hin as [Hin|Hin]; [congruence|].
  destruct (isinstance_str v); [|now apply (IH meta meta')].
  destruct (to_rfc3339 ext v) as [s|]; cbn [rbind] in H; [|discriminate].
  specialize (IH _ _ H f Hin). rewrite dict_mem_set in IH.
  apply String.eqb_neq in E. now rewrite E in IH.
Qed.

Lemma coerce_meta_dates_app ext : forall pre post meta,
  coerce_meta_dates ext (pre ++ post) meta
  = rbind (coerce_meta_dates ext pre meta) (coerce_meta_dates ext post).
Proof.
  induction pre as [|f rest IH]; intros post meta; cbn [app coerce_meta_dates rbind].
  - reflexivity.
  - destruct (py_getitem f (VDict meta)); cbn [rbind]; [|reflexivity].
    destruct (isinstance_str a); [|apply IH].
    destruct (to_rfc3339 ext a); cbn [rbind]; [apply IH | reflexivity].
Qed.

(** X17.  [update_document_meta] reads every date property of the class in
    the new meta data: it completes only if the meta data holds them all,
    and raises [KeyError] for the first that is missing, after the schema
    has been extended and before the object is updated. *)
Theorem update_document_meta_needs_every_date_field
    (ext : collaborators) (self : config) (id : string) (meta : dict)
    (index_ : option string) (w : world) (cp : list string) (w1 : world)
    (cp' : list string) (w2 : world) (dates : list string) (w3 : world) :
  let index := or_default index_ (index self) in
  _get_current_properties self (Some index) w = (Ok cp, w1) ->
  update_missing ext self (_check_document cp meta) meta index cp w1 = (Ok cp', w2) ->
  _get_date_properties self (Some index) w2 = (Ok dates, w3) ->
  let run := update_document_meta ext self id meta index_ w in
  (is_ok (fst run) = true -> forall f, In f dates -> dict_mem f meta = true) /\
  (forall pre f post meta',
      dates = (pre ++ f :: post)%list ->
      coerce_meta_dates ext pre meta = Ok meta' ->
      dict_mem f meta = false ->
      run = (Raise (KeyError f), w3)).
Proof.
  intros index Hp Hu Hd run.
  assert (Hrun : run = (let* meta' := lift (coerce_meta_dates ext dates meta) in
                        request_r (Backend.update meta' index id None)) w3).
  { unfold run, update_document_meta. fold index.
    unfold bind at 1. rewrite Hp.
    unfold bind at 1. rewrite Hu.
    unfold bind at 1. rewrite Hd. reflexivity. }
  rewrite Hrun. unfold bind, lift. split.
  - destruct (coerce_meta_dates ext dates meta) as [m|] eqn:E; [|discriminate].
    intros _. exact (coerce_meta_dates_present _ _ _ _ E).
  - intros pre f post meta' -> Hpre Hmiss.
    rewrite coerce_meta_dates_app, Hpre. cbn [rbind coerce_meta_dates].
    rewrite getitem_missing; [reflexivity|].
    now rewrite (coerce_meta_dates_keys _ _ _ _ Hpre).
Qed.

Lemma update_document_meta_needs_every_date_field_witness :
  _get_current_properties Sample.self (Some "Document") Sample.tagged_written
  = (Ok Sample.tagged_properties,
     snd (_get_current_properties Sample.self (Some "Document") Sample.tagged_written)) /\
  dict_mem "day" [("genre", VStr "essay")] = false /\
  fst (update_document_meta Sample.ext Sample.self
         "ffe66bff-9675-d98c-e872-6768a096179c" [("genre", VStr "essay")] None
         Sample.tagged_written)
  = Raise (KeyError "day").
Proof.
  pose (w1 := snd (_get_current_properties Sample.self (Some "Document")
                     Sample.tagged_written)).
  pose (w3 := snd (_get_date_properties Sample.self (Some "Document") w1)).
  assert (H1 : _get_current_properties Sample.self (Some "Document")
                 Sample.tagged_written = (Ok Sample.tagged_properties, w1))
    by (vm_compute; reflexivity).
  assert (H2 : update_missing Sample.ext Sample.self
                 (_check_document Sample.tagged_properties [("genre", VStr "essay")])
                 [("genre", VStr "essay")] "Document" Sample.tagged_properties w1
               = (Ok Sample.tagged_properties, w1)) by reflexivity.
  assert (H3 : _get_date_properties Sample.self (Some "Document") w1 = (Ok ["day"], w3))
    by (vm_compute; reflexivity).
  assert (H4 : dict_mem "day" [("genre", VStr "essay")] = false) by reflexivity.
  split; [exact H1 | split; [exact H4|]].
  rewrite (proj2 (update_document_meta_needs_every_date_field Sample.ext Sample.self
                    "ffe66bff-9675-d98c-e872-6768a096179c" [("genre", VStr "essay")]
                    None Sample.tagged_written Sample.tagged_properties w1
                    Sample.tagged_properties w1 ["day"] w3 H1 H2 H3)
                 [] "day" [] [("genre", VStr "essay")] eq_refl eq_refl H4).
  reflexivity.
Defined.

(** ** What a method leaves alone *)

Section Frame.

Variable R : Backend.t -> Backend.t -> Prop.
Hypothesis R_refl : forall b, R b b.
Hypothesis R_trans : forall a b c, R a b -> R b c -> R a c.

Lemma keeps_ret {A} (a : A) : keeps R (ret a).
Proof. intros w. apply R_refl. Qed.

Lemma keeps_raise {A} (e : exn) : keeps R (@raise A e).
Proof. intros w. apply R_refl. Qed.

Lemma keeps_lift {A} (x : result A) : keeps R (lift x).
Proof. intros w. apply R_refl. Qed.

Lemma keeps_bind {A B} (m : M A) (k : A -> M B) :
  keeps R m -> (forall a, keeps R (k a)) -> keeps R (bind m k).
Proof.
  intros Hm Hk w. unfold bind. specialize (Hm w).
  destruct (m w) as [[a|e] w1]; cbn [snd] in *; [|exact Hm].
  exact (R_trans _ _ _ Hm (Hk a w1)).
Qed.

Lemma keeps_bind_ret {A B} (a : A) (k : A -> M B) :
  keeps R (k a) -> keeps R (bind (ret a) k).
Proof. intros H w. exact (H w). Qed.

Lemma keeps_request {A} (f : Backend.t -> A * Backend.t) :
  call_keeps R f -> keeps R (request f).
Proof.
  intros Hf w. unfold request. specialize (Hf (backend w)).
  destruct (f (backend w)) as [a b]. exact Hf.
Qed.

Lemma keeps_request_r {A} (f : Backend.t -> result A * Backend.t) :
  call_keeps R f -> keeps R (request_r f).
Proof.
  intros Hf w. unfold request_r. specialize (Hf (backend w)).
  destruct (f (backend w)) as [a b]. exact Hf.
Qed.

Lemma keeps_for_each {A} (body : A -> M unit) (l : list A) :
  (forall x, keeps R (body x)) -> keeps R (for_each l body).
Proof.
  intros Hb. induction l as [|x l IH]; cbn [for_each]; [apply keeps_ret|].
  apply keeps_bind; [apply Hb | intros _; exact IH].
Qed.

Lemma keeps_sanitize_id self id idx : keeps R (_sanitize_id self id idx).
Proof.
  unfold _sanitize_id.
  apply keeps_bind; [apply keeps_lift | intros i].
  destruct (negb (Uuid.UUID_PATTERN id)); [|apply keeps_ret].
  apply keeps_bind; [apply keeps_lift | intros u].
  intros w. apply R_refl.
Qed.

Lemma keeps_sanitize_ids self docs i : keeps R (sanitize_ids self docs i).
Proof.
  induction docs as [|do rest IH]; cbn [sanitize_ids]; [apply keeps_ret|].
  destruct (doc_id do); try apply keeps_raise.
  apply keeps_bind; [apply keeps_sanitize_id | intros id].
  apply keeps_bind; [exact IH | intros ds]. apply keeps_ret.
Qed.

(** Methods that only ask *)

Hypothesis R_log : forall b c, R b (Backend.record c b).

Lemma asks_schema_get : call_keeps R Backend.schema_get.
Proof. intros b. apply R_log. Qed.

Lemma asks_schema_contains s : call_keeps R (Backend.schema_contains s).
Proof. intros b. apply R_log. Qed.

Lemma asks_get_by_id u : call_keeps R (Backend.get_by_id u).
Proof. intros b. apply R_log. Qed.

Lemma asks_query_get f cls ps wh lim : call_keeps R (Backend.query_get f cls ps wh lim).
Proof. intros b. apply R_log. Qed.

Lemma asks_query_aggregate f cls wh : call_keeps R (Backend.query_aggregate f cls wh).
Proof. intros b. apply R_log. Qed.

Lemma asks_query_raw f q : call_keeps R (Backend.query_raw f q).
Proof. intros b. apply R_log. Qed.

Lemma keeps_get_current_properties self idx : keeps R (_get_current_properties self idx).
Proof.
  unfold _get_current_properties.
  apply keeps_bind; [apply keeps_lift | intros i].
  apply keeps_bind; [apply keeps_request, asks_schema_get | intros c].
  apply keeps_ret.
Qed.

Lemma keeps_get_date_properties self idx : keeps R (_get_date_properties self idx).
Proof.
  unfold _get_date_properties.
  apply keeps_bind; [apply keeps_lift | intros i].
  apply keeps_bind; [apply keeps_request, asks_schema_get | intros c].
  apply keeps_lift.
Qed.

Lemma keeps_get_document_by_id ext self id idx headers :
  keeps R (get_document_by_id ext self id idx headers).
Proof.
  unfold get_document_by_id. destruct (truthy headers); [apply keeps_raise|].
  apply keeps_bind; [apply keeps_lift | intros i].
  apply keeps_bind; [apply keeps_sanitize_id | intros u].
  apply keeps_bind; [apply keeps_request, asks_get_by_id | intros r].
  destruct (found r); [|apply keeps_ret].
  apply keeps_bind; [apply keeps_lift | intros d]. apply keeps_ret.
Qed.

Lemma keeps_get_documents_by_id_loop ext self ids i documents :
  keeps R (get_documents_by_id_loop ext self ids i documents).
Proof.
  revert documents. induction ids as [|id ids IH]; intros documents;
    cbn [get_documents_by_id_loop]; [apply keeps_ret|].
  apply keeps_bind; [apply keeps_sanitize_id | intros u].
  apply keeps_bind; [apply keeps_request, asks_get_by_id | intros r].
  destruct (found r); [|apply IH].
  apply keeps_bind; [apply keeps_lift | intros d]. apply IH.
Qed.

Lemma keeps_get_documents_by_id ext self ids idx bs headers :
  keeps R (get_documents_by_id ext self ids idx bs headers).
Proof.
  unfold get_documents_by_id. destruct (truthy headers); [apply keeps_raise|].
  apply keeps_bind; [apply keeps_lift | intros i].
  apply keeps_get_documents_by_id_loop.
Qed.

Lemma keeps_get_document_count ext self filters idx only headers :
  keeps R (get_document_count ext self filters idx only headers).
Proof.
  unfold get_document_count. destruct (truthy headers); [apply keeps_raise|].
  destruct only; [apply keeps_ret|].
  apply keeps_bind; [apply keeps_lift | intros i].
  apply keeps_bind; [|intros res; apply keeps_lift].
  destruct (truthy filters); [|apply keeps_request, asks_query_aggregate].
  apply keeps_bind; [apply keeps_lift | intros f].
  apply keeps_request, asks_query_aggregate.
Qed.

Lemma keeps_get_all_documents_in_index ext self idx filters bs :
  keeps R (let* g := _get_all_documents_in_index ext self idx filters bs in iterate g).
Proof.
  unfold _get_all_documents_in_index. apply keeps_bind_ret. unfold iterate.
  apply keeps_bind; [apply keeps_lift | intros i].
  apply keeps_bind; [apply keeps_get_current_properties | intros ps].
  apply keeps_bind; [|intros res].
  - destruct (truthy filters); [|apply keeps_request, asks_query_get].
    apply keeps_bind; [apply keeps_lift | intros f].
    apply keeps_request, asks_query_get.
  - apply keeps_bind; [apply keeps_lift | intros hits]. apply keeps_lift.
Qed.

Lemma keeps_get_all_documents_generator ext self idx filters re bs headers :
  keeps R (let* g := get_all_documents_generator ext self idx filters re bs headers in
           iterate g).
Proof.
  unfold get_all_documents_generator. apply keeps_bind_ret. unfold iterate at 1.
  destruct (truthy headers); [apply keeps_raise|].
  apply keeps_bind; [apply keeps_lift | intros i].
  apply keeps_bind_ret.
  apply keeps_bind; [exact (keeps_get_all_documents_in_index ext self (Some i) filters bs)
                    | intros rs].
  apply keeps_lift.
Qed.

Lemma keeps_get_all_documents ext self idx filters re bs headers :
  keeps R (get_all_documents ext self idx filters re bs headers).
Proof.
  unfold get_all_documents. destruct (truthy headers); [apply keeps_raise|].
  apply keeps_bind; [apply keeps_lift | intros i].
  apply keeps_bind_ret.
  apply keeps_bind; [exact (keeps_get_all_documents_generator ext self (Some i) filters
                              re bs VNone)
                    | intros ds; apply keeps_ret].
Qed.

Lemma keeps_query ext self q filters top_k custom idx :
  keeps R (query ext self q filters top_k custom idx).
Proof.
  unfold query.
  apply keeps_bind; [apply keeps_lift | intros i].
  apply keeps_bind; [apply keeps_get_current_properties | intros ps].
  apply keeps_bind; [|intros out].
  - destruct (truthy _); [apply keeps_request, asks_query_raw|].
    destruct (truthy filters); [|apply keeps_raise].
    apply keeps_bind; [apply keeps_lift | intros f].
    apply keeps_request, asks_query_get.
  - apply keeps_bind; [apply keeps_lift | intros hits].
    apply keeps_bind; [apply keeps_lift | intros l]. apply keeps_lift.
Qed.

Lemma keeps_handle_duplicate_documents ext self docs i dup :
  keeps R (_handle_duplicate_documents ext self docs i dup).
Proof.
  unfold _handle_duplicate_documents.
  destruct (String.eqb dup "overwrite"); [apply keeps_ret|].
  apply keeps_bind; [apply keeps_get_documents_by_id | intros found].
  destruct (map doc_id found); [apply keeps_ret|].
  destruct (String.eqb dup "fail"); [apply keeps_raise | apply keeps_ret].
Qed.

(** Methods that also change the schema, or delete *)

Hypothesis R_schema_create : forall s, call_keeps R (Backend.schema_create s).

Lemma keeps_create_schema self idx :
  keeps R (_create_schema_and_index_if_not_exist self idx).
Proof.
  unfold _create_schema_and_index_if_not_exist.
  apply keeps_bind; [apply keeps_lift | intros i].
  apply keeps_bind; [apply keeps_request, asks_schema_contains | intros known].
  destruct (negb known); [apply keeps_request_r, R_schema_create | apply keeps_ret].
Qed.

Lemma keeps_delete_documents ext self idx ids filters headers :
  (forall i, call_keeps R (Backend.schema_delete_class i)) ->
  (forall u, call_keeps R (Backend.delete u)) ->
  keeps R (delete_documents ext self idx ids filters headers).
Proof.
  intros Hwipe Hdel. unfold delete_documents.
  destruct (truthy headers); [apply keeps_raise|].
  apply keeps_bind; [apply keeps_lift | intros i].
  apply keeps_bind; [apply keeps_create_schema | intros _].
  destruct (_ && _)%bool.
  - apply keeps_bind; [apply keeps_request, Hwipe | intros _].
    apply keeps_create_schema.
  - apply keeps_bind; [apply keeps_get_all_documents | intros docs].
    apply keeps_for_each. intros doc. unfold delete_document.
    destruct (doc_id doc); try apply keeps_raise.
    apply keeps_request, Hdel.
Qed.

(** Methods that write *)

Hypothesis R_property_create : forall i p, call_keeps R (Backend.property_create i p).

Lemma keeps_update_schema ext self p v idx : keeps R (_update_schema ext self p v idx).
Proof.
  unfold _update_schema.
  apply keeps_bind; [apply keeps_lift | intros i].
  apply keeps_bind; [apply keeps_lift | intros t].
  apply keeps_request_r, R_property_create.
Qed.

Lemma keeps_update_missing ext self missing _doc i cp :
  keeps R (update_missing ext self missing _doc i cp).
Proof.
  revert cp. induction missing as [|p rest IH]; intros cp; cbn [update_missing];
    [apply keeps_ret|].
  apply keeps_bind; [apply keeps_lift | intros v].
  apply keeps_bind; [apply keeps_update_schema | intros _]. apply IH.
Qed.

Lemma keeps_write_document ext self i doc cp batch :
  keeps R (write_document ext self i doc cp batch).
Proof.
  unfold write_document.
  apply keeps_bind; [apply keeps_lift | intros [[u v] d]].
  apply keeps_bind; [apply keeps_update_missing | intros cp'].
  apply keeps_bind; [apply keeps_get_date_properties | intros ds].
  apply keeps_bind; [apply keeps_lift | intros d']. apply keeps_ret.
Qed.

Lemma keeps_write_batch ext self i docs cp batch :
  keeps R (write_batch ext self i docs cp batch).
Proof.
  revert cp batch. induction docs as [|doc rest IH]; intros cp batch;
    cbn [write_batch]; [apply keeps_ret|].
  apply keeps_bind; [apply keeps_write_document | intros st]. apply IH.
Qed.

Hypothesis R_batch_create : forall batch, call_keeps R (Backend.batch_create batch).

Lemma keeps_write_batches ext self i batches cp :
  keeps R (write_batches ext self i batches cp).
Proof.
  revert cp. induction batches as [|b rest IH]; intros cp; cbn [write_batches];
    [apply keeps_ret|].
  apply keeps_bind; [apply keeps_write_batch | intros st].
  apply keeps_bind; [apply keeps_request, R_batch_create | intros _]. apply IH.
Qed.

Lemma keeps_write_documents ext self docs idx bs dup headers :
  keeps R (write_documents ext self docs idx bs dup headers).
Proof.
  unfold write_documents. destruct (truthy headers); [apply keeps_raise|].
  apply keeps_bind; [apply keeps_lift | intros i].
  apply keeps_bind; [apply keeps_create_schema | intros _].
  destruct (negb _); [apply keeps_raise|].
  destruct docs as [|d docs]; [apply keeps_ret|].
  apply keeps_bind; [apply keeps_get_current_properties | intros cp].
  apply keeps_bind; [apply keeps_sanitize_ids | intros ds].
  apply keeps_bind; [apply keeps_handle_duplicate_documents | intros ds'].
  apply keeps_bind; [apply keeps_write_batches | intros cp']. apply keeps_ret.
Qed.

Lemma keeps_update_document_meta ext self id meta idx :
  (forall fields cls u v, call_keeps R (Backend.update fields cls u v)) ->
  keeps R (update_document_meta ext self id meta idx).
Proof.
  intros Hupd. unfold update_document_meta. cbv zeta.
  apply keeps_bind; [apply keeps_get_current_properties | intros cp].
  apply keeps_bind; [apply keeps_update_missing | intros cp'].
  apply keeps_bind; [apply keeps_get_date_properties | intros ds].
  apply keeps_bind; [apply keeps_lift | intros m].
  apply keeps_request_r, Hupd.
Qed.

End Frame.

(** The three relations *)

Lemma same_data_refl b : same_data b b.
Proof. split; reflexivity. Qed.

Lemma same_data_trans a b c : same_data a b -> same_data b c -> same_data a c.
Proof. intros [H1 H2] [H3 H4]. split; congruence. Qed.

Lemma same_data_log b c : same_data b (Backend.record c b).
Proof. split; reflexivity. Qed.

Lemma grows_refl b : grows b b.
Proof. split; auto. Qed.

Lemma grows_trans a b c : grows a b -> grows b c -> grows a c.
Proof. intros [H1 H2] [H3 H4]. split; auto. Qed.

Lemma grows_log b c : grows b (Backend.record c b).
Proof. split; auto. Qed.

Lemma shrinks_refl b : shrinks b b.
Proof. apply incl_refl. Qed.

Lemma shrinks_trans a b c : shrinks a b -> shrinks b c -> shrinks a c.
Proof. unfold shrinks. intros H1 H2. exact (incl_tran H2 H1). Qed.

Lemma shrinks_log b c : shrinks b (Backend.record c b).
Proof. apply incl_refl. Qed.

Lemma add_classes_keeps : forall s sch sch' c,
  Backend.add_classes s sch = Ok sch' ->
  existsb (fun c' => String.eqb (Backend.class_name c') c) sch = true ->
  existsb (fun c' => String.eqb (Backend.class_name c') c) sch' = true.
Proof.
  induction s as [|x s IH]; intros sch sch' c H Hc; cbn [Backend.add_classes] in H.
  - now injection H as <-.
  - destruct (existsb _ sch) in H; [discriminate|].
    apply (IH _ _ _ H). rewrite existsb_app, Hc. reflexivity.
Qed.

Lemma grows_schema_create s : call_keeps grows (Backend.schema_create s).
Proof.
  intros b. unfold Backend.schema_create. cbv zeta.
  destruct (Backend.add_classes s _) as [sch|e] eqn:E; cbn [snd]; [|apply grows_log].
  split; [auto|]. intros c Hc. unfold Backend.has_class in *. cbn.
  exact (add_classes_keeps _ _ _ _ E Hc).
Qed.

Lemma add_property_class_name i p c :
  Backend.class_name (Backend.add_property i p c) = Backend.class_name c.
Proof. unfold Backend.add_property. now destruct (String.eqb _ i). Qed.

Lemma grows_property_create i p : call_keeps grows (Backend.property_create i p).
Proof.
  intros b. unfold Backend.property_create. cbv zeta.
  destruct (Backend.has_class i _); cbn [snd]; [|apply grows_log].
  split; [auto|]. intros c Hc. unfold Backend.has_class in *. cbn.
  rewrite existsb_exists in *. destruct Hc as [x [Hin Hx]].
  exists (Backend.add_property i p x). split; [now apply in_map|].
  now rewrite add_property_class_name.
Qed.

Lemma dict_mem_update {V} (items d : list (string * V)) (k : string) :
  dict_mem k d = true -> dict_mem k (dict_update items d) = true.
Proof.
  unfold dict_update. revert d.
  induction items as [|[k0 v0] items IH]; intros d H; cbn [fold_left]; [exact H|].
  apply IH. cbn [fst snd]. rewrite dict_mem_set, H. apply orb_true_r.
Qed.

Lemma grows_batch_create batch : call_keeps grows (Backend.batch_create batch).
Proof.
  intros b. unfold Backend.batch_create. cbv zeta. cbn [snd]. split; [|auto].
  intros u Hu. cbn. now apply dict_mem_update.
Qed.

Lemma grows_update fields cls u v : call_keeps grows (Backend.update fields cls u v).
Proof.
  intros b. unfold Backend.update. cbv zeta.
  destruct (dict_get u _) as [o|]; cbn [snd]; [|apply grows_log].
  split; [|auto]. intros k Hk. cbn. rewrite dict_mem_set.
  cbn in Hk. rewrite Hk. apply orb_true_r.
Qed.

Lemma shrinks_schema_create s : call_keeps shrinks (Backend.schema_create s).
Proof.
  intros b. unfold Backend.schema_create. cbv zeta.
  destruct (Backend.add_classes s _); cbn [snd]; apply incl_refl.
Qed.

Lemma shrinks_schema_delete_class i : call_keeps shrinks (Backend.schema_delete_class i).
Proof.
  intros b. unfold Backend.schema_delete_class, shrinks. cbn.
  intros x Hx. apply filter_In in Hx. tauto.
Qed.

Lemma shrinks_delete u : call_keeps shrinks (Backend.delete u).
Proof.
  intros b. unfold Backend.delete, shrinks. cbn.
  intros x Hx. exact (dict_remove_incl _ _ _ Hx).
Qed.

(** X18.  Every method that reads leaves the schema and the objects of the
    service as they were, whatever it returns or raises; so does the
    generator of [get_all_documents_generator], made and then iterated. *)
Theorem reading_changes_no_data (ext : collaborators) (self : config) :
  (forall id idx headers, keeps same_data (get_document_by_id ext self id idx headers)) /\
  (forall ids idx bs headers,
      keeps same_data (get_documents_by_id ext self ids idx bs headers)) /\
  (forall filters idx only headers,
      keeps same_data (get_document_count ext self filters idx only headers)) /\
  (forall filters idx, keeps same_data (get_embedding_count ext self filters idx)) /\
  (forall idx filters re bs headers,
      keeps same_data (get_all_documents ext self idx filters re bs headers)) /\
  (forall idx filters re bs headers,
      keeps same_data
        (let* g := get_all_documents_generator ext self idx filters re bs headers in
         iterate g)) /\
  (forall q filters top_k custom idx,
      keeps same_data (query ext self q filters top_k custom idx)).
Proof.
  pose proof same_data_refl as Hr. pose proof same_data_trans as Ht.
  pose proof same_data_log as Hl.
  split; [intros; now apply keeps_get_document_by_id|].
  split; [intros; now apply keeps_get_documents_by_id|].
  split; [intros; now apply keeps_get_document_count|].
  split; [intros; now apply keeps_get_document_count|].
  split; [intros; now apply keeps_get_all_documents|].
  split; [intros; now apply keeps_get_all_documents_generator|].
  intros; now apply keeps_query.
Qed.

(** X19.  Writing documents and updating meta data lose nothing: every
    uuid that was stored is still stored afterwards and every class is
    still in the schema, whatever the method returns or raises. *)
Theorem writing_loses_nothing (ext : collaborators) (self : config) :
  (forall docs idx bs dup headers,
      keeps grows (write_documents ext self docs idx bs dup headers)) /\
  (forall id meta idx, keeps grows (update_document_meta ext self id meta idx)).
Proof.
  pose proof grows_refl as Hr. pose proof grows_trans as Ht.
  pose proof grows_log as Hl.
  split; intros.
  - apply keeps_write_documents; auto using grows_schema_create,
      grows_property_create, grows_batch_create.
  - apply keeps_update_document_meta; auto using grows_property_create, grows_update.
Qed.

(** X20.  Deleting stores nothing: every object left after
    [delete_documents] or [delete_all_documents] was there before, whatever
    the method returns or raises. *)
Theorem deleting_adds_nothing (ext : collaborators) (self : config) :
  (forall idx ids filters headers,
      keeps shrinks (delete_documents ext self idx ids filters headers)) /\
  (forall idx filters headers,
      keeps shrinks (delete_all_documents ext self idx filters headers)).
Proof.
  pose proof shrinks_refl as Hr. pose proof shrinks_trans as Ht.
  pose proof shrinks_log as Hl.
  assert (D : forall idx ids filters headers,
             keeps shrinks (delete_documents ext self idx ids filters headers)).
  { intros. apply keeps_delete_documents; auto using shrinks_schema_create,
      shrinks_schema_delete_class, shrinks_delete. }
  split; [exact D|]. intros idx filters headers. unfold delete_all_documents.
  destruct (truthy headers); [now apply keeps_raise | apply D].
Qed.




(** ** What a document adds to the schema *)

(** X22.  [_check_document] names keys of the document that the schema
    lacks, and once they are appended to the known properties, as the
    loops that extend the schema do, the document misses nothing. *)
Theorem check_document_leaves_nothing_missing (cur_props : list string) (doc : dict) :
  (forall k, In k (_check_document cur_props doc) <->
             In k (dict_keys doc) /\ str_in k cur_props = false) /\
  _check_document (cur_props ++ _check_document cur_props doc)%list doc = [].
Proof.
  split.
  - intros k. unfold _check_document. rewrite filter_In, negb_true_iff. tauto.
  - unfold _check_document.
    assert (G : forall keys extra,
               (forall k, In k keys -> str_in k cur_props = false -> In k extra) ->
               filter (fun item => negb (str_in item (cur_props ++ extra)%list)) keys = []).
    { induction keys as [|k keys IH]; intros extra H; [reflexivity|]. cbn [filter].
      assert (E : str_in k (cur_props ++ extra)%list = true).
      { unfold str_in. rewrite existsb_app.
        destruct (existsb (String.eqb k) cur_props) eqn:Ek; [reflexivity|].
        cbn [orb]. apply existsb_exists. exists k.
        split; [apply H; [now left | exact Ek] | apply String.eqb_refl]. }
      rewrite E. cbn [negb]. apply IH. intros k' Hk'. apply H. now right. }
    apply G. intros k Hk Hn. rewrite filter_In, negb_true_iff. now split.
Qed.
